(** * Cognitive Triangulation Pipeline: configuration, oracle client,
      agent factory and pipeline API

    A shallow embedding of
    - [src/config.js] (module [Config]),
    - the Anthropic oracle client (module [AnthropicClient]),
    - [ProductionAgentFactory] (module [ProductionAgentFactory]),
    - [src/utils/pipelineApi.js] (module [PipelineApi]),
    - [src/utils/initializeDb.js] (module [InitializeDb]),
    followed by the properties established about them. *)

From Stdlib Require Import ZArith Lia Ascii String.
From stdpp Require Import gmap strings list fin_maps pretty.

Set Warnings "-register-all".
Local Open Scope Z_scope.

(** ** JavaScript values

    Objects are finite maps from property names to values (own properties
    only: the prototype chain is not modelled), arrays are lists.  Numbers
    are the integers the code computes with, plus [NaN] and the two
    infinities.  A string is the UTF-8 encoding of the JavaScript string,
    byte by byte. *)

Module JS.

Inductive value :=
  | VUndef
  | VNull
  | VBool (b : bool)
  | VNum (z : Z)
  | VNaN
  | VInf (negative : bool)
  | VStr (s : string)
  | VArr (l : list value)
  | VObj (o : gmap string value).

(** ToBoolean. *)
Definition truthy (v : value) : bool :=
  match v with
  | VUndef | VNull | VNaN => false
  | VBool b => b
  | VNum z => negb (z =? 0)
  | VStr s => negb (String.eqb s "")
  | VInf _ | VArr _ | VObj _ => true
  end.

(** [a || b]. *)
Definition or_else (a b : value) : value := if truthy a then a else b.

(** [o.k] on an object: a missing property reads as [undefined]. *)
Definition get_prop (o : gmap string value) (k : string) : value :=
  default VUndef (o !! k).

(** [v === 'lit'] for a string literal. *)
Definition strict_eq_str (v : value) (lit : string) : bool :=
  match v with
  | VStr s => String.eqb s lit
  | _ => false
  end.

(** ToString, for the values a JSON document holds. *)
Fixpoint to_string (v : value) : string :=
  match v with
  | VUndef => "undefined"
  | VNull => "null"
  | VBool true => "true"
  | VBool false => "false"
  | VNum z => pretty z
  | VNaN => "NaN"
  | VInf false => "Infinity"
  | VInf true => "-Infinity"
  | VStr s => s
  | VArr l =>
      String.concat ","
        (List.map (fun x => match x with
                            | VUndef | VNull => ""
                            | _ => to_string x
                            end) l)
  | VObj _ => "[object Object]"
  end.

(** An [Error] object: its message and the two optional properties the
    oracle client inspects. *)
Record error := Error {
  message : string;
  status : option Z;
  code : option string
}.

(** [new Error(msg)]. *)
Definition new_Error (msg : string) : error :=
  {| message := msg; status := None; code := None |}.

(** The outcome of a call that may throw. *)
Inductive result (A : Type) :=
  | Ok (a : A)
  | Throw (e : error).
Arguments Ok {A} a.
Arguments Throw {A} e.

(** Code with side effects that may throw: a state-passing computation
    over the state [S] whose result is a value or a thrown error. *)
Definition M (S A : Type) : Type := S → S * result A.

#[global] Instance M_ret {S} : MRet (M S) := λ A a s, (s, Ok a).

#[global] Instance M_bind {S} : MBind (M S) := λ A B k m s,
  match m s with
  | (s', Ok a) => k a s'
  | (s', Throw e) => (s', Throw e)
  end.

Definition throw {S A} (e : error) : M S A := λ s, (s, Throw e).
Definition get {S} : M S S := λ s, (s, Ok s).
Definition modify {S} (f : S → S) : M S unit := λ s, (f s, Ok tt).

(** [try { body } catch (error) { handler }] *)
Definition try_catch {S A} (body : M S A) (handler : error → M S A) : M S A :=
  λ s, match body s with
       | (s', Ok a) => (s', Ok a)
       | (s', Throw e) => handler e s'
       end.

(** [try { body } finally { fin }]: an error thrown by [fin] replaces the
    outcome of [body]. *)
Definition try_finally {S A} (body : M S A) (fin : M S unit) : M S A :=
  λ s, let '(s1, r) := body s in
       match fin s1 with
       | (s2, Ok _) => (s2, r)
       | (s2, Throw e) => (s2, Throw e)
       end.

(** A step that fails when the collaborator reports a fault. *)
Definition fault {S} (f : option error) : M S unit :=
  match f with
  | Some e => throw e
  | None => mret tt
  end.

(** A property of the state that a computation cannot destroy, however it
    ends. *)
Definition preserves {S A} (P : S → Prop) (m : M S A) : Prop :=
  ∀ s s' r, P s → m s = (s', r) → P s'.

End JS.

Import JS.

(** ** [src/config.js] *)

Module Config.

(** [process.env] after dotenv has been loaded: names to strings. *)
Abbreviation process_env := (gmap string string).

(** [process.env.K]: a string, or [undefined] when unset. *)
Definition env_get (penv : process_env) (k : string) : value :=
  match penv !! k with
  | Some s => VStr s
  | None => VUndef
  end.

(** *** [parseInt(s, 10)] *)

(** StrWhiteSpaceChar (WhiteSpace and LineTerminator), by the length of
    its UTF-8 encoding.  One byte: U+0009 to U+000D and U+0020. *)
Definition is_ws (c : ascii) : bool :=
  let n := nat_of_ascii c in
  ((9 <=? n) && (n <=? 13))%nat || (n =? 32)%nat.

(** Two bytes: U+00A0. *)
Definition is_ws2 (c1 c2 : ascii) : bool :=
  ((nat_of_ascii c1 =? 194) && (nat_of_ascii c2 =? 160))%nat.

(** Three bytes: U+1680, U+2000 to U+200A, U+2028, U+2029, U+202F, U+205F,
    U+3000 and U+FEFF. *)
Definition is_ws3 (c1 c2 c3 : ascii) : bool :=
  let '(n1, n2, n3) := (nat_of_ascii c1, nat_of_ascii c2, nat_of_ascii c3) in
  ((n1 =? 225) && (n2 =? 154) && (n3 =? 128)
   || (n1 =? 226) && (n2 =? 128)
      && ((128 <=? n3) && (n3 <=? 138) || (n3 =? 168) || (n3 =? 169) || (n3 =? 175))
   || (n1 =? 226) && (n2 =? 129) && (n3 =? 159)
   || (n1 =? 227) && (n2 =? 128) && (n3 =? 128)
   || (n1 =? 239) && (n2 =? 187) && (n3 =? 191))%nat.

(** The first byte of a white space character of more than one byte. *)
Definition ws_lead (c : ascii) : bool :=
  let n := nat_of_ascii c in
  ((n =? 194) || (n =? 225) || (n =? 226) || (n =? 227) || (n =? 239))%nat.

(** The string without its leading white space. *)
Fixpoint skip_ws (s : string) : string :=
  match s with
  | String c1 s1 =>
      if is_ws c1 then skip_ws s1
      else if ws_lead c1 then
        match s1 with
        | String c2 s2 =>
            if is_ws2 c1 c2 then skip_ws s2
            else match s2 with
                 | String c3 s3 => if is_ws3 c1 c2 c3 then skip_ws s3 else s
                 | EmptyString => s
                 end
        | EmptyString => s
        end
      else s
  | EmptyString => s
  end.

Definition digit_val (c : ascii) : option Z :=
  let n := nat_of_ascii c in
  if ((48 <=? n) && (n <=? 57))%nat then Some (Z.of_nat (n - 48)) else None.

(** The longest prefix of decimal digits; [None] when there is none. *)
Fixpoint read_digits (s : string) (acc : option Z) : option Z :=
  match s with
  | String c s' =>
      match digit_val c with
      | Some d => read_digits s' (Some (10 * default 0 acc + d))
      | None => acc
      end
  | EmptyString => acc
  end.

Definition parse_decimal (s : string) : option Z :=
  match skip_ws s with
  | String "-" r => Z.opp <$> read_digits r None
  | String "+" r => read_digits r None
  | r => read_digits r None
  end.

(** The Number value of a mathematical integer: the nearest double, ties
    to the even significand, and an infinity from 2^1024 on. *)
Definition to_double (z : Z) : value :=
  let a := Z.abs z in
  if a <=? 2 ^ 53 then VNum z
  else
    let e := Z.log2 a - 52 in
    let q := a / 2 ^ e in
    let r := a mod 2 ^ e in
    let half := 2 ^ (e - 1) in
    let q' := if (half <? r) || ((r =? half) && Z.odd q) then q + 1 else q in
    if 2 ^ 1024 <=? q' * 2 ^ e then VInf (z <? 0)
    else VNum (Z.sgn z * (q' * 2 ^ e)).

(** [parseInt(process.env.K, 10)]: [undefined] is first converted to the
    string ["undefined"], which has no digits.  The digits are read as a
    mathematical integer, which is then rounded to a Number. *)
Definition parseInt10 (v : value) : value :=
  match v with
  | VStr s => match parse_decimal s with Some z => to_double z | None => VNaN end
  | _ => VNaN
  end.

(** *** The queue names *)

Definition QUEUE_NAMES : list string :=
  [ "file-analysis-queue";
    "directory-aggregation-queue";
    "directory-resolution-queue";
    "relationship-resolution-queue";
    "reconciliation-queue";
    "failed-jobs";
    "analysis-findings-queue";
    "global-resolution-queue";
    "relationship-validated-queue" ].

(** The queue names as the specification lists them. *)
Definition spec_queue_names : list string :=
  [ "file-analysis-queue";
    "directory-aggregation-queue";
    "directory-resolution-queue";
    "relationship-resolution-queue";
    "relationship-validated-queue";
    "reconciliation-queue";
    "global-resolution-queue";
    "analysis-findings-queue";
    "failed-jobs" ].

(** [.replace(/-/g, '_')] *)
Fixpoint replace_dash (s : string) : string :=
  match s with
  | String c s' => String (if Ascii.eqb c "-" then "_"%char else c) (replace_dash s')
  | EmptyString => EmptyString
  end.

(** [.toUpperCase()], on the ASCII range. *)
Definition upper_char (c : ascii) : ascii :=
  let n := nat_of_ascii c in
  if ((97 <=? n) && (n <=? 122))%nat then ascii_of_nat (n - 32) else c.

Fixpoint toUpperCase (s : string) : string :=
  match s with
  | String c s' => String (upper_char c) (toUpperCase s')
  | EmptyString => EmptyString
  end.

Definition constantName (queueName : string) : string :=
  (toUpperCase (replace_dash queueName) ++ "_QUEUE_NAME")%string.

(** *** The [config] object *)

(** The object literal, properties in source order. *)
Definition config_literal (penv : process_env) : gmap string value :=
  let e := env_get penv in
  <["QUEUE_NAMES" := VArr (VStr <$> QUEUE_NAMES)]> (
  <["REDIS_PASSWORD" := or_else (e "REDIS_PASSWORD") VUndef]> (
  <["REDIS_URL" := or_else (e "REDIS_URL") (VStr "redis://localhost:6379")]> (
  <["INGESTOR_INTERVAL_MS" :=
      or_else (parseInt10 (e "INGESTOR_INTERVAL_MS")) (VNum 10000)]> (
  <["INGESTOR_BATCH_SIZE" :=
      or_else (parseInt10 (e "INGESTOR_BATCH_SIZE")) (VNum 100)]> (
  <["NEO4J_DATABASE" := or_else (e "NEO4J_DATABASE") (VStr "neo4j")]> (
  <["NEO4J_PASSWORD" := or_else (e "NEO4J_PASSWORD") (VStr "password")]> (
  <["NEO4J_USER" := or_else (e "NEO4J_USER") (VStr "neo4j")]> (
  <["NEO4J_URI" := or_else (e "NEO4J_URI") (VStr "bolt://localhost:7687")]> (
  <["SQLITE_DB_PATH" := or_else (e "SQLITE_DB_PATH") (VStr "./db.sqlite")]> (
  <["ANTHROPIC_API_KEY" := e "ANTHROPIC_API_KEY"]> ∅)))))))))).

(** [config.QUEUE_NAMES.forEach(queueName => config[constantName] = queueName)] *)
Definition add_queue_constants (config : gmap string value) : gmap string value :=
  foldl (fun cfg queueName => <[constantName queueName := VStr queueName]> cfg)
        config QUEUE_NAMES.

Definition config (penv : process_env) : gmap string value :=
  add_queue_constants (config_literal penv).

(** *** Start-up checks *)

Definition is_production (penv : process_env) : bool :=
  strict_eq_str (env_get penv "NODE_ENV") "production".

Definition required_configs (penv : process_env) : list string :=
  [ "SQLITE_DB_PATH"; "NEO4J_URI"; "NEO4J_USER"; "NEO4J_PASSWORD";
    "ANTHROPIC_API_KEY"; "REDIS_URL" ]
  ++ (if is_production penv then ["REDIS_PASSWORD"] else []).

Definition missing_configs (penv : process_env) : list string :=
  List.filter (fun key => negb (truthy (get_prop (config penv) key)))
              (required_configs penv).

(** What requiring the module does: the process exits, or the module
    exports [config]. *)
Inductive startup :=
  | Exit (exit_code : Z)
  | Exports (cfg : gmap string value).

Definition load (penv : process_env) : startup :=
  if (0 <? length (missing_configs penv))%nat then Exit 1
  else if is_production penv
          && strict_eq_str (get_prop (config penv) "NEO4J_PASSWORD") "password"
  then Exit 1
  else Exports (config penv).

(** The text after a number does not go on with a digit. *)
Definition ends_number (rest : string) : Prop :=
  match rest with
  | String c _ => digit_val c = None
  | EmptyString => True
  end.

(** The properties of the object literal. *)
Definition literal_keys : list string :=
  [ "ANTHROPIC_API_KEY"; "SQLITE_DB_PATH"; "NEO4J_URI"; "NEO4J_USER";
    "NEO4J_PASSWORD"; "NEO4J_DATABASE"; "INGESTOR_BATCH_SIZE";
    "INGESTOR_INTERVAL_MS"; "REDIS_URL"; "REDIS_PASSWORD"; "QUEUE_NAMES" ].

(** The variables of [process.env] the module reads. *)
Definition read_variables : list string :=
  [ "ANTHROPIC_API_KEY"; "SQLITE_DB_PATH"; "NEO4J_URI"; "NEO4J_USER";
    "NEO4J_PASSWORD"; "NEO4J_DATABASE"; "INGESTOR_BATCH_SIZE";
    "INGESTOR_INTERVAL_MS"; "REDIS_URL"; "REDIS_PASSWORD"; "NODE_ENV" ].

(** The options the specification lists beside those of the object
    literal; it also lists the family [WORKER_CONCURRENCY_*]. *)
Definition spec_other_options : list string :=
  [ "TARGET_DIRECTORY"; "MAX_BATCH_TOKENS"; "MAX_BATCH_FILES";
    "ORACLE_TIMEOUT_MS"; "ORACLE_MAX_CONCURRENT"; "MAX_JOB_ATTEMPTS" ].

(** The name of a queue's constant in the specification's words: the name
    upper-cased, with '-' replaced by '_', plus the suffix. *)
Definition spec_constant_name (queueName : string) : string :=
  (replace_dash (toUpperCase queueName) ++ "_QUEUE_NAME")%string.

End Config.

(** ** The oracle client ([AnthropicClient]) *)

Module AnthropicClient.

(** *** Constructor *)

(** [this.timeout], in milliseconds. *)
Definition timeout : Z := 1800000.

Definition maxConcurrentRequests : Z := 4.

(** *** One HTTPS request

    What happens on the wire during one [_makeRequest], as seen by the
    callbacks the method installs; the first of them to fire settles the
    promise. *)
Inductive wire :=
  | Response (statusCode : Z) (json : result value)
      (** ['end']: the status line and what [JSON.parse(data)] gives *)
  | RequestError (e : error)
      (** ['error'] *)
  | RequestTimeout.
      (** ['timeout'], after [this.timeout] ms without activity *)

(** [parsedData.error?.message]; reading [.error] of [null] throws. *)
Definition error_message (parsedData : value) : result value :=
  match parsedData with
  | VNull | VUndef =>
      Throw (new_Error "Cannot read properties of null (reading 'error')")
  | VObj o =>
      match get_prop o "error" with
      | VObj e => Ok (get_prop e "message")
      | _ => Ok VUndef
      end
  | _ => Ok VUndef
  end.

(** The ['end'] handler: everything inside its [try]. *)
Definition on_end (statusCode : Z) (json : result value) : result value :=
  let parse_failure (parseError : error) :=
    Throw (new_Error ("Failed to parse response: " ++ message parseError)) in
  match json with
  | Throw parseError => parse_failure parseError
  | Ok parsedData =>
      if (200 <=? statusCode) && (statusCode <? 300) then Ok parsedData
      else
        match error_message parsedData with
        | Throw typeError => parse_failure typeError
        | Ok m =>
            Throw {| message :=
                       to_string (or_else m (VStr ("HTTP " ++ pretty statusCode)));
                     status := Some statusCode;
                     code := None |}
        end
  end.

(** The [apiKey] getter; [key] is
    [config.ANTHROPIC_API_KEY || process.env.ANTHROPIC_API_KEY]. *)
Definition apiKey (key : value) : result value :=
  if truthy key then Ok key
  else Throw (new_Error "ANTHROPIC_API_KEY environment variable is required").

Definition _makeRequest (key : value) (w : wire) : result value :=
  match apiKey key with
  | Throw e => Throw e
  | Ok _ =>
      match w with
      | Response statusCode json => on_end statusCode json
      | RequestError e => Throw e
      | RequestTimeout => Throw (new_Error "Request timeout")
      end
  end.

(** *** Retry *)

Definition retryable_codes : list string :=
  ["ECONNRESET"; "ETIMEDOUT"; "ENOTFOUND"; "EAI_AGAIN"].

(** [undefined >= 500] and [list.includes(undefined)] are both false. *)
Definition _isRetryableError (e : error) : bool :=
  match status e with Some s => 500 <=? s | None => false end
  || match code e with
     | Some c => bool_decide (c ∈ retryable_codes)
     | None => false
     end.

(** What one [_makeRequestWithRetry] did: how it settled, how many requests
    it made, and the [setTimeout] delays it slept, in order. *)
Record retry_run := RetryRun {
  outcome : result value;
  attempts : nat;
  delays : list Z
}.

(** The [for] loop from index [i] on; [fuel] is [retries - i].  [wires i]
    is what attempt [i] meets on the wire.  Leaving the loop by its
    condition returns [undefined]. *)
Fixpoint retry_loop (key : value) (wires : nat → wire) (retries : nat)
    (delay : Z) (fuel i : nat) : retry_run :=
  match fuel with
  | O => RetryRun (Ok VUndef) 0 []
  | S fuel' =>
      match _makeRequest key (wires i) with
      | Ok response => RetryRun (Ok response) 1 []
      | Throw e =>
          if _isRetryableError e && (Z.of_nat i <? Z.of_nat retries - 1) then
            let backoffDelay := delay * 2 ^ Z.of_nat i in
            let rest := retry_loop key wires retries delay fuel' (S i) in
            RetryRun (outcome rest) (S (attempts rest))
                     (backoffDelay :: delays rest)
          else RetryRun (Throw e) 1 []
      end
  end.

Definition _makeRequestWithRetry (key : value) (wires : nat → wire)
    (retries : nat) (delay : Z) : retry_run :=
  retry_loop key wires retries delay retries 0.

(** The defaults every caller in the client uses. *)
Definition default_retries : nat := 5.
Definition default_delay : Z := 2000.

(** *** The request scheduler

    A queued request is identified by a number; [started] and [enqueued]
    record the order in which requests were handed to
    [_makeRequestWithRetry] and to [_scheduleRequest], and [inflight] holds
    the started requests whose [finally] callback has not run yet. *)
Record client := Client {
  activeRequests : Z;
  requestQueue : list nat;
  inflight : list nat;
  started : list nat;
  enqueued : list nat
}.

Definition new_client : client := Client 0 [] [] [] [].

Definition _processQueue (c : client) : client :=
  if (maxConcurrentRequests <=? activeRequests c)
     || (length (requestQueue c) =? 0)%nat
  then c
  else
    match requestQueue c with
    | [] => c
    | r :: queue' =>
        {| activeRequests := activeRequests c + 1;
           requestQueue := queue';
           inflight := inflight c ++ [r];
           started := started c ++ [r];
           enqueued := enqueued c |}
    end.

Definition _scheduleRequest (r : nat) (c : client) : client :=
  _processQueue
    {| activeRequests := activeRequests c;
       requestQueue := requestQueue c ++ [r];
       inflight := inflight c;
       started := started c;
       enqueued := enqueued c ++ [r] |}.

(** The [finally] callback of a started request. *)
Definition on_finally (r : nat) (c : client) : client :=
  _processQueue
    {| activeRequests := activeRequests c - 1;
       requestQueue := requestQueue c;
       inflight := List.remove Nat.eq_dec r (inflight c);
       started := started c;
       enqueued := enqueued c |}.

(** The executions of the scheduler: callers schedule requests, and started
    requests settle, in any interleaving. *)
Inductive step : client → client → Prop :=
  | step_schedule (r : nat) (c : client) :
      r ∉ enqueued c →
      step c (_scheduleRequest r c)
  | step_settle (r : nat) (c : client) :
      r ∈ inflight c →
      step c (on_finally r c).

Inductive reachable : client → Prop :=
  | reachable_new : reachable new_client
  | reachable_step (c c' : client) : reachable c → step c c' → reachable c'.

(** What every reachable scheduler state satisfies. *)
Record scheduler_inv (c : client) : Prop := SchedulerInv {
  inv_count : activeRequests c = Z.of_nat (length (inflight c));
  inv_cap : activeRequests c <= maxConcurrentRequests;
  inv_order : enqueued c = started c ++ requestQueue c;
  inv_fresh : NoDup (enqueued c);
  inv_inflight : NoDup (inflight c) ∧ inflight c ⊆ started c;
  inv_busy : requestQueue c ≠ [] → activeRequests c = maxConcurrentRequests
}.

(** *** [call], [query], [testConnection], [createChatCompletion] *)

#[global] Instance result_ret : MRet result := λ A a, Ok a.

#[global] Instance result_bind : MBind result := λ A B k r,
  match r with
  | Ok a => k a
  | Throw e => Throw e
  end.

Definition TypeError_read (v : value) (k : string) : error :=
  new_Error ("Cannot read properties of " ++ to_string v
             ++ " (reading '" ++ k ++ "')").

(** [v.k] for a property name that no built-in prototype defines. *)
Definition read_prop (v : value) (k : string) : result value :=
  match v with
  | VUndef | VNull => Throw (TypeError_read v k)
  | VObj o => Ok (get_prop o k)
  | _ => Ok VUndef
  end.

(** [v[0]] *)
Definition read_first (v : value) : result value :=
  match v with
  | VUndef | VNull => Throw (TypeError_read v "0")
  | VArr l => Ok (default VUndef (head l))
  | VStr (String c _) => Ok (VStr (String c ""))
  | VObj o => Ok (get_prop o "0")
  | _ => Ok VUndef
  end.

(** What the promise of [_scheduleRequest] settles with: the request is
    started with the default retry budget; [wires] is what its attempts
    meet. *)
Definition scheduled (key : value) (wires : nat → wire) : result value :=
  outcome (_makeRequestWithRetry key wires default_retries default_delay).

(** [{ body: response.content[0].text, usage: response.usage }] *)
Definition call_result (response : value) : result value :=
  content ← read_prop response "content";
  first ← read_first content;
  text ← read_prop first "text";
  usage ← read_prop response "usage";
  mret (VObj (<["usage" := usage]> (<["body" := text]> ∅))).

(** [call], from its [try] on: the prompt is taken to be an object whose
    [user] and [system] can be read and serialised, so that the statements
    before the [try] do not throw. *)
Definition call (key : value) (wires : nat → wire) : result value :=
  match scheduled key wires ≫= call_result with
  | Ok r => Ok r
  | Throw e => Throw (new_Error ("Anthropic API call failed: " ++ message e))
  end.

Definition query (key : value) (wires : nat → wire) : result value :=
  response ← call key wires;
  read_prop response "body".

(** [body.includes(needle)] *)
Definition includes (body : value) (needle : string) : result bool :=
  match body with
  | VStr s => Ok (bool_decide (is_Some (String.index 0 needle s)))
  | VArr l => Ok (existsb (λ x, strict_eq_str x needle) l)
  | VUndef | VNull => Throw (TypeError_read body "includes")
  | _ => Throw (new_Error "response.body.includes is not a function")
  end.

Definition testConnection (key : value) (wires : nat → wire) : bool :=
  match response ← call key wires;
        body ← read_prop response "body";
        includes body "Connection successful" with
  | Ok b => b
  | Throw _ => false
  end.

(** A chat message, as far as [createChatCompletion] reads it. *)
Record message := Message { role : value; content : value }.


(** [createChatCompletion]: the response as it is, and the error of a
    failed request rethrown as it is. *)
Definition createChatCompletion (key : value) (wires : nat → wire) : result value :=
  scheduled key wires.

(** Attempt [j] of a call fails with an error the client retries. *)
Definition fails_retryably (key : value) (wires : nat → wire) (j : nat) : Prop :=
  ∃ e, _makeRequest key (wires j) = Throw e ∧ _isRetryableError e = true.


End AnthropicClient.

(** ** [ProductionAgentFactory] *)

Module ProductionAgentFactory.

(** *** The three stores *)

Abbreviation row := (gmap string value).

Record stores := Stores {
  sqlite : gmap string (list row);
      (** the relational store: table name to rows *)
  redis : gmap string string;
      (** the selected database of the cache/broker *)
  neo4j_nodes : list nat;
  neo4j_edges : list (nat * nat)
      (** the graph database [config.NEO4J_DATABASE] *)
}.

(** *** The factory object

    A dependency field is [true] once it has been assigned; the agents and
    workers are known by the key they are registered under. *)
Record factory := Factory {
  agents : gset string;
  workers : gset string;
  dbManager : bool;
  queueManager : bool;
  cacheClient : bool;
  llmClient : bool;
  neo4jDriver : bool
}.

(** [new ProductionAgentFactory()] *)
Definition new_factory : factory := Factory ∅ ∅ false false false false false.

(** How the collaborators the factory calls behave: the database manager,
    the queue manager, the drivers and the clients. *)
Record collaborators := Collaborators {
  new_DatabaseManager : option error;
  initializeDb : gmap string (list row) → result (gmap string (list row));
  queue_connect : option error;
  exec_fault : string → option error;
  flushdb_fault : option error;
  run_fault : option error;
  session_close_fault : option error;
  select_1 : option error;
  llm_testConnection : result value;
  verifyConnectivity : option error;
  ping : option error;
  close_fault : option error
}.

(** The factory together with the stores its methods act on. *)
Record state := State { this : factory; ext : stores }.

Definition set_this (f : factory → factory) : M state unit :=
  modify (λ s, State (f (this s)) (ext s)).
Definition set_ext (f : stores → stores) : M state unit :=
  modify (λ s, State (this s) (f (ext s))).

(** The [TypeError] of [null.property]. *)
Definition TypeError_null (property : string) : error :=
  new_Error ("Cannot read properties of null (reading '" ++ property ++ "')").

(** *** [initialize] *)
Definition initialize (C : collaborators) : M state unit :=
  fault (new_DatabaseManager C);;
  set_this (λ f, Factory (agents f) (workers f) true (queueManager f)
                         (cacheClient f) (llmClient f) (neo4jDriver f));;
  s ← get;
  match initializeDb C (sqlite (ext s)) with
  | Throw e => throw e
  | Ok db =>
      set_ext (λ x, Stores db (redis x) (neo4j_nodes x) (neo4j_edges x))
  end;;
  set_this (λ f, Factory (agents f) (workers f) (dbManager f) true
                         (cacheClient f) (llmClient f) (neo4jDriver f));;
  fault (queue_connect C);;
  set_this (λ f, Factory (agents f) (workers f) (dbManager f) (queueManager f)
                         true true true).

Definition ensure_initialized (C : collaborators) : M state unit :=
  s ← get;
  if dbManager (this s) then mret tt else initialize C.

(** *** [clearAllDatabases] *)

(** [db.exec('DELETE FROM ' + table)] *)
Definition exec_delete_from (C : collaborators) (table : string) : M state unit :=
  fault (exec_fault C table);;
  s ← get;
  match sqlite (ext s) !! table with
  | None => throw (new_Error ("no such table: " ++ table))
  | Some _ =>
      set_ext (λ x, Stores (<[table := []]> (sqlite x)) (redis x)
                           (neo4j_nodes x) (neo4j_edges x))
  end.

(** [await this.cacheClient.flushdb()] *)
Definition flushdb (C : collaborators) : M state unit :=
  s ← get;
  (if cacheClient (this s) then mret tt else throw (TypeError_null "flushdb"));;
  fault (flushdb_fault C);;
  set_ext (λ x, Stores (sqlite x) ∅ (neo4j_nodes x) (neo4j_edges x)).

(** [await session.run('MATCH (n) DETACH DELETE n')] *)
Definition detach_delete_all (C : collaborators) : M state unit :=
  fault (run_fault C);;
  set_ext (λ x, Stores (sqlite x) (redis x) [] []).

Definition clearAllDatabases (C : collaborators) : M state unit :=
  ensure_initialized C;;
  exec_delete_from C "relationships";;
  exec_delete_from C "relationship_evidence";;
  exec_delete_from C "pois";;
  exec_delete_from C "files";;
  exec_delete_from C "directory_summaries";;
  exec_delete_from C "outbox";;
  flushdb C;;
  s ← get;
  (if neo4jDriver (this s) then mret tt else throw (TypeError_null "session"));;
  try_finally (detach_delete_all C) (fault (session_close_fault C)).

(** *** [testConnections] *)

Definition no_results : gmap string value :=
  <["redis" := VBool false]> (
  <["neo4j" := VBool false]> (
  <["anthropic" := VBool false]> (
  <["sqlite" := VBool false]> ∅))).

(** The four [try]/[catch] probes; a probe on a dependency that is still
    [null] throws inside its [try]. *)
Definition probe (C : collaborators) (f : factory) : gmap string value :=
  let results := no_results in
  let results :=
    match select_1 C with
    | None => <["sqlite" := VBool true]> results
    | Some _ => results
    end in
  let results :=
    if llmClient f then
      match llm_testConnection C with
      | Ok v => <["anthropic" := v]> results
      | Throw _ => results
      end
    else results in
  let results :=
    if neo4jDriver f then
      match verifyConnectivity C with
      | None => <["neo4j" := VBool true]> results
      | Some _ => results
      end
    else results in
  let results :=
    if cacheClient f then
      match ping C with
      | None => <["redis" := VBool true]> results
      | Some _ => results
      end
    else results in
  results.

Definition testConnections (C : collaborators) : M state (gmap string value) :=
  ensure_initialized C;;
  s ← get;
  mret (probe C (this s)).

(** *** Agent accessors *)

Definition get_agent (key notInitialized : string) : M state unit :=
  s ← get;
  if bool_decide (key ∈ agents (this s)) then mret tt
  else throw (new_Error notInitialized).

Definition createEntityScout : M state unit :=
  get_agent "entityScout" "EntityScout not initialized".
Definition createGraphBuilder : M state unit :=
  get_agent "graphBuilder" "GraphBuilder not initialized".
Definition createRelationshipResolver : M state unit :=
  get_agent "relationshipResolver" "RelationshipResolver not initialized".

(** *** [cleanup]

    Every dependency that was assigned is closed; the first close that
    throws is rethrown by the method's [catch]. *)
Definition cleanup (C : collaborators) : M state unit :=
  s ← get;
  (if queueManager (this s) || cacheClient (this s)
      || neo4jDriver (this s) || dbManager (this s)
   then fault (close_fault C) else mret tt);;
  set_this (λ f, Factory ∅ ∅ (dbManager f) (queueManager f)
                         (cacheClient f) (llmClient f) (neo4jDriver f)).

(** The relational store once the six [DELETE FROM] statements of
    [clearAllDatabases] have run. *)
Definition deleted (db : gmap string (list row)) : gmap string (list row) :=
  <["outbox" := []]> (
  <["directory_summaries" := []]> (
  <["files" := []]> (
  <["pois" := []]> (
  <["relationship_evidence" := []]> (
  <["relationships" := []]> db))))).

(** *** [createAgents], [createWorkers], [startPipeline] *)

(** How the agent and worker modules behave: whether requiring a module
    and constructing its class throws. *)
Record modules := Modules {
  agent_fault : string → option error;
      (** by the key the agent is registered under *)
  worker_fault : string → option error;
      (** by the class name of the worker *)
  outbox_fault : option error;
  run_entityScout : option error
}.

(** [this.agents.set(key, agent)] *)
Definition set_agent (key : string) : M state unit :=
  set_this (λ f, Factory ({[key]} ∪ agents f) (workers f) (dbManager f)
                         (queueManager f) (cacheClient f) (llmClient f)
                         (neo4jDriver f)).

(** [this.workers.set(key, worker)] *)
Definition set_worker (key : string) : M state unit :=
  set_this (λ f, Factory (agents f) ({[key]} ∪ workers f) (dbManager f)
                         (queueManager f) (cacheClient f) (llmClient f)
                         (neo4jDriver f)).

(** The agents map once [createAgents] has registered the three pipeline
    agents, and the optional one when its module loads. *)
Definition with_agents (Mo : modules) (f : factory) : factory :=
  let three :=
    {["graphBuilder"]} ∪ ({["relationshipResolver"]} ∪ ({["entityScout"]} ∪ agents f)) in
  Factory (match agent_fault Mo "selfCleaningAgent" with
           | None => {["selfCleaningAgent"]} ∪ three
           | Some _ => three
           end)
          (workers f) (dbManager f) (queueManager f) (cacheClient f)
          (llmClient f) (neo4jDriver f).

(** The keys of a [Map] are given as a set: the order of
    [Array.from(map.keys())] is not modelled. *)
Definition createAgents (C : collaborators) (Mo : modules) : M state (gset string) :=
  ensure_initialized C;;
  fault (agent_fault Mo "entityScout");;
  set_agent "entityScout";;
  fault (agent_fault Mo "relationshipResolver");;
  set_agent "relationshipResolver";;
  fault (agent_fault Mo "graphBuilder");;
  set_agent "graphBuilder";;
  try_catch (fault (agent_fault Mo "selfCleaningAgent");;
             set_agent "selfCleaningAgent")
            (λ _, mret tt);;
  s ← get;
  mret (agents (this s)).

Definition worker_classes : list string :=
  [ "FileAnalysisWorker"; "DirectoryAggregationWorker";
    "DirectoryResolutionWorker"; "RelationshipResolutionWorker";
    "ValidationWorker"; "ReconciliationWorker" ].

(** [.toLowerCase()], on the ASCII range. *)
Definition lower_char (c : ascii) : ascii :=
  let n := nat_of_ascii c in
  if ((65 <=? n) && (n <=? 90))%nat then ascii_of_nat (n + 32) else c.

Fixpoint toLowerCase (s : string) : string :=
  match s with
  | String c s' => String (lower_char c) (toLowerCase s')
  | EmptyString => EmptyString
  end.

(** The body of the [for] loop, for one worker: a worker whose module or
    constructor throws is skipped. *)
Definition create_worker (Mo : modules) (name : string) : M state unit :=
  try_catch (fault (worker_fault Mo name);;
             set_worker (toLowerCase name))
            (λ _, mret tt).

Fixpoint for_each {S A} (body : A → M S unit) (l : list A) : M S unit :=
  match l with
  | [] => mret tt
  | x :: l' => body x;; for_each body l'
  end.

Definition createWorkers (C : collaborators) (Mo : modules) : M state (gset string) :=
  ensure_initialized C;;
  for_each (create_worker Mo) worker_classes;;
  s ← get;
  mret (workers (this s)).

(** What [startPipeline] returns. *)
Record started_pipeline := StartedPipeline {
  sp_status : string;
  sp_pipelineId : string;
  sp_targetDirectory : string;
  sp_agents : gset string;
  sp_workers : gset string
}.

Definition startPipeline (C : collaborators) (Mo : modules)
    (targetDirectory pipelineId : string) : M state started_pipeline :=
  ensure_initialized C;;
  createAgents C Mo;;
  createWorkers C Mo;;
  try_catch (fault (outbox_fault Mo)) (λ _, mret tt);;
  s ← get;
  (if bool_decide ("entityScout" ∈ agents (this s)) then mret tt
   else throw (new_Error "EntityScout agent not available"));;
  fault (run_entityScout Mo);;
  s ← get;
  mret (StartedPipeline "started" pipelineId targetDirectory
                        (agents (this s)) (workers (this s))).

End ProductionAgentFactory.

(** ** [src/utils/pipelineApi.js] *)

Module PipelineApi.

Import ProductionAgentFactory.

(** *** The pipeline status record

    [progress] (an object of objects) and [logs] (an array) are kept in
    typed fields; every other property of the record is in [props].  No
    caller in the file passes [progress] or [logs] as an update key. *)
Record log_entry := LogEntry { time : string; log_message : string }.

Record pipeline := Pipeline {
  props : gmap string value;
  progress : gmap string (gmap string value);
  logs : list log_entry
}.

(** How the code outside the file behaves. *)
Record environment := Environment {
  now : nat → string;
      (** the successive values of [new Date().toISOString()] *)
  require_factory : option error;
      (** [require('./productionAgentFactory')] and the constructor *)
  collab : collaborators;
  entityScout_run : option error;
  db_all : string → result (list (gmap string value));
  graphBuilder_run : option error;
  require_neo4jDriver : option error;
  count_nodes : result (list Z);
  count_relationships : result (list Z);
  session_close : option error;
  relationshipResolver_run : option error;
  count_final_relationships : result (list Z);
  session2_close : option error
}.

(** The registry, the clock, the local variable [factory] of the running
    invocation ([None] while it is [undefined]), and the stores. *)
Record world := World {
  activePipelines : gmap string pipeline;
  dates : nat;
  factoryVar : option factory;
  external : stores
}.

(** The registry holds a record for [pipelineId]. *)
Definition registered (pipelineId : string) (w : world) : Prop :=
  is_Some (activePipelines w !! pipelineId).

(** [new Date().toISOString()] *)
Definition toISOString (E : environment) : M world string :=
  λ w, (World (activePipelines w) (S (dates w)) (factoryVar w) (external w),
        Ok (now E (dates w))).

(** A method call on the local [factory]. *)
Definition on_factory {A} (m : M state A) : M world A :=
  λ w, match factoryVar w with
       | None => (w, Throw (new_Error "Cannot read properties of undefined"))
       | Some f =>
           let '(s, r) := m (State f (external w)) in
           (World (activePipelines w) (dates w) (Some (this s)) (ext s), r)
       end.

(** *** [updatePipelineStatus] *)

Fixpoint includes_dot (s : string) : bool :=
  match s with
  | String c s' => Ascii.eqb c "." || includes_dot s'
  | EmptyString => false
  end.

Fixpoint before_dot (s : string) : string :=
  match s with
  | String c s' => if Ascii.eqb c "." then EmptyString else String c (before_dot s')
  | EmptyString => EmptyString
  end.

Fixpoint after_dot (s : string) : string :=
  match s with
  | String c s' => if Ascii.eqb c "." then s' else after_dot s'
  | EmptyString => EmptyString
  end.

(** [const [outer, inner] = key.split('.')], for a key that has a dot. *)
Definition split_key (key : string) : string * string :=
  (before_dot key, before_dot (after_dot key)).

(** The body of the [forEach] callback. *)
Definition apply_update (p : pipeline) (kv : string * value) : pipeline :=
  let '(key, v) := kv in
  if includes_dot key then
    let '(outer, inner) := split_key key in
    let o := default ∅ (progress p !! outer) in
    Pipeline (props p) (<[outer := <[inner := v]> o]> (progress p)) (logs p)
  else Pipeline (<[key := v]> (props p)) (progress p) (logs p).

Definition set_pipeline (pipelineId : string) (p : pipeline) : M world unit :=
  modify (λ w, World (<[pipelineId := p]> (activePipelines w)) (dates w)
                     (factoryVar w) (external w)).

Definition updatePipelineStatus (E : environment) (pipelineId : string)
    (updates : list (string * value)) (logMessage : string) : M world unit :=
  w ← get;
  match activePipelines w !! pipelineId with
  | None => mret tt
  | Some pipeline =>
      let pipeline := foldl apply_update pipeline updates in
      t ← toISOString E;
      let pipeline :=
        Pipeline (<["lastUpdate" := VStr t]> (props pipeline))
                 (progress pipeline) (logs pipeline) in
      if truthy (VStr logMessage) then
        t' ← toISOString E;
        set_pipeline pipelineId
          (Pipeline (props pipeline) (progress pipeline)
                    (logs pipeline ++ [LogEntry t' logMessage]))
      else set_pipeline pipelineId pipeline
  end.

(** *** [startPipelineAsync] *)

Definition initial_progress : gmap string (gmap string value) :=
  <["relationshipResolver" :=
      <["confidenceScore" := VNum 0]> (
      <["relationshipsResolved" := VNum 0]> (
      <["status" := VStr "pending"]> ∅))]> (
  <["graphBuilder" :=
      <["relationshipsCreated" := VNum 0]> (
      <["nodesCreated" := VNum 0]> (
      <["status" := VStr "pending"]> ∅))]> (
  <["entityScout" :=
      <["entitiesFound" := VNum 0]> (
      <["filesProcessed" := VNum 0]> (
      <["status" := VStr "pending"]> ∅))]> ∅)).

(** The object literal [pipelineStatus] and its registration. *)
Definition register (E : environment) (pipelineId targetDirectory : string)
    : M world unit :=
  startTime ← toISOString E;
  lastUpdate ← toISOString E;
  set_pipeline pipelineId
    (Pipeline
       (<["lastUpdate" := VStr lastUpdate]> (
        <["startTime" := VStr startTime]> (
        <["phase" := VStr "initialization"]> (
        <["status" := VStr "starting"]> (
        <["targetDirectory" := VStr targetDirectory]> (
        <["pipelineId" := VStr pipelineId]> ∅))))))
       initial_progress []).

(** [let factory;] *)
Definition declare_factory : M world unit :=
  modify (λ w, World (activePipelines w) (dates w) None (external w)).

(** Everything before the [try]. *)
Definition prelude (E : environment) (pipelineId targetDirectory : string)
    : M world unit :=
  register E pipelineId targetDirectory;;
  declare_factory.

(** [rows[0].count] and [result.records[0].get('count').toNumber()] *)
Definition first_count {S} (rows : list (gmap string value)) : M S value :=
  match rows with
  | r :: _ => mret (get_prop r "count")
  | [] => throw (new_Error "Cannot read properties of undefined (reading 'count')")
  end.

Definition first_record {S} (records : list Z) : M S Z :=
  match records with
  | n :: _ => mret n
  | [] => throw (new_Error "Cannot read properties of undefined (reading 'get')")
  end.

Definition await {S A} (r : result A) : M S A :=
  match r with
  | Ok a => mret a
  | Throw e => throw e
  end.

(** [const ProductionAgentFactory = require(...); factory = new ...] *)
Definition load_factory (E : environment) : M world unit :=
  fault (require_factory E);;
  modify (λ w, World (activePipelines w) (dates w) (Some new_factory) (external w)).

Definition phase1_clear (E : environment) (pipelineId : string) : M world unit :=
  updatePipelineStatus E pipelineId
    [("phase", VStr "clearing_databases"); ("status", VStr "running")]
    "🗑️  Phase 1: Clearing databases for fresh start...";;
  on_factory (clearAllDatabases (collab E));;
  updatePipelineStatus E pipelineId []
    "✅ Databases cleared and schema initialized".

(** The phase-2 guard:
    [!connections.sqlite || !connections.deepseek || !connections.neo4j] *)
Definition connections_failed (connections : gmap string value) : bool :=
  negb (truthy (get_prop connections "sqlite"))
  || negb (truthy (get_prop connections "deepseek"))
  || negb (truthy (get_prop connections "neo4j")).

Definition phase2_connections (E : environment) (pipelineId : string)
    : M world unit :=
  updatePipelineStatus E pipelineId
    [("phase", VStr "testing_connections")]
    "🔗 Phase 2: Testing database and API connections...";;
  connections ← on_factory (testConnections (collab E));
  (if connections_failed connections
   then throw (new_Error "Required connections failed")
   else mret tt);;
  updatePipelineStatus E pipelineId [] "✅ All connections verified".

Definition phase3_entity_scout (E : environment)
    (pipelineId targetDirectory : string) : M world unit :=
  updatePipelineStatus E pipelineId
    [("phase", VStr "entity_scout");
     ("progress.entityScout.status", VStr "running")]
    ("🔍 Phase 3: Starting EntityScout analysis of " ++ targetDirectory ++ "...");;
  on_factory createEntityScout;;
  fault (entityScout_run E);;
  entityReports ← await (db_all E "SELECT COUNT(*) as count FROM entity_reports");
  totalFiles ← await (db_all E "SELECT COUNT(*) as count FROM files");
  files ← first_count totalFiles;
  entities ← first_count entityReports;
  updatePipelineStatus E pipelineId
    [("progress.entityScout.status", VStr "completed");
     ("progress.entityScout.filesProcessed", files);
     ("progress.entityScout.entitiesFound", entities)]
    ("✅ Phase 3 Complete: Processed " ++ to_string files ++ " files, found "
       ++ to_string entities ++ " entities").

Definition phase4_graph_builder (E : environment) (pipelineId : string)
    : M world unit :=
  updatePipelineStatus E pipelineId
    [("phase", VStr "graph_builder");
     ("progress.graphBuilder.status", VStr "running")]
    "🏗️ Phase 4: Starting GraphBuilder to create knowledge graph...";;
  on_factory createGraphBuilder;;
  fault (graphBuilder_run E);;
  fault (require_neo4jDriver E);;
  try_finally
    (nodeResult ← await (count_nodes E);
     relationshipResult ← await (count_relationships E);
     nodeCount ← first_record nodeResult;
     relationshipCount ← first_record relationshipResult;
     updatePipelineStatus E pipelineId
       [("progress.graphBuilder.status", VStr "completed");
        ("progress.graphBuilder.nodesCreated", VNum nodeCount);
        ("progress.graphBuilder.relationshipsCreated", VNum relationshipCount)]
       ("✅ Phase 4 Complete: Created " ++ pretty nodeCount ++ " nodes and "
          ++ pretty relationshipCount ++ " relationships"))
    (fault (session_close E)).

Definition phase5_relationship_resolver (E : environment) (pipelineId : string)
    : M world unit :=
  updatePipelineStatus E pipelineId
    [("phase", VStr "relationship_resolver");
     ("progress.relationshipResolver.status", VStr "running")]
    "🔗 Phase 5: Starting RelationshipResolver for cognitive triangulation...";;
  on_factory createRelationshipResolver;;
  fault (relationshipResolver_run E);;
  try_finally
    (finalRelationshipResult ← await (count_final_relationships E);
     finalRelationshipCount ← first_record finalRelationshipResult;
     updatePipelineStatus E pipelineId
       [("progress.relationshipResolver.status", VStr "completed");
        ("progress.relationshipResolver.relationshipsResolved",
         VNum finalRelationshipCount);
        ("progress.relationshipResolver.confidenceScore", VNum 95)]
       ("✅ Phase 5 Complete: Resolved " ++ pretty finalRelationshipCount
          ++ " total relationships with cognitive triangulation"))
    (fault (session2_close E)).

Definition completed (E : environment) (pipelineId : string) : M world unit :=
  endTime ← toISOString E;
  updatePipelineStatus E pipelineId
    [("status", VStr "completed"); ("phase", VStr "completed");
     ("endTime", VStr endTime)]
    "🎉 Cognitive triangulation pipeline completed successfully!".

(** The [try] block. *)
Definition try_block (E : environment) (pipelineId targetDirectory : string)
    : M world unit :=
  load_factory E;;
  phase1_clear E pipelineId;;
  phase2_connections E pipelineId;;
  phase3_entity_scout E pipelineId targetDirectory;;
  phase4_graph_builder E pipelineId;;
  phase5_relationship_resolver E pipelineId;;
  completed E pipelineId.

(** The [catch] block. *)
Definition catch_block (E : environment) (pipelineId : string) (err : error)
    : M world unit :=
  endTime ← toISOString E;
  updatePipelineStatus E pipelineId
    [("status", VStr "failed"); ("phase", VStr "failed");
     ("error", VStr (message err)); ("endTime", VStr endTime)]
    ("❌ Pipeline failed: " ++ message err).

(** The [finally] block. *)
Definition finally_block (E : environment) : M world unit :=
  w ← get;
  match factoryVar w with
  | Some _ => on_factory (cleanup (collab E))
  | None => mret tt
  end.

(** The local [factory] holds a factory whose [dbManager] is assigned. *)
Definition has_dbManager (w : world) : Prop :=
  ∃ f, factoryVar w = Some f ∧ dbManager f = true.

Definition startPipelineAsync (E : environment)
    (pipelineId targetDirectory : string) : M world unit :=
  prelude E pipelineId targetDirectory;;
  try_finally
    (try_catch (try_block E pipelineId targetDirectory)
               (catch_block E pipelineId))
    (finally_block E).

End PipelineApi.

(** ** [src/utils/initializeDb.js] *)

Module InitializeDb.

Import ProductionAgentFactory.

(** The tables of [basicSchema], in the order of their statements. *)
Definition basic_schema_tables : list string :=
  [ "files"; "pois"; "relationships"; "relationship_evidence";
    "directory_summaries"; "outbox" ].

(** [CREATE TABLE IF NOT EXISTS table (id INTEGER PRIMARY KEY
    AUTOINCREMENT, ...)].  Every table of the schema has such a key, and
    SQLite creates its own table [sqlite_sequence] with the first
    AUTOINCREMENT table of a database. *)
Definition create_table (db : gmap string (list row)) (table : string)
    : gmap string (list row) :=
  match db !! table with
  | Some _ => db
  | None =>
      let db := <[table := []]> db in
      match db !! "sqlite_sequence" with
      | Some _ => db
      | None => <["sqlite_sequence" := []]> db
      end
  end.

(** [db.exec(basicSchema)]; the indexes hold no rows.  Tables that exist
    already are taken to have the columns the indexes name. *)
Definition exec_basic_schema (db : gmap string (list row)) : gmap string (list row) :=
  foldl create_table db basic_schema_tables.

(** How the file system and the database driver behave. *)
Record system := System {
  open_fault : option error;
      (** [new Database(dbPath)] *)
  schema_file : option (gmap string (list row) → result (gmap string (list row)));
      (** [None] when [schema.sql] does not exist; otherwise what executing
          its content does *)
  basic_schema_fault : option error;
      (** [db.exec(basicSchema)] failing for a reason of the driver's *)
  list_tables_fault : option error;
  close_fault : option error
}.

(** How the script ends: [process.exit(1)], or normally with the database
    as it leaves it. *)
Inductive run :=
  | Exit (exit_code : Z)
  | Done (db : gmap string (list row)).

Definition initializeDatabase (Sy : system) (db : gmap string (list row)) : run :=
  let body : result (gmap string (list row)) :=
    match open_fault Sy with
    | Some e => Throw e
    | None =>
        match match schema_file Sy with
              | None =>
                  match basic_schema_fault Sy with
                  | Some e => Throw e
                  | None => Ok (exec_basic_schema db)
                  end
              | Some exec => exec db
              end with
        | Throw e => Throw e
        | Ok db' =>
            match list_tables_fault Sy with
            | Some e => Throw e
            | None =>
                match close_fault Sy with
                | Some e => Throw e
                | None => Ok db'
                end
            end
        end
    end in
  match body with
  | Ok db' => Done db'
  | Throw _ => Exit 1
  end.

End InitializeDb.

(** ** Sample inputs *)

Module Samples.

(** A factory fresh from its constructor, all collaborators in working
    order, and stores that hold data. *)
Definition healthy_collaborators : ProductionAgentFactory.collaborators :=
  {| ProductionAgentFactory.new_DatabaseManager := None;
     ProductionAgentFactory.initializeDb := λ db, Ok db;
     ProductionAgentFactory.queue_connect := None;
     ProductionAgentFactory.exec_fault := λ _, None;
     ProductionAgentFactory.flushdb_fault := None;
     ProductionAgentFactory.run_fault := None;
     ProductionAgentFactory.session_close_fault := None;
     ProductionAgentFactory.select_1 := None;
     ProductionAgentFactory.llm_testConnection := Ok (VBool true);
     ProductionAgentFactory.verifyConnectivity := None;
     ProductionAgentFactory.ping := None;
     ProductionAgentFactory.close_fault := None |}.

Definition populated_stores : ProductionAgentFactory.stores :=
  {| ProductionAgentFactory.sqlite :=
       <["relationships" := [{["id" := VNum 1]}]]> (
       <["relationship_evidence" := [{["id" := VNum 1]}; {["id" := VNum 2]}]]> (
       <["pois" := [{["poi_id" := VStr "a.js:function:f:1"]}]]> (
       <["files" := [{["file_path" := VStr "a.js"]}]]> (
       <["directory_summaries" := []]> (
       <["outbox" := [{["status" := VStr "pending"]}]]> ∅)))));
     ProductionAgentFactory.redis := {["discovery-lock:/repo" := "worker-1"]};
     ProductionAgentFactory.neo4j_nodes := [1; 2]%nat;
     ProductionAgentFactory.neo4j_edges := [(1, 2)]%nat |}.

Definition fresh_factory_state : ProductionAgentFactory.state :=
  ProductionAgentFactory.State ProductionAgentFactory.new_factory populated_stores.

(** The world before the first invocation. *)
Definition world0 : PipelineApi.world :=
  PipelineApi.World ∅ 0 None populated_stores.

(** Every collaborator in working order. *)
Definition healthy : PipelineApi.environment :=
  {| PipelineApi.now := λ n, "tick-" +:+ pretty n;
     PipelineApi.require_factory := None;
     PipelineApi.collab := healthy_collaborators;
     PipelineApi.entityScout_run := None;
     PipelineApi.db_all := λ _, Ok [{["count" := VNum 2]}];
     PipelineApi.graphBuilder_run := None;
     PipelineApi.require_neo4jDriver := None;
     PipelineApi.count_nodes := Ok [2];
     PipelineApi.count_relationships := Ok [1];
     PipelineApi.session_close := None;
     PipelineApi.relationshipResolver_run := None;
     PipelineApi.count_final_relationships := Ok [1];
     PipelineApi.session2_close := None |}.

(** Closing the connections fails. *)
Definition close_fails : PipelineApi.environment :=
  {| PipelineApi.now := PipelineApi.now healthy;
     PipelineApi.require_factory := None;
     PipelineApi.collab :=
       {| ProductionAgentFactory.new_DatabaseManager := None;
          ProductionAgentFactory.initializeDb := λ db, Ok db;
          ProductionAgentFactory.queue_connect := None;
          ProductionAgentFactory.exec_fault := λ _, None;
          ProductionAgentFactory.flushdb_fault := None;
          ProductionAgentFactory.run_fault := None;
          ProductionAgentFactory.session_close_fault := None;
          ProductionAgentFactory.select_1 := None;
          ProductionAgentFactory.llm_testConnection := Ok (VBool true);
          ProductionAgentFactory.verifyConnectivity := None;
          ProductionAgentFactory.ping := None;
          ProductionAgentFactory.close_fault := Some (new_Error "close failed") |};
     PipelineApi.entityScout_run := None;
     PipelineApi.db_all := PipelineApi.db_all healthy;
     PipelineApi.graphBuilder_run := None;
     PipelineApi.require_neo4jDriver := None;
     PipelineApi.count_nodes := Ok [2];
     PipelineApi.count_relationships := Ok [1];
     PipelineApi.session_close := None;
     PipelineApi.relationshipResolver_run := None;
     PipelineApi.count_final_relationships := Ok [1];
     PipelineApi.session2_close := None |}.

(** The cache refuses [flushdb]. *)
Definition cache_down : PipelineApi.environment :=
  {| PipelineApi.now := PipelineApi.now healthy;
     PipelineApi.require_factory := None;
     PipelineApi.collab :=
       {| ProductionAgentFactory.new_DatabaseManager := None;
          ProductionAgentFactory.initializeDb := λ db, Ok db;
          ProductionAgentFactory.queue_connect := None;
          ProductionAgentFactory.exec_fault := λ _, None;
          ProductionAgentFactory.flushdb_fault :=
            Some (new_Error "Connection is closed.");
          ProductionAgentFactory.run_fault := None;
          ProductionAgentFactory.session_close_fault := None;
          ProductionAgentFactory.select_1 := None;
          ProductionAgentFactory.llm_testConnection := Ok (VBool true);
          ProductionAgentFactory.verifyConnectivity := None;
          ProductionAgentFactory.ping := None;
          ProductionAgentFactory.close_fault := None |};
     PipelineApi.entityScout_run := None;
     PipelineApi.db_all := PipelineApi.db_all healthy;
     PipelineApi.graphBuilder_run := None;
     PipelineApi.require_neo4jDriver := None;
     PipelineApi.count_nodes := Ok [2];
     PipelineApi.count_relationships := Ok [1];
     PipelineApi.session_close := None;
     PipelineApi.relationshipResolver_run := None;
     PipelineApi.count_final_relationships := Ok [1];
     PipelineApi.session2_close := None |}.

(** A production environment that keeps the default graph-store password. *)
Definition production_env_default_neo4j : gmap string string :=
  <["NODE_ENV" := "production"]> (
  <["ANTHROPIC_API_KEY" := "sk-test"]> (
  <["REDIS_PASSWORD" := "s3cret"]> ∅)).

(** Ingestor options that are not positive integers. *)
Definition env_with_invalid_ingestor_options : gmap string string :=
  <["ANTHROPIC_API_KEY" := "sk-test"]> (
  <["INGESTOR_BATCH_SIZE" := "abc"]> (
  <["INGESTOR_INTERVAL_MS" := "-5"]> ∅)).

(** A server that answers 503, with a JSON body, to every attempt. *)
Definition always_503 : nat → AnthropicClient.wire :=
  λ _, AnthropicClient.Response 503 (Ok (VObj ∅)).

(** Six requests are scheduled, then the first one settles: four are in
    flight, the fifth was started when the slot became free, the sixth
    waits. *)
Definition six_scheduled_one_settled : AnthropicClient.client :=
  AnthropicClient.on_finally 0
    (foldl (λ c r, AnthropicClient._scheduleRequest r c)
           AnthropicClient.new_client [0; 1; 2; 3; 4; 5]%nat).

(** The oracle answers 503 twice, then 200 with a message. *)
Definition flaky_then_ok : nat → AnthropicClient.wire :=
  λ i, match i with
       | 0%nat | 1%nat => AnthropicClient.Response 503 (Ok (VObj ∅))
       | _ =>
           AnthropicClient.Response 200
             (Ok (VObj (<["usage" := VObj (<["output_tokens" := VNum 3]> ∅)]> (
                        <["content" :=
                            VArr [VObj (<["text" := VStr "Connection successful"]> ∅)]]>
                          ∅))))
       end.

(** A batch size written with a unit. *)
Definition env_with_unit_suffix : gmap string string :=
  <["ANTHROPIC_API_KEY" := "sk-test"]> (
  <["INGESTOR_BATCH_SIZE" := "250px"]> ∅).

(** No [schema.sql] beside the script, and a driver in working order. *)
Definition no_schema_file : InitializeDb.system :=
  {| InitializeDb.open_fault := None;
     InitializeDb.schema_file := None;
     InitializeDb.basic_schema_fault := None;
     InitializeDb.list_tables_fault := None;
     InitializeDb.close_fault := None |}.

(** A database that has only the [files] table, with one row. *)
Definition files_only : gmap string (list ProductionAgentFactory.row) :=
  {["files" := [{["file_path" := VStr "a.js"]}]]}.

(** A factory whose [initialize] has run, on stores that hold data. *)
Definition initialised_factory_state : ProductionAgentFactory.state :=
  ProductionAgentFactory.State
    (ProductionAgentFactory.Factory ∅ ∅ true true true true true)
    populated_stores.

(** The queue broker cannot be reached. *)
Definition queue_down : ProductionAgentFactory.collaborators :=
  {| ProductionAgentFactory.new_DatabaseManager := None;
     ProductionAgentFactory.initializeDb := λ db, Ok db;
     ProductionAgentFactory.queue_connect :=
       Some (new_Error "connect ECONNREFUSED 127.0.0.1:6379");
     ProductionAgentFactory.exec_fault := λ _, None;
     ProductionAgentFactory.flushdb_fault := None;
     ProductionAgentFactory.run_fault := None;
     ProductionAgentFactory.session_close_fault := None;
     ProductionAgentFactory.select_1 := None;
     ProductionAgentFactory.llm_testConnection := Ok (VBool true);
     ProductionAgentFactory.verifyConnectivity := None;
     ProductionAgentFactory.ping := None;
     ProductionAgentFactory.close_fault := None |}.

(** The optional agent and one worker module are missing. *)
Definition optional_modules_missing : ProductionAgentFactory.modules :=
  {| ProductionAgentFactory.agent_fault :=
       λ key, if String.eqb key "selfCleaningAgent"
              then Some (new_Error "Cannot find module '../agents/SelfCleaningAgent'")
              else None;
     ProductionAgentFactory.worker_fault :=
       λ name, if String.eqb name "ValidationWorker"
               then Some (new_Error "Cannot find module '../workers/ValidationWorker'")
               else None;
     ProductionAgentFactory.outbox_fault :=
       Some (new_Error "Cannot find module '../services/TransactionalOutboxPublisher'");
     ProductionAgentFactory.run_entityScout := None |}.

(** A registry that already follows one pipeline. *)
Definition world_with_a_pipeline : PipelineApi.world :=
  (PipelineApi.register healthy "pipeline-1" "/repo" world0).1.

End Samples.

(** * Properties *)

(** Closes a decidable goal about concrete data by evaluation. *)
Ltac decide_closed :=
  match goal with
  | |- ?P => apply (bool_decide_unpack P); vm_compute; exact I
  end.

(** ** Configuration *)

Section ConfigFacts.
Import Config.
Variable penv : gmap string string.

Lemma truthy_or_else (a b : value) :
  truthy (or_else a b) = truthy a || truthy b.
Proof. unfold or_else. destruct (truthy a) eqn:Ha; simpl; auto. Qed.

Lemma config_defaulted (k d : string) :
  In (k, d) [("SQLITE_DB_PATH", "./db.sqlite"); ("NEO4J_URI", "bolt://localhost:7687");
             ("NEO4J_USER", "neo4j"); ("NEO4J_PASSWORD", "password");
             ("REDIS_URL", "redis://localhost:6379"); ("NEO4J_DATABASE", "neo4j")] →
  get_prop (config penv) k = or_else (env_get penv k) (VStr d).
Proof.
  cbn [In]. intros H.
  repeat (destruct H as [[= <- <-] | H]; [reflexivity |]). destruct H.
Qed.

Lemma config_ANTHROPIC_API_KEY :
  get_prop (config penv) "ANTHROPIC_API_KEY" = env_get penv "ANTHROPIC_API_KEY".
Proof. reflexivity. Qed.

Lemma config_REDIS_PASSWORD :
  get_prop (config penv) "REDIS_PASSWORD" = or_else (env_get penv "REDIS_PASSWORD") VUndef.
Proof. reflexivity. Qed.

Lemma config_INGESTOR_BATCH_SIZE :
  get_prop (config penv) "INGESTOR_BATCH_SIZE"
  = or_else (parseInt10 (env_get penv "INGESTOR_BATCH_SIZE")) (VNum 100).
Proof. reflexivity. Qed.

Lemma config_INGESTOR_INTERVAL_MS :
  get_prop (config penv) "INGESTOR_INTERVAL_MS"
  = or_else (parseInt10 (env_get penv "INGESTOR_INTERVAL_MS")) (VNum 10000).
Proof. reflexivity. Qed.

Lemma defaulted_truthy (k d : string) :
  d ≠ ""%string → truthy (or_else (env_get penv k) (VStr d)) = true.
Proof.
  intros Hd. rewrite truthy_or_else. apply orb_true_iff. right.
  simpl. destruct (String.eqb_spec d ""); [done | reflexivity].
Qed.

Lemma load_closed_form :
  load penv =
    if negb (truthy (env_get penv "ANTHROPIC_API_KEY"))
       || (is_production penv && negb (truthy (env_get penv "REDIS_PASSWORD")))
    then Exit 1
    else if is_production penv
            && strict_eq_str (or_else (env_get penv "NEO4J_PASSWORD") (VStr "password"))
                             "password"
    then Exit 1
    else Exports (config penv).
Proof.
  unfold load, missing_configs, required_configs.
  rewrite List.filter_app. cbn [List.filter].
  rewrite (config_defaulted "SQLITE_DB_PATH" "./db.sqlite"),
    (config_defaulted "NEO4J_URI" "bolt://localhost:7687"),
    (config_defaulted "NEO4J_USER" "neo4j"),
    (config_defaulted "NEO4J_PASSWORD" "password"),
    (config_defaulted "REDIS_URL" "redis://localhost:6379") by (cbn; tauto).
  rewrite config_ANTHROPIC_API_KEY.
  rewrite !defaulted_truthy by done. cbn [negb].
  destruct (is_production penv); cbn [List.filter].
  - rewrite config_REDIS_PASSWORD, truthy_or_else. cbn [truthy].
    rewrite orb_false_r.
    destruct (truthy (env_get penv "ANTHROPIC_API_KEY")),
             (truthy (env_get penv "REDIS_PASSWORD")); reflexivity.
  - destruct (truthy (env_get penv "ANTHROPIC_API_KEY")); reflexivity.
Qed.

Lemma load_exits_or_exports :
  load penv = Exit 1 ∨ load penv = Exports (config penv).
Proof.
  rewrite load_closed_form.
  destruct (negb _ || _); [by left |]. destruct (_ && _); [by left | by right].
Qed.

(** Replacing the dashes and upper-casing commute. *)
Lemma constantName_spec (q : string) : constantName q = spec_constant_name q.
Proof.
  unfold constantName, spec_constant_name. f_equal.
  induction q as [| c q IH]; [done |]. cbn [replace_dash toUpperCase]. f_equal.
  - destruct c as [[] [] [] [] [] [] [] []]; reflexivity.
  - exact IH.
Qed.

(** What an ingestor option becomes. *)
Lemma ingestor_option_value (k : string) (d : Z) :
  d ≠ 0 →
  or_else (parseInt10 (env_get penv k)) (VNum d)
  = match penv !! k ≫= parse_decimal with
    | Some z => if z =? 0 then VNum d else to_double z
    | None => VNum d
    end.
Proof.
  intros Hd. unfold env_get, parseInt10.
  destruct (penv !! k) as [s |]; cbn [mbind option_bind]; [| reflexivity].
  destruct (parse_decimal s) as [z |]; [| reflexivity].
  destruct (Z.eqb_spec z 0) as [-> | Hz]; [reflexivity |].
  unfold or_else.
  assert (truthy (to_double z) = true) as ->; [| reflexivity].
  unfold to_double. destruct (Z.abs z <=? 2 ^ 53) eqn:Ha.
  { cbn [truthy]. by destruct (Z.eqb_spec z 0). }
  apply Z.leb_gt in Ha. cbv zeta.
  set (e := Z.log2 (Z.abs z) - 52).
  match goal with
  | |- context [if ?c then ?a + 1 else ?a] => set (q' := if c then a + 1 else a)
  end.
  destruct (2 ^ 1024 <=? q' * 2 ^ e); [reflexivity |].
  cbn [truthy]. apply negb_true_iff, Z.eqb_neq.
  assert (53 <= Z.log2 (Z.abs z)) by (apply Z.log2_le_pow2; lia).
  assert (0 < 2 ^ e) by (apply Z.pow_pos_nonneg; lia).
  assert (0 < Z.abs z / 2 ^ e).
  { apply Z.div_str_pos. split; [done |].
    transitivity (2 ^ Z.log2 (Z.abs z)).
    - apply Z.pow_le_mono_r; lia.
    - apply Z.log2_spec. lia. }
  assert (0 < q') by (subst q'; destruct (_ || _); lia).
  destruct z; [done | |]; cbn [Z.sgn]; nia.
Qed.

(** The properties of [config]. *)
Lemma config_dom :
  dom (config penv) = list_to_set (literal_keys ++ (constantName <$> QUEUE_NAMES)).
Proof.
  unfold config, add_queue_constants, config_literal.
  cbn [foldl QUEUE_NAMES]. rewrite !dom_insert_L, dom_empty_L.
  apply set_eq. intros k. rewrite elem_of_list_to_set.
  rewrite !elem_of_union, !elem_of_singleton, elem_of_empty.
  unfold literal_keys, QUEUE_NAMES. cbn [fmap list_fmap app].
  rewrite !elem_of_cons, elem_of_nil. tauto.
Qed.

(** Start-up depends on the environment through [read_variables] only. *)
Lemma load_reads_only (penv' : gmap string string) :
  (∀ k, k ∈ read_variables → penv' !! k = penv !! k) → load penv' = load penv.
Proof.
  intros Hsame.
  assert (∀ k, k ∈ read_variables → env_get penv' k = env_get penv k) as Henv
    by (intros k Hk; unfold env_get; by rewrite Hsame).
  assert (config penv' = config penv) as Hcfg.
  { unfold config, config_literal. cbv zeta.
    by rewrite !Henv by decide_closed. }
  unfold load, missing_configs, required_configs, is_production.
  by rewrite Hcfg, Henv by decide_closed.
Qed.

End ConfigFacts.

(** C7: in production, start-up with the default graph-store password, or
    without a broker password, ends in [process.exit(1)]: the module never
    exports. *)
Theorem production_rejects_default_and_missing_passwords
    (penv : gmap string string) :
  penv !! "NODE_ENV" = Some "production"%string →
  get_prop (Config.config penv) "NEO4J_PASSWORD" = VStr "password"
  ∨ penv !! "REDIS_PASSWORD" = None
  ∨ penv !! "REDIS_PASSWORD" = Some ""%string →
  Config.load penv = Config.Exit 1.
Proof.
  intros Hprod Hbad. rewrite load_closed_form.
  assert (Config.is_production penv = true) as ->
    by (unfold Config.is_production, Config.env_get; by rewrite Hprod).
  destruct (truthy (Config.env_get penv "ANTHROPIC_API_KEY")); [| reflexivity].
  cbn [negb orb andb].
  destruct Hbad as [Hneo | Hredis].
  - rewrite <- (config_defaulted penv "NEO4J_PASSWORD" "password") by (cbn; tauto).
    rewrite Hneo. by destruct (negb _).
  - assert (truthy (Config.env_get penv "REDIS_PASSWORD") = false) as ->
      by (unfold Config.env_get; destruct Hredis as [-> | ->]; reflexivity).
    reflexivity.
Qed.

Lemma production_rejects_default_and_missing_passwords_witness :
  Samples.production_env_default_neo4j !! "NODE_ENV" = Some "production"%string
  ∧ get_prop (Config.config Samples.production_env_default_neo4j) "NEO4J_PASSWORD"
    = VStr "password"
  ∧ Config.load Samples.production_env_default_neo4j = Config.Exit 1.
Proof.
  split; [reflexivity |]. split; [reflexivity |].
  apply (production_rejects_default_and_missing_passwords
           Samples.production_env_default_neo4j); [reflexivity | left; reflexivity].
Defined.

(** C6 (as amended): the start-up check can only end the process, with code
    1, for a missing [ANTHROPIC_API_KEY] or, in production, a missing
    [REDIS_PASSWORD] or the default [NEO4J_PASSWORD]; every other checked
    option has a non-empty default.  [INGESTOR_BATCH_SIZE] and
    [INGESTOR_INTERVAL_MS] are not validated: what [parseInt] reads as [NaN]
    or [0] becomes the default, any other number is taken as it is (the
    leading integer of the text, rounded to a Number).  No other variable
    of the environment is read: the other options the specification lists
    have no effect on start-up and are no properties of [config]. *)
Theorem startup_checks_as_implemented (penv : gmap string string) :
  (Config.load penv = Config.Exit 1
   ∨ Config.load penv = Config.Exports (Config.config penv))
  ∧ (Config.load penv = Config.Exit 1 ↔
       truthy (Config.env_get penv "ANTHROPIC_API_KEY") = false
       ∨ (Config.is_production penv = true
          ∧ (truthy (Config.env_get penv "REDIS_PASSWORD") = false
             ∨ get_prop (Config.config penv) "NEO4J_PASSWORD" = VStr "password")))
  ∧ get_prop (Config.config penv) "INGESTOR_BATCH_SIZE"
    = match penv !! "INGESTOR_BATCH_SIZE" ≫= Config.parse_decimal with
      | Some z => if z =? 0 then VNum 100 else Config.to_double z
      | None => VNum 100
      end
  ∧ get_prop (Config.config penv) "INGESTOR_INTERVAL_MS"
    = match penv !! "INGESTOR_INTERVAL_MS" ≫= Config.parse_decimal with
      | Some z => if z =? 0 then VNum 10000 else Config.to_double z
      | None => VNum 10000
      end
  ∧ (∀ penv' : gmap string string,
       (∀ k, k ∈ Config.read_variables → penv' !! k = penv !! k) →
       Config.load penv' = Config.load penv)
  ∧ (∀ k,
       k ∈ Config.spec_other_options
       ∨ (∃ suffix, k = ("WORKER_CONCURRENCY_" ++ suffix)%string) →
       (k ∉ Config.read_variables) ∧ Config.config penv !! k = None)
  ∧ Forall (λ sv, get_prop (Config.config (<["INGESTOR_BATCH_SIZE" := sv.1]> penv))
                           "INGESTOR_BATCH_SIZE" = sv.2)
      [ ("250", VNum 250); ("12px", VNum 12); ("3.9", VNum 3); ("1e3", VNum 1);
        ("-5", VNum (-5)); ("+7", VNum 7); ("  42", VNum 42);
        (String "194" (String "160" "42"), VNum 42);
        (String "239" (String "187" (String "191" "7")), VNum 7);
        ("9007199254740993", VNum 9007199254740992);
        ("9007199254740995", VNum 9007199254740996);
        (pretty (10 ^ 309), VInf false);
        ("0", VNum 100); ("0x1A", VNum 100); ("abc", VNum 100); ("", VNum 100) ]%string.
Proof.
  split; [| split; [| split; [| split; [| split; [| split]]]]].
  - apply load_exits_or_exports.
  - rewrite load_closed_form.
    rewrite (config_defaulted penv "NEO4J_PASSWORD" "password") by (cbn; tauto).
    destruct (truthy (Config.env_get penv "ANTHROPIC_API_KEY")); cbn [negb orb];
      [| split; [by left | done]].
    destruct (Config.is_production penv); cbn [andb];
      [| split; [done | by intros [? | [? _]]]].
    destruct (truthy (Config.env_get penv "REDIS_PASSWORD")); cbn [negb];
      [| split; [intros _; right; split; [done | by left] | done]].
    destruct (or_else _ _) as [| | | | | | s | |] eqn:Hpw; cbn [strict_eq_str];
      try (split; [done | by intros [? | [_ [? | ?]]]]).
    destruct (String.eqb_spec s "password") as [-> | Hne].
    + split; [intros _; right; split; [done | by right] | done].
    + split; [done | intros [? | [_ [? | [= ?]]]]; done].
  - rewrite config_INGESTOR_BATCH_SIZE. by apply ingestor_option_value.
  - rewrite config_INGESTOR_INTERVAL_MS. by apply ingestor_option_value.
  - intros penv'. apply load_reads_only.
  - intros k Hk. split.
    + destruct Hk as [Hk | [suffix ->]].
      * unfold Config.spec_other_options in Hk.
        repeat (apply elem_of_cons in Hk as [-> | Hk]; [decide_closed |]).
        by apply elem_of_nil in Hk.
      * unfold Config.read_variables. intros Hin.
        repeat (apply elem_of_cons in Hin as [Hin | Hin]; [discriminate Hin |]).
        by apply elem_of_nil in Hin.
    + apply not_elem_of_dom. rewrite config_dom, elem_of_list_to_set.
      destruct Hk as [Hk | [suffix ->]].
      * unfold Config.spec_other_options in Hk.
        repeat (apply elem_of_cons in Hk as [-> | Hk]; [decide_closed |]).
        by apply elem_of_nil in Hk.
      * unfold Config.literal_keys, Config.QUEUE_NAMES.
        cbn [fmap list_fmap app]. vm_compute Config.constantName. intros Hin.
        repeat (apply elem_of_cons in Hin as [Hin | Hin]; [discriminate Hin |]).
        by apply elem_of_nil in Hin.
  - repeat constructor; cbn [fst snd];
      rewrite config_INGESTOR_BATCH_SIZE; unfold Config.env_get;
      rewrite lookup_insert_eq; vm_compute; reflexivity.
Qed.

(** C6 (as stated) fails: with [INGESTOR_BATCH_SIZE=abc] and
    [INGESTOR_INTERVAL_MS=-5] the module loads; the batch size silently
    becomes the default and the negative interval is kept. *)
Lemma invalid_ingestor_options_are_not_fatal :
  Config.load Samples.env_with_invalid_ingestor_options
  = Config.Exports (Config.config Samples.env_with_invalid_ingestor_options)
  ∧ get_prop (Config.config Samples.env_with_invalid_ingestor_options)
      "INGESTOR_BATCH_SIZE" = VNum 100
  ∧ get_prop (Config.config Samples.env_with_invalid_ingestor_options)
      "INGESTOR_INTERVAL_MS" = VNum (-5).
Proof. repeat split; reflexivity. Qed.

(** C10: [QUEUE_NAMES] holds exactly the nine contract names, each once,
    and for each of them [config] carries the constant named after it
    ('-' replaced by '_', upper-cased, suffixed with [_QUEUE_NAME]) whose
    value is the queue name: the nine constants are spelled out, and the
    name the code builds is the one the specification describes, for every
    queue name; that object is what the module exports. *)
Theorem queue_names_are_the_contract (penv : gmap string string) :
  Config.QUEUE_NAMES ≡ₚ Config.spec_queue_names
  ∧ NoDup Config.QUEUE_NAMES
  ∧ list_to_set Config.QUEUE_NAMES =@{gset string} list_to_set Config.spec_queue_names
  ∧ Forall (λ q, get_prop (Config.config penv) (Config.constantName q) = VStr q)
           Config.spec_queue_names
  ∧ Forall (λ cq, Config.constantName cq.2 = cq.1
                  ∧ get_prop (Config.config penv) cq.1 = VStr cq.2)
      [ ("FILE_ANALYSIS_QUEUE_QUEUE_NAME", "file-analysis-queue");
        ("DIRECTORY_AGGREGATION_QUEUE_QUEUE_NAME", "directory-aggregation-queue");
        ("DIRECTORY_RESOLUTION_QUEUE_QUEUE_NAME", "directory-resolution-queue");
        ("RELATIONSHIP_RESOLUTION_QUEUE_QUEUE_NAME", "relationship-resolution-queue");
        ("RELATIONSHIP_VALIDATED_QUEUE_QUEUE_NAME", "relationship-validated-queue");
        ("RECONCILIATION_QUEUE_QUEUE_NAME", "reconciliation-queue");
        ("GLOBAL_RESOLUTION_QUEUE_QUEUE_NAME", "global-resolution-queue");
        ("ANALYSIS_FINDINGS_QUEUE_QUEUE_NAME", "analysis-findings-queue");
        ("FAILED_JOBS_QUEUE_NAME", "failed-jobs") ]%string
  ∧ (∀ q, Config.constantName q = Config.spec_constant_name q)
  ∧ get_prop (Config.config penv) "QUEUE_NAMES" = VArr (VStr <$> Config.QUEUE_NAMES)
  ∧ (Config.load penv = Config.Exit 1
     ∨ Config.load penv = Config.Exports (Config.config penv)).
Proof.
  assert (NoDup Config.QUEUE_NAMES) as Hnd
    by (apply (bool_decide_unpack (NoDup Config.QUEUE_NAMES)); vm_compute; exact I).
  assert (NoDup Config.spec_queue_names) as Hnd'
    by (apply (bool_decide_unpack (NoDup Config.spec_queue_names)); vm_compute; exact I).
  assert (Config.QUEUE_NAMES ≡ₚ Config.spec_queue_names) as Hperm.
  { apply NoDup_Permutation; [done | done |].
    intros q. unfold Config.QUEUE_NAMES, Config.spec_queue_names.
    rewrite !elem_of_cons, !elem_of_nil. tauto. }
  split; [done |]. split; [done |]. split; [by rewrite Hperm |].
  split; [repeat constructor |].
  split; [repeat constructor |].
  split; [apply constantName_spec |].
  split; [reflexivity |].
  apply load_exits_or_exports.
Qed.

(** ** Oracle client: retry *)

Section RetryFacts.
Import AnthropicClient.
Variables (key : value) (wires : nat → wire) (retries : nat) (delay : Z).

(** The delays of a run are the pure doubling sequence starting at the
    index the loop is entered with. *)
Lemma retry_loop_delays (fuel i : nat) :
  delays (retry_loop key wires retries delay fuel i)
  = (λ j, delay * 2 ^ Z.of_nat j)
      <$> seq i (length (delays (retry_loop key wires retries delay fuel i))).
Proof.
  revert i. induction fuel as [| fuel IH]; intros i; [reflexivity |].
  cbn [retry_loop]. destruct (_makeRequest key (wires i)); [reflexivity |].
  destruct (_ && _); [| reflexivity].
  cbn [delays length seq fmap list_fmap]. f_equal. apply IH.
Qed.

(** Entered with [fuel = retries - i], the loop makes one request more
    than it sleeps, and at most [fuel] requests. *)
Lemma retry_loop_attempts (fuel i : nat) :
  (fuel + i = retries)%nat →
  attempts (retry_loop key wires retries delay fuel i)
  = match fuel with
    | O => O
    | S _ => S (length (delays (retry_loop key wires retries delay fuel i)))
    end
  ∧ (attempts (retry_loop key wires retries delay fuel i) ≤ fuel)%nat.
Proof.
  revert i. induction fuel as [| fuel IH]; intros i Hfuel; [done |].
  cbn [retry_loop]. destruct (_makeRequest key (wires i)); [cbn; lia |].
  destruct (_ && _) eqn:Hc; [| cbn; lia].
  apply andb_true_iff in Hc as [_ Hi%Z.ltb_lt].
  destruct (IH (S i)) as [Hatt Hle]; [lia |].
  cbn [attempts delays length]. split; [| lia].
  f_equal. rewrite Hatt. destruct fuel; [lia | reflexivity].
Qed.

End RetryFacts.

Section RetryRules.
Import AnthropicClient.
Variables (key : value) (wires : nat → wire) (retries : nat) (delay : Z).

(** A failed attempt that may be retried is followed by a sleep of
    [delay * 2^i] and by the rest of the loop. *)
Lemma retry_loop_retry (fuel i : nat) (e : error) :
  _makeRequest key (wires i) = Throw e →
  _isRetryableError e = true →
  (i + 1 < retries)%nat →
  retry_loop key wires retries delay (S fuel) i
  = let rest := retry_loop key wires retries delay fuel (S i) in
    RetryRun (outcome rest) (S (attempts rest))
             (delay * 2 ^ Z.of_nat i :: delays rest).
Proof.
  intros Hreq Hretry Hi. cbn [retry_loop]. rewrite Hreq, Hretry.
  assert ((Z.of_nat i <? Z.of_nat retries - 1) = true) as -> by (apply Z.ltb_lt; lia).
  reflexivity.
Qed.

(** A failed attempt that is not retryable ends the call with its error. *)
Lemma retry_loop_give_up (fuel i : nat) (e : error) :
  _makeRequest key (wires i) = Throw e →
  _isRetryableError e = false →
  retry_loop key wires retries delay (S fuel) i = RetryRun (Throw e) 1 [].
Proof. intros Hreq Hretry. cbn [retry_loop]. by rewrite Hreq, Hretry. Qed.

(** The error of a non-2xx response: either the status error, or a parse
    failure without status; neither has a [code]. *)
Lemma on_end_error (statusCode : Z) (json : result value) :
  ¬ (200 <= statusCode < 300) →
  ∃ e, on_end statusCode json = Throw e ∧ code e = None
       ∧ (status e = Some statusCode ∨ status e = None).
Proof.
  intros Hsc. unfold on_end.
  destruct json as [parsedData | parseError]; [| by eexists; eauto].
  destruct ((200 <=? statusCode) && (statusCode <? 300)) eqn:H2xx.
  { apply andb_true_iff in H2xx as [?%Z.leb_le ?%Z.ltb_lt]. lia. }
  destruct (error_message parsedData); eexists; (split; [reflexivity |]); eauto.
Qed.

End RetryRules.

Section RetryOutcomes.
Import AnthropicClient.
Variables (key : value) (wires : nat → wire) (retries : nat) (delay : Z).

(** A 4xx answer ends the call at once, at whatever attempt it comes. *)
Lemma client_error_is_not_retried (fuel i : nat) (statusCode : Z)
    (json : result value) :
  wires i = Response statusCode json →
  400 <= statusCode < 500 →
  ∃ e, retry_loop key wires retries delay (S fuel) i = RetryRun (Throw e) 1 [].
Proof.
  intros Hwire Hsc. unfold retry_loop; fold retry_loop.
  unfold _makeRequest. rewrite Hwire.
  unfold apiKey. destruct (truthy key); [| by eexists].
  destruct (on_end_error statusCode json) as (e & -> & Hcode & Hstatus); [lia |].
  exists e. unfold _isRetryableError. rewrite Hcode.
  destruct Hstatus as [-> | ->]; [| done].
  destruct (500 <=? statusCode) eqn:H5; [apply Z.leb_le in H5; lia | done].
Qed.

(** A 5xx answer whose body is a JSON object, and an error with one of the
    connection codes, are retried after [delay * 2^i] ms while the budget
    lasts. *)
Lemma server_and_connection_errors_are_retried (fuel i : nat) :
  truthy key = true →
  (i + 1 < retries)%nat →
  (∃ statusCode body, wires i = Response statusCode (Ok (VObj body))
                      ∧ 500 <= statusCode)
  ∨ (∃ e c, wires i = RequestError e ∧ code e = Some c ∧ c ∈ retryable_codes) →
  retry_loop key wires retries delay (S fuel) i
  = let rest := retry_loop key wires retries delay fuel (S i) in
    RetryRun (outcome rest) (S (attempts rest))
             (delay * 2 ^ Z.of_nat i :: delays rest).
Proof.
  intros Hkey Hi Hwire.
  assert (∃ e, _makeRequest key (wires i) = Throw e ∧ _isRetryableError e = true)
    as (e & Hreq & Hretry).
  { unfold _makeRequest, apiKey. rewrite Hkey.
    destruct Hwire as [(sc & body & -> & Hsc) | (e & c & -> & Hcode & Hc)].
    - unfold on_end.
      destruct ((200 <=? sc) && (sc <? 300)) eqn:H2xx.
      { apply andb_true_iff in H2xx as [_ ?%Z.ltb_lt]. lia. }
      cbn [error_message]. destruct (get_prop body "error");
        (eexists; split; [reflexivity |]);
        unfold _isRetryableError; cbn [status];
        by (apply orb_true_iff; left; apply Z.leb_le).
    - exists e. split; [done |]. unfold _isRetryableError. rewrite Hcode.
      apply orb_true_iff. right. by apply bool_decide_eq_true. }
  by apply (retry_loop_retry key wires retries delay fuel i e).
Qed.

End RetryOutcomes.

(** Against a server that always answers 503 the whole budget is used: the
    call sleeps [retries - 1] times. *)
Lemma always_503_delays (retries : nat) (delay : Z) (fuel i : nat) :
  (fuel + i = retries)%nat →
  length (AnthropicClient.delays
            (AnthropicClient.retry_loop (VStr "sk-test") Samples.always_503
               retries delay fuel i))
  = (fuel - 1)%nat.
Proof.
  revert i. induction fuel as [| fuel IH]; intros i Hfuel; [reflexivity |].
  destruct fuel as [| fuel'].
  - cbn [AnthropicClient.retry_loop].
    cbn [AnthropicClient._makeRequest AnthropicClient.apiKey truthy String.eqb
         negb Samples.always_503].
    assert ((Z.of_nat i <? Z.of_nat retries - 1) = false) as ->
      by (apply Z.ltb_ge; lia).
    reflexivity.
  - rewrite (server_and_connection_errors_are_retried
               (VStr "sk-test") Samples.always_503 retries delay (S fuel') i);
      [| reflexivity | lia | left; by exists 503, ∅].
    cbn [AnthropicClient.delays length]. rewrite IH by lia. lia.
Qed.

(** C2 (the code departs from it): the request timeout is 30 minutes, but
    the error the timeout handler rejects with has neither [status] nor
    [code]; [_isRetryableError] refuses it and the call throws it after the
    first attempt, whatever later attempts would have met. *)
Theorem request_timeout_is_thrown_after_one_attempt (later : nat → AnthropicClient.wire) :
  AnthropicClient.timeout = 30 * 60 * 1000
  ∧ AnthropicClient._makeRequest (VStr "sk-test") AnthropicClient.RequestTimeout
    = Throw (new_Error "Request timeout")
  ∧ AnthropicClient._isRetryableError (new_Error "Request timeout") = false
  ∧ AnthropicClient._makeRequestWithRetry (VStr "sk-test")
      (λ i, match i with
            | O => AnthropicClient.RequestTimeout
            | S j => later j
            end)
      AnthropicClient.default_retries AnthropicClient.default_delay
    = AnthropicClient.RetryRun (Throw (new_Error "Request timeout")) 1 [].
Proof. repeat split; reflexivity. Qed.

(** C3 (the code departs from it): a 503 whose body is not JSON is rejected
    as a parse failure that carries no status, so it is not retried: the
    call throws after the first attempt. *)
Theorem unparsable_503_is_thrown_after_one_attempt
    (parseError : error) (later : nat → AnthropicClient.wire) :
  AnthropicClient._makeRequestWithRetry (VStr "sk-test")
    (λ i, match i with
          | O => AnthropicClient.Response 503 (Throw parseError)
          | S j => later j
          end)
    AnthropicClient.default_retries AnthropicClient.default_delay
  = AnthropicClient.RetryRun
      (Throw (new_Error ("Failed to parse response: " ++ message parseError)))
      1 [].
Proof. reflexivity. Qed.

(** C4 (as amended): the sleeps of a call are exactly [delay * 2^i] for
    i = 0, 1, ...: one sleep between two successive requests, at most
    [retries] requests, nothing random and no ceiling other than the one
    the retry budget implies; with the defaults every call sleeps a prefix
    of 2000, 4000, 8000, 16000 ms. *)
Theorem backoff_is_plain_doubling
    (key : value) (wires : nat → AnthropicClient.wire) (retries : nat) (delay : Z) :
  let run := AnthropicClient._makeRequestWithRetry key wires retries delay in
  let default_run :=
    AnthropicClient._makeRequestWithRetry key wires
      AnthropicClient.default_retries AnthropicClient.default_delay in
  AnthropicClient.delays run
  = (λ i, delay * 2 ^ Z.of_nat i) <$> seq 0 (length (AnthropicClient.delays run))
  ∧ (length (AnthropicClient.delays run) = AnthropicClient.attempts run - 1)%nat
  ∧ (AnthropicClient.attempts run ≤ retries)%nat
  ∧ AnthropicClient.delays default_run `prefix_of` [2000; 4000; 8000; 16000].
Proof.
  intros run default_run.
  split; [apply retry_loop_delays |].
  destruct (retry_loop_attempts key wires retries delay retries 0) as [Hatt Hle];
    [lia |].
  change (AnthropicClient.retry_loop key wires retries delay retries 0) with run
    in Hatt, Hle.
  split; [| split; [done |]].
  - rewrite Hatt. destruct retries; [reflexivity | lia].
  - destruct (retry_loop_attempts key wires 5 2000 5 0 eq_refl) as [Hatt5 Hle5].
    pose proof (retry_loop_delays key wires 5 2000 5 0) as Hd.
    change (AnthropicClient.retry_loop key wires 5 2000 5 0) with default_run
      in Hatt5, Hle5, Hd.
    rewrite Hd.
    assert (length (AnthropicClient.delays default_run) ≤ 4)%nat as Hlen by lia.
    destruct (length (AnthropicClient.delays default_run)) as [| [| [| [| [| n]]]]];
      [.. | lia].
    + exists [2000; 4000; 8000; 16000]. vm_compute. reflexivity.
    + exists [4000; 8000; 16000]. vm_compute. reflexivity.
    + exists [8000; 16000]. vm_compute. reflexivity.
    + exists [16000]. vm_compute. reflexivity.
    + exists []. vm_compute. reflexivity.
Qed.

(** C4 (as stated) fails: five 503 answers in a row are spaced by exactly
    2000, 4000, 8000 and 16000 ms, with no random part; and nothing caps the
    doubling: with a budget of twelve attempts the last sleep, 2048000 ms,
    is longer than the request timeout itself, and no ceiling bounds the
    sleeps of every retry budget. *)
Lemma backoff_has_no_jitter_and_no_ceiling :
  AnthropicClient.delays
    (AnthropicClient._makeRequestWithRetry (VStr "sk-test")
       Samples.always_503 5 2000)
  = [2000; 4000; 8000; 16000]
  ∧ last (AnthropicClient.delays
            (AnthropicClient._makeRequestWithRetry (VStr "sk-test")
               Samples.always_503 12 2000))
    = Some 2048000
  ∧ AnthropicClient.timeout < 2048000
  ∧ ¬ ∃ ceiling,
        ∀ retries,
          Forall (λ d, d <= ceiling)
            (AnthropicClient.delays
               (AnthropicClient._makeRequestWithRetry (VStr "sk-test")
                  Samples.always_503 retries 2000)).
Proof.
  split; [vm_compute; reflexivity |]. split; [vm_compute; reflexivity |].
  split; [vm_compute; reflexivity |].
  intros [ceiling Hcap].
  pose (n := Z.to_nat ceiling).
  specialize (Hcap (S (S n))).
  pose proof (retry_loop_delays (VStr "sk-test") Samples.always_503
                (S (S n)) 2000 (S (S n)) 0) as Hd.
  rewrite (always_503_delays (S (S n)) 2000 (S (S n)) 0) in Hd by lia.
  unfold AnthropicClient._makeRequestWithRetry in Hcap. rewrite Hd in Hcap.
  replace (S (S n) - 1)%nat with (n + 1)%nat in Hcap by lia.
  rewrite seq_app, fmap_app, Forall_app in Hcap. destruct Hcap as [_ Hlast].
  cbn in Hlast. apply Forall_inv in Hlast.
  pose proof (Z.pow_gt_lin_r 2 (Z.of_nat n)). lia.
Qed.

(** ** Oracle client: the request scheduler *)

Section SchedulerFacts.
Import AnthropicClient.

Lemma remove_elem_of (r x : nat) (l : list nat) :
  x ∈ List.remove Nat.eq_dec r l → x ∈ l ∧ x ≠ r.
Proof.
  rewrite !list_elem_of_In. intros [? ?]%List.in_remove. done.
Qed.

Lemma remove_not_elem_of (r : nat) (l : list nat) :
  r ∉ l → List.remove Nat.eq_dec r l = l.
Proof. rewrite list_elem_of_In. apply List.notin_remove. Qed.

Lemma remove_NoDup (r : nat) (l : list nat) :
  NoDup l → NoDup (List.remove Nat.eq_dec r l).
Proof.
  induction 1 as [| x l Hx Hnd IH]; [constructor |].
  cbn [List.remove]. destruct (Nat.eq_dec r x); [done |].
  constructor; [| done]. intros [Hin _]%remove_elem_of. done.
Qed.

Lemma remove_length (r : nat) (l : list nat) :
  NoDup l → r ∈ l → S (length (List.remove Nat.eq_dec r l)) = length l.
Proof.
  induction 1 as [| x l Hx Hnd IH]; intros Hr; [by apply elem_of_nil in Hr |].
  cbn [List.remove]. destruct (Nat.eq_dec r x) as [-> | Hne].
  - by rewrite remove_not_elem_of.
  - cbn [length]. f_equal. apply IH. apply elem_of_cons in Hr as [? | ?]; done.
Qed.

(** [_processQueue] establishes the invariant from a state in which at most
    the head of the queue can be served at once. *)
Lemma _processQueue_inv (c : client) :
  activeRequests c = Z.of_nat (length (inflight c)) →
  activeRequests c <= maxConcurrentRequests →
  enqueued c = started c ++ requestQueue c →
  NoDup (enqueued c) →
  NoDup (inflight c) → inflight c ⊆ started c →
  ((2 ≤ length (requestQueue c))%nat →
   maxConcurrentRequests - 1 <= activeRequests c) →
  scheduler_inv (_processQueue c).
Proof.
  intros Hcount Hcap Horder Hfresh Hnd Hsub Hone. unfold _processQueue.
  destruct (maxConcurrentRequests <=? activeRequests c) eqn:Hfull; cbn [orb].
  { apply Z.leb_le in Hfull. split; try done. intros _. lia. }
  apply Z.leb_gt in Hfull.
  destruct (requestQueue c) as [| r queue'] eqn:Hq; cbn [length Nat.eqb].
  { split; try done. by rewrite Hq. }
  rewrite Horder in Hfresh.
  pose proof Hfresh as (Hs & Hdisj & Hqnd)%NoDup_app.
  assert (r ∉ started c) as Hr by (intros Hin; apply (Hdisj r Hin), elem_of_cons; by left).
  split; cbn.
  - rewrite length_app. cbn. lia.
  - lia.
  - rewrite Horder. by rewrite <- app_assoc.
  - by rewrite Horder.
  - split; [| intros x [Hx | Hx]%elem_of_app; apply elem_of_app;
               [left; by apply Hsub | by right]].
    apply NoDup_app. split; [done |]. split; [| apply NoDup_singleton].
    intros x Hx ->%list_elem_of_singleton. by apply Hr, Hsub.
  - intros Hne. destruct queue'; [done |]. cbn in Hone. lia.
Qed.

Lemma new_client_inv : scheduler_inv new_client.
Proof. split; cbn; try done. constructor. split; [constructor | done]. Qed.

Lemma step_inv (c c' : client) : scheduler_inv c → step c c' → scheduler_inv c'.
Proof.
  intros Hinv Hstep.
  destruct Hstep as [r c Hr | r c Hr];
    destruct Hinv as [Hcount Hcap Horder Hfresh [Hnd Hsub] Hbusy].
  - apply _processQueue_inv; cbn; try done.
    + rewrite Horder. by rewrite <- app_assoc.
    + apply NoDup_app. split; [done |]. split; [| apply NoDup_singleton].
      intros x Hx ->%list_elem_of_singleton. done.
    + rewrite length_app. cbn. intros Hlen.
      rewrite Hbusy; [lia |]. destruct (requestQueue c); [cbn in Hlen; lia | done].
  - pose proof (remove_length r _ Hnd Hr) as Hlen.
    apply _processQueue_inv; cbn; try done.
    + lia.
    + lia.
    + by apply remove_NoDup.
    + intros x [Hx _]%remove_elem_of. by apply Hsub.
    + intros Hlen2. rewrite Hbusy; [lia |].
      destruct (requestQueue c); [cbn in Hlen2; lia | done].
Qed.

Lemma reachable_inv (c : client) : reachable c → scheduler_inv c.
Proof.
  induction 1 as [| c c' _ IH Hstep]; [apply new_client_inv |].
  by apply (step_inv c).
Qed.

End SchedulerFacts.

(** C5: in every execution of the scheduler at most
    [maxConcurrentRequests] = 4 requests are in flight; the requests started
    so far followed by the queue are the requests in the order they were
    scheduled, so that requests start in FIFO order; and a request waits in
    the queue only while all four slots are taken. *)
Theorem scheduler_caps_concurrency_and_is_fifo (c : AnthropicClient.client) :
  AnthropicClient.reachable c →
  AnthropicClient.maxConcurrentRequests = 4
  ∧ AnthropicClient.activeRequests c
    = Z.of_nat (length (AnthropicClient.inflight c))
  ∧ AnthropicClient.activeRequests c <= AnthropicClient.maxConcurrentRequests
  ∧ AnthropicClient.enqueued c
    = AnthropicClient.started c ++ AnthropicClient.requestQueue c
  ∧ AnthropicClient.started c `prefix_of` AnthropicClient.enqueued c
  ∧ (AnthropicClient.requestQueue c ≠ [] →
     AnthropicClient.activeRequests c = AnthropicClient.maxConcurrentRequests).
Proof.
  intros [Hcount Hcap Horder _ _ Hbusy]%reachable_inv.
  repeat split; try done. by exists (AnthropicClient.requestQueue c).
Qed.

Lemma six_scheduled_one_settled_reachable :
  AnthropicClient.reachable Samples.six_scheduled_one_settled.
Proof.
  unfold Samples.six_scheduled_one_settled. cbn [foldl].
  eapply AnthropicClient.reachable_step;
    [| apply AnthropicClient.step_settle; decide_closed].
  repeat (eapply AnthropicClient.reachable_step;
          [| apply AnthropicClient.step_schedule; decide_closed]).
  apply AnthropicClient.reachable_new.
Defined.

Lemma scheduler_caps_concurrency_and_is_fifo_witness :
  AnthropicClient.activeRequests Samples.six_scheduled_one_settled = 4
  ∧ AnthropicClient.started Samples.six_scheduled_one_settled = [0; 1; 2; 3; 4]%nat
  ∧ AnthropicClient.requestQueue Samples.six_scheduled_one_settled = [5]%nat
  ∧ AnthropicClient.started Samples.six_scheduled_one_settled
    `prefix_of` AnthropicClient.enqueued Samples.six_scheduled_one_settled.
Proof.
  split; [reflexivity |]. split; [reflexivity |]. split; [reflexivity |].
  apply (scheduler_caps_concurrency_and_is_fifo Samples.six_scheduled_one_settled
           six_scheduled_one_settled_reachable).
Defined.

(** ** Effects *)

Section EffectFacts.
Context {S : Type}.

Lemma bind_Ok_inv {A B} (m : M S A) (k : A → M S B) (s s' : S) (b : B) :
  (m ≫= k) s = (s', Ok b) → ∃ s1 a, m s = (s1, Ok a) ∧ k a s1 = (s', Ok b).
Proof.
  unfold mbind, M_bind. destruct (m s) as [s1 [a | e]]; [eauto | done].
Qed.

Lemma bind_run {A B} (m : M S A) (k : A → M S B) (s s1 : S) (a : A) :
  m s = (s1, Ok a) → (m ≫= k) s = k a s1.
Proof. unfold mbind, M_bind. by intros ->. Qed.

Lemma bind_throw {A B} (m : M S A) (k : A → M S B) (s s1 : S) (e : error) :
  m s = (s1, Throw e) → (m ≫= k) s = (s1, Throw e).
Proof. unfold mbind, M_bind. by intros ->. Qed.

Lemma fault_Ok_inv (f : option error) (s s' : S) (u : unit) :
  fault f s = (s', Ok u) → f = None ∧ s' = s.
Proof. destruct f; [done |]. by intros [= <-]. Qed.

Lemma preserves_ret {A} (P : S → Prop) (a : A) : preserves P (mret a).
Proof. by intros s s' r HP [= <- _]. Qed.

Lemma preserves_throw {A} (P : S → Prop) (e : error) : preserves P (@throw S A e).
Proof. by intros s s' r HP [= <- _]. Qed.

Lemma preserves_get (P : S → Prop) : preserves P get.
Proof. by intros s s' r HP [= <- _]. Qed.

Lemma preserves_fault (P : S → Prop) (f : option error) : preserves P (fault f).
Proof. destruct f; [apply preserves_throw | apply preserves_ret]. Qed.

Lemma preserves_bind {A B} (P : S → Prop) (m : M S A) (k : A → M S B) :
  preserves P m → (∀ a, preserves P (k a)) → preserves P (m ≫= k).
Proof.
  intros Hm Hk s s' r HP. unfold mbind, M_bind.
  destruct (m s) as [s1 [a | e]] eqn:Hms.
  - apply (Hk a). by apply (Hm s s1 (Ok a)).
  - intros [= <- _]. by apply (Hm s s1 (Throw e)).
Qed.

Lemma preserves_try_catch {A} (P : S → Prop) (m : M S A) (h : error → M S A) :
  preserves P m → (∀ e, preserves P (h e)) → preserves P (try_catch m h).
Proof.
  intros Hm Hh s s' r HP. unfold try_catch.
  destruct (m s) as [s1 [a | e]] eqn:Hms.
  - intros [= <- _]. by apply (Hm s s1 (Ok a)).
  - apply (Hh e). by apply (Hm s s1 (Throw e)).
Qed.

Lemma preserves_try_finally {A} (P : S → Prop) (m : M S A) (fin : M S unit) :
  preserves P m → preserves P fin → preserves P (try_finally m fin).
Proof.
  intros Hm Hf s s' r HP. unfold try_finally.
  destruct (m s) as [s1 r1] eqn:Hms. pose proof (Hm s s1 r1 HP Hms) as HP1.
  destruct (fin s1) as [s2 [u | e]] eqn:Hfs;
    intros [= <- _]; exact (Hf s1 s2 _ HP1 Hfs).
Qed.

End EffectFacts.

(** ** The factory *)

Section FactoryFacts.
Import ProductionAgentFactory.
Variable C : collaborators.

(** A successful [DELETE FROM table] empties that table, keeps the tables
    that were empty, and touches nothing else. *)
Lemma exec_delete_from_Ok (table : string) (s s' : state) (u : unit) :
  exec_delete_from C table s = (s', Ok u) →
  this s' = this s
  ∧ sqlite (ext s') !! table = Some []
  ∧ (∀ t, sqlite (ext s) !! t = Some [] → sqlite (ext s') !! t = Some []).
Proof.
  unfold exec_delete_from. intros (s1 & [] & [_ ->]%fault_Ok_inv & H)%bind_Ok_inv.
  apply bind_Ok_inv in H as (s2 & s3 & [= <- <-] & H).
  destruct (sqlite (ext s) !! table); [| done]. injection H as <-. cbn.
  split; [done |]. split; [apply lookup_insert_eq |].
  intros t Ht. destruct (decide (table = t)) as [-> | Hne];
    [apply lookup_insert_eq | by rewrite lookup_insert_ne].
Qed.

Lemma flushdb_Ok (s s' : state) (u : unit) :
  flushdb C s = (s', Ok u) →
  this s' = this s ∧ sqlite (ext s') = sqlite (ext s) ∧ redis (ext s') = ∅.
Proof.
  unfold flushdb. intros (s1 & s2 & [= <- <-] & H)%bind_Ok_inv.
  apply bind_Ok_inv in H as (s1 & [] & H1 & H).
  assert (s1 = s) as -> by (destruct (cacheClient (this s)); [by injection H1 | done]).
  apply bind_Ok_inv in H as (s1 & [] & [_ ->]%fault_Ok_inv & H).
  by injection H as <-.
Qed.

Lemma detach_delete_all_Ok (s s' : state) (u : unit) :
  detach_delete_all C s = (s', Ok u) →
  this s' = this s
  ∧ sqlite (ext s') = sqlite (ext s) ∧ redis (ext s') = redis (ext s)
  ∧ neo4j_nodes (ext s') = [] ∧ neo4j_edges (ext s') = [].
Proof.
  unfold detach_delete_all.
  intros (s1 & [] & [_ ->]%fault_Ok_inv & H)%bind_Ok_inv. by injection H as <-.
Qed.

Lemma try_finally_fault_Ok {A} (m : M state A) (f : option error)
    (s s' : state) (a : A) :
  try_finally m (fault f) s = (s', Ok a) → m s = (s', Ok a).
Proof.
  unfold try_finally. destruct (m s) as [s1 r]. destruct f; [done |].
  by intros [= <- <-].
Qed.




(** The object [testConnections] returns has the four keys [sqlite],
    [anthropic], [neo4j] and [redis], whatever the probes find; it has no
    [deepseek]. *)
Lemma probe_keys (f : factory) :
  dom (probe C f) = {[ "sqlite"; "anthropic"; "neo4j"; "redis" ]}
  ∧ get_prop (probe C f) "deepseek" = VUndef.
Proof.
  assert (∀ (k : string) (v : value) (m : gmap string value) (X : gset string),
            k ≠ "deepseek"%string → k ∈ X →
            dom m = X ∧ get_prop m "deepseek" = VUndef →
            dom (<[k := v]> m) = X ∧ get_prop (<[k := v]> m) "deepseek" = VUndef)
    as Hins.
  { intros k v m X Hk HX [<- Hm]. split.
    - apply dom_insert_lookup_L. by apply elem_of_dom.
    - unfold get_prop in *. by rewrite lookup_insert_ne. }
  assert (dom no_results = {[ "sqlite"; "anthropic"; "neo4j"; "redis" ]}
          ∧ get_prop no_results "deepseek" = VUndef) as H0.
  { split; [| reflexivity]. unfold no_results.
    rewrite !dom_insert_L, dom_empty_L. set_solver. }
  unfold probe. revert H0. generalize no_results. intros m0 H0.
  repeat match goal with
         | |- context [match ?x with _ => _ end] => destruct x
         end;
    repeat (apply Hins; [done | set_solver |]); exact H0.
Qed.

Lemma testConnections_run (s : state) :
  ∃ s', testConnections C s = (s', Ok (probe C (this s')))
        ∨ ∃ e, testConnections C s = (s', Throw e).
Proof.
  unfold testConnections.
  destruct (ensure_initialized C s) as [s' [[] | e]] eqn:Hinit; exists s'.
  - left. by rewrite (bind_run _ _ _ _ _ Hinit).
  - right. exists e. by rewrite (bind_throw _ _ _ _ _ Hinit).
Qed.

Lemma testConnections_initialized (s : state) :
  dbManager (this s) = true → testConnections C s = (s, Ok (probe C (this s))).
Proof.
  intros Hdb. unfold testConnections, ensure_initialized, mbind, M_bind. cbn [get].
  by rewrite Hdb.
Qed.

End FactoryFacts.

(** C9: when [clearAllDatabases] returns, the six relational tables it
    names hold no rows, the cache database is empty, and the graph database
    has no nodes and no edges. *)
Theorem clearAllDatabases_purges_the_three_stores
    (C : ProductionAgentFactory.collaborators)
    (s s' : ProductionAgentFactory.state) :
  ProductionAgentFactory.clearAllDatabases C s = (s', Ok tt) →
  Forall (λ table,
            ProductionAgentFactory.sqlite (ProductionAgentFactory.ext s') !! table
            = Some [])
         ["relationships"; "relationship_evidence"; "pois"; "files";
          "directory_summaries"; "outbox"]
  ∧ ProductionAgentFactory.redis (ProductionAgentFactory.ext s') = ∅
  ∧ ProductionAgentFactory.neo4j_nodes (ProductionAgentFactory.ext s') = []
  ∧ ProductionAgentFactory.neo4j_edges (ProductionAgentFactory.ext s') = [].
Proof.
  unfold ProductionAgentFactory.clearAllDatabases.
  intros (s0 & [] & _ & H)%bind_Ok_inv.
  apply bind_Ok_inv in H as (s1 & [] & (_ & H1 & _)%exec_delete_from_Ok & H).
  apply bind_Ok_inv in H as (s2 & [] & (_ & H2 & K2)%exec_delete_from_Ok & H).
  apply bind_Ok_inv in H as (s3 & [] & (_ & H3 & K3)%exec_delete_from_Ok & H).
  apply bind_Ok_inv in H as (s4 & [] & (_ & H4 & K4)%exec_delete_from_Ok & H).
  apply bind_Ok_inv in H as (s5 & [] & (_ & H5 & K5)%exec_delete_from_Ok & H).
  apply bind_Ok_inv in H as (s6 & [] & (_ & H6 & K6)%exec_delete_from_Ok & H).
  apply bind_Ok_inv in H as (s7 & [] & (_ & Hsql & Hredis)%flushdb_Ok & H).
  apply bind_Ok_inv in H as (? & s8 & [= <- <-] & H).
  apply bind_Ok_inv in H as (s9 & [] & Hdrv & H).
  assert (s9 = s7) as ->
    by (destruct (ProductionAgentFactory.neo4jDriver _); [by injection Hdrv | done]).
  apply try_finally_fault_Ok, detach_delete_all_Ok in H
    as (_ & Hsql' & Hredis' & Hnodes & Hedges).
  rewrite Hsql', Hsql, Hredis', Hredis.
  split; [| done].
  repeat constructor; auto 10.
Qed.

Lemma clearAllDatabases_purges_the_three_stores_witness :
  let s' := (ProductionAgentFactory.clearAllDatabases Samples.healthy_collaborators
               Samples.fresh_factory_state).1 in
  (ProductionAgentFactory.clearAllDatabases Samples.healthy_collaborators
     Samples.fresh_factory_state).2 = Ok tt
  ∧ Forall (λ table,
              ProductionAgentFactory.sqlite (ProductionAgentFactory.ext s') !! table
              = Some [])
           ["relationships"; "relationship_evidence"; "pois"; "files";
            "directory_summaries"; "outbox"]
  ∧ ProductionAgentFactory.redis (ProductionAgentFactory.ext s') = ∅
  ∧ ProductionAgentFactory.neo4j_nodes (ProductionAgentFactory.ext s') = []
  ∧ ProductionAgentFactory.neo4j_edges (ProductionAgentFactory.ext s') = [].
Proof.
  intros s'. split; [vm_compute; reflexivity |].
  apply (clearAllDatabases_purges_the_three_stores Samples.healthy_collaborators
           Samples.fresh_factory_state s').
  vm_compute. reflexivity.
Defined.

(** ** The pipeline API *)

Section PipelineFacts.
Import ProductionAgentFactory PipelineApi.
Variable E : environment.

Lemma truthy_prefixed (c : ascii) (prefix rest : string) :
  truthy (VStr (String c prefix +:+ rest)) = true.
Proof. reflexivity. Qed.

(** What [updatePipelineStatus] does to a registered pipeline: the updates
    are applied, [lastUpdate] is stamped with the current time, the log
    line is appended, and nothing else in the world changes. *)
Lemma updatePipelineStatus_run (pipelineId : string)
    (updates : list (string * value)) (logMessage : string)
    (w : world) (p : pipeline) :
  activePipelines w !! pipelineId = Some p →
  ∃ w' p',
    updatePipelineStatus E pipelineId updates logMessage w = (w', Ok tt)
    ∧ activePipelines w' = <[pipelineId := p']> (activePipelines w)
    ∧ props p' = <["lastUpdate" := VStr (now E (dates w))]>
                   (props (foldl apply_update p updates))
    ∧ progress p' = progress (foldl apply_update p updates)
    ∧ logs p' = logs (foldl apply_update p updates)
                ++ (if truthy (VStr logMessage)
                    then [LogEntry (now E (S (dates w))) logMessage] else [])
    ∧ (dates w < dates w')%nat
    ∧ factoryVar w' = factoryVar w ∧ external w' = external w.
Proof.
  intros Hp. unfold updatePipelineStatus.
  unfold mbind at 1, M_bind at 1. cbn [get]. rewrite Hp.
  unfold mbind at 1, M_bind at 1. cbn [toISOString].
  destruct (truthy (VStr logMessage)).
  - unfold mbind, M_bind. cbn.
    eexists _, (Pipeline _ _ _). split; [reflexivity |]. cbn.
    repeat split; lia.
  - cbn. eexists _, (Pipeline _ _ _). split; [reflexivity |]. cbn.
    rewrite app_nil_r. repeat split; lia.
Qed.

Lemma updatePipelineStatus_returns (pipelineId : string)
    (updates : list (string * value)) (logMessage : string) (w : world) :
  ∃ w', updatePipelineStatus E pipelineId updates logMessage w = (w', Ok tt)
        ∧ factoryVar w' = factoryVar w ∧ external w' = external w
        ∧ (∀ i, registered i w → registered i w').
Proof.
  destruct (activePipelines w !! pipelineId) as [p |] eqn:Hp.
  - destruct (updatePipelineStatus_run pipelineId updates logMessage w p Hp)
      as (w' & p' & Hrun & Hreg & _ & _ & _ & _ & Hf & Hx).
    exists w'. repeat split; [done .. |].
    intros i. unfold registered. rewrite Hreg, lookup_insert.
    by case_decide.
  - exists w. unfold updatePipelineStatus.
    unfold mbind at 1, M_bind at 1. cbn [get]. by rewrite Hp.
Qed.

Lemma updatePipelineStatus_preserves (i pipelineId : string)
    (updates : list (string * value)) (logMessage : string) :
  preserves (registered i) (updatePipelineStatus E pipelineId updates logMessage).
Proof.
  intros w w' r Hi Hrun.
  destruct (updatePipelineStatus_returns pipelineId updates logMessage w)
    as (w2 & Hrun2 & _ & _ & Hreg).
  rewrite Hrun in Hrun2. injection Hrun2 as -> _. by apply Hreg.
Qed.

Lemma toISOString_preserves (i : string) : preserves (registered i) (toISOString E).
Proof. by intros w w' r Hi [= <- _]. Qed.

Lemma on_factory_registry {A} (m : M state A) (w w' : world) (r : result A) :
  on_factory m w = (w', r) → activePipelines w' = activePipelines w.
Proof.
  unfold on_factory. destruct (factoryVar w); [| by intros [= <- _]].
  destruct (m _). by intros [= <- _].
Qed.

Lemma on_factory_preserves {A} (i : string) (m : M state A) :
  preserves (registered i) (on_factory m).
Proof.
  intros w w' r Hi Hrun%on_factory_registry. unfold registered. by rewrite Hrun.
Qed.

Lemma await_preserves {A} (i : string) (r : result A) :
  preserves (registered i) (await r).
Proof. destruct r; [apply preserves_ret | apply preserves_throw]. Qed.

Lemma first_count_preserves (i : string) (rows : list (gmap string value)) :
  preserves (registered i) (first_count rows).
Proof. destruct rows; [apply preserves_throw | apply preserves_ret]. Qed.

Lemma first_record_preserves (i : string) (records : list Z) :
  preserves (registered i) (first_record records).
Proof. destruct records; [apply preserves_throw | apply preserves_ret]. Qed.

Ltac preserves_step :=
  lazymatch goal with
  | |- preserves _ (updatePipelineStatus _ _ _ _) =>
      apply updatePipelineStatus_preserves
  | |- preserves _ (on_factory _) => apply on_factory_preserves
  | |- preserves _ (toISOString _) => apply toISOString_preserves
  | |- preserves _ (await _) => apply await_preserves
  | |- preserves _ (first_count _) => apply first_count_preserves
  | |- preserves _ (first_record _) => apply first_record_preserves
  | |- preserves _ (fault _) => apply preserves_fault
  | |- preserves _ (mret _) => apply preserves_ret
  | |- preserves _ (throw _) => apply preserves_throw
  | |- preserves _ (try_finally _ _) => apply preserves_try_finally
  | |- preserves _ (_ ≫= _) => apply preserves_bind; [| intros ?]
  | |- preserves _ (if _ then _ else _) => case_match
  end.

(** The [try] block never removes a pipeline from the registry. *)
Lemma try_block_preserves (i pipelineId targetDirectory : string) :
  preserves (registered i) (try_block E pipelineId targetDirectory).
Proof.
  unfold try_block, load_factory, phase1_clear, phase2_connections,
    phase3_entity_scout, phase4_graph_builder, phase5_relationship_resolver,
    completed.
  repeat preserves_step.
  by intros w w' r Hi [= <- _].
Qed.

(** The prelude always succeeds and leaves the [starting] record in the
    registry. *)
Lemma prelude_run (pipelineId targetDirectory : string) (w : world) :
  ∃ w0, prelude E pipelineId targetDirectory w = (w0, Ok tt)
        ∧ registered pipelineId w0.
Proof.
  eexists. split; [reflexivity |]. unfold registered. cbn.
  rewrite lookup_insert_eq. eauto.
Qed.

(** The [catch] block on a registered pipeline: the record is marked
    failed, with the message of the error and the time of the failure. *)
Lemma catch_block_run (pipelineId : string) (err : error) (w : world) :
  registered pipelineId w →
  ∃ w' p,
    catch_block E pipelineId err w = (w', Ok tt)
    ∧ activePipelines w' !! pipelineId = Some p
    ∧ get_prop (props p) "status" = VStr "failed"
    ∧ get_prop (props p) "phase" = VStr "failed"
    ∧ get_prop (props p) "error" = VStr (message err)
    ∧ get_prop (props p) "endTime" = VStr (now E (dates w))
    ∧ get_prop (props p) "lastUpdate" = VStr (now E (S (dates w)))
    ∧ last (logs p)
      = Some (LogEntry (now E (S (S (dates w))))
                       ("❌ Pipeline failed: " ++ message err))
    ∧ factoryVar w' = factoryVar w.
Proof.
  intros [p Hp]. unfold catch_block.
  unfold mbind at 1, M_bind at 1. cbn [toISOString].
  match goal with
  | |- context [updatePipelineStatus E pipelineId ?u ?m ?w1] =>
      destruct (updatePipelineStatus_run pipelineId u m w1 p Hp)
        as (w' & p' & Hrun & Hreg & Hprops & _ & Hlogs & _ & Hf & _)
  end.
  exists w', p'. split; [done |]. rewrite Hreg, lookup_insert_eq.
  split; [done |]. rewrite Hprops, Hlogs. cbn [foldl apply_update includes_dot
    Ascii.eqb Bool.eqb orb props logs dates].
  unfold get_prop.
  repeat split; try by simplify_map_eq.
  rewrite truthy_prefixed. by rewrite last_snoc.
Qed.

(** The [finally] block leaves the registry alone; when it throws, the
    error is the one a [close] in [cleanup] threw. *)
Lemma finally_block_run (w : world) :
  ∃ w' r,
    finally_block E w = (w', r)
    ∧ activePipelines w' = activePipelines w
    ∧ (r = Ok tt ∨ ∃ e, close_fault (collab E) = Some e ∧ r = Throw e).
Proof.
  unfold finally_block. unfold mbind, M_bind. cbn [get].
  destruct (factoryVar w) as [f |] eqn:Hf; [| by eexists _, _; eauto].
  unfold on_factory. rewrite Hf. unfold cleanup. unfold mbind, M_bind. cbn [get this].
  destruct (queueManager f || cacheClient f || neo4jDriver f || dbManager f);
    [destruct (close_fault (collab E)) as [e |] |]; cbn;
    eexists _, _; (split; [reflexivity |]); split; eauto.
Qed.

Lemma connections_failed_probe (f : factory) :
  connections_failed (probe (collab E) f) = true.
Proof.
  unfold connections_failed.
  destruct (probe_keys (collab E) f) as [_ ->]. cbn [truthy negb].
  by rewrite orb_true_r.
Qed.

(** Phase 2 never gets past its guard. *)
Lemma phase2_connections_throws (pipelineId : string) (w : world) :
  ∃ w' e, phase2_connections E pipelineId w = (w', Throw e)
          ∧ (∀ f, factoryVar w = Some f → dbManager f = true →
                  e = new_Error "Required connections failed").
Proof.
  unfold phase2_connections.
  match goal with
  | |- context [mbind _ (updatePipelineStatus E pipelineId ?u ?m) w] =>
      destruct (updatePipelineStatus_returns pipelineId u m w)
        as (w1 & Hrun & Hf & Hx & _)
  end.
  rewrite (bind_run _ _ _ _ _ Hrun). rewrite <- Hf.
  unfold mbind at 1, M_bind at 1. unfold on_factory.
  destruct (factoryVar w1) as [f |]; [| eexists _, _; split; [reflexivity | done]].
  destruct (testConnections_run (collab E) (State f (external w1)))
    as [s' [Hs | [e Hs]]].
  - rewrite Hs. unfold mbind at 1, M_bind at 1.
    rewrite connections_failed_probe. eexists _, _. split; [reflexivity | done].
  - rewrite Hs. eexists _, _. split; [reflexivity |].
    intros ? [= <-] Hdb. by rewrite testConnections_initialized in Hs.
Qed.

(** The [try] block always ends by throwing. *)
Lemma try_block_throws (pipelineId targetDirectory : string) (w : world) :
  ∃ w' e, try_block E pipelineId targetDirectory w = (w', Throw e).
Proof.
  unfold try_block.
  destruct (load_factory E w) as [w1 [[] | e]] eqn:H1;
    [rewrite (bind_run _ _ _ _ _ H1)
    | rewrite (bind_throw _ _ _ _ _ H1); eauto].
  destruct (phase1_clear E pipelineId w1) as [w2 [[] | e]] eqn:H2;
    [rewrite (bind_run _ _ _ _ _ H2)
    | rewrite (bind_throw _ _ _ _ _ H2); eauto].
  destruct (phase2_connections_throws pipelineId w2) as (w3 & e & H3 & _).
  rewrite (bind_throw _ _ _ _ _ H3). eauto.
Qed.



End PipelineFacts.



Section CleanupFacts.
Import ProductionAgentFactory PipelineApi.
Variable E : environment.
Hypothesis database_manager : new_DatabaseManager (collab E) = None.

Local Abbreviation initialised := (λ s : state, dbManager (this s) = true).

Lemma preserves_modify {S} (P : S → Prop) (f : S → S) :
  (∀ s, P s → P (f s)) → preserves P (modify f).
Proof. intros Hf s s' r HP [= <- _]. by apply Hf. Qed.

Ltac initialised_step :=
  lazymatch goal with
  | |- preserves _ (set_this _) => apply preserves_modify; by intros [[] ?]
  | |- preserves _ (set_ext _) => apply preserves_modify; by intros [[] ?]
  | |- preserves _ get => apply preserves_get
  | |- preserves _ (fault _) => apply preserves_fault
  | |- preserves _ (mret _) => apply preserves_ret
  | |- preserves _ (throw _) => apply preserves_throw
  | |- preserves _ (try_finally _ _) => apply preserves_try_finally
  | |- preserves _ (_ ≫= _) => apply preserves_bind; [| intros ?]
  | |- preserves _ (if _ then _ else _) => case_match
  | |- preserves _ (match _ with _ => _ end) => case_match
  end.

(** Once [dbManager] is assigned, no step of [clearAllDatabases] takes it
    away. *)
Lemma clearAllDatabases_rest_initialised :
  preserves initialised
    (exec_delete_from (collab E) "relationships";;
     exec_delete_from (collab E) "relationship_evidence";;
     exec_delete_from (collab E) "pois";;
     exec_delete_from (collab E) "files";;
     exec_delete_from (collab E) "directory_summaries";;
     exec_delete_from (collab E) "outbox";;
     flushdb (collab E);;
     s ← get;
     (if neo4jDriver (this s) then mret tt else throw (TypeError_null "session"));;
     try_finally (detach_delete_all (collab E))
                 (fault (session_close_fault (collab E)))).
Proof.
  unfold exec_delete_from, flushdb, detach_delete_all.
  repeat initialised_step.
Qed.

(** However [clearAllDatabases] ends, it leaves [dbManager] assigned. *)
Lemma clearAllDatabases_assigns_dbManager (s s' : state) (r : result unit) :
  clearAllDatabases (collab E) s = (s', r) → dbManager (this s') = true.
Proof.
  unfold clearAllDatabases.
  assert (∀ s1 r1, ensure_initialized (collab E) s = (s1, r1) →
                   dbManager (this s1) = true) as Hinit.
  { intros s1 r1. unfold ensure_initialized.
    unfold mbind at 1, M_bind at 1. cbn [get].
    destruct (dbManager (this s)) eqn:Hdb; [by intros [= <- _] |].
    unfold initialize. rewrite database_manager.
    unfold mbind at 1, M_bind at 1. cbn [fault mret M_ret].
    unfold mbind at 1, M_bind at 1. cbn [set_this modify].
    match goal with
    | |- ?m ?s0 = _ → _ =>
        assert (preserves initialised m) as Hm
          by (repeat initialised_step);
          intros Hrun; exact (Hm s0 s1 r1 eq_refl Hrun)
    end. }
  destruct (ensure_initialized (collab E) s) as [s1 [[] | e]] eqn:Hens.
  - rewrite (bind_run _ _ _ _ _ Hens). intros Hrun.
    exact (clearAllDatabases_rest_initialised s1 s' r (Hinit _ _ eq_refl) Hrun).
  - rewrite (bind_throw _ _ _ _ _ Hens). intros [= <- _]. exact (Hinit _ _ eq_refl).
Qed.

Lemma updatePipelineStatus_has_dbManager (pipelineId : string)
    (updates : list (string * value)) (logMessage : string) :
  preserves has_dbManager (updatePipelineStatus E pipelineId updates logMessage).
Proof.
  intros w w' r HD Hrun.
  destruct (updatePipelineStatus_returns E pipelineId updates logMessage w)
    as (w2 & Hrun2 & Hf & _).
  rewrite Hrun in Hrun2. injection Hrun2 as <- _.
  unfold has_dbManager. by rewrite Hf.
Qed.

Lemma phase2_connections_has_dbManager (pipelineId : string) :
  preserves has_dbManager (phase2_connections E pipelineId).
Proof.
  unfold phase2_connections.
  apply preserves_bind; [apply updatePipelineStatus_has_dbManager |].
  intros _. apply preserves_bind.
  { intros w w' r (f & Hf & Hdb). unfold on_factory. rewrite Hf.
    rewrite (testConnections_initialized (collab E) (State f (external w)))
      by done.
    intros [= <- _]. by exists f. }
  intros connections. apply preserves_bind.
  - destruct (connections_failed connections);
      [apply preserves_throw | apply preserves_ret].
  - intros _. apply updatePipelineStatus_has_dbManager.
Qed.

(** Phase 1 on a loaded factory ends with [dbManager] assigned. *)
Lemma phase1_clear_has_dbManager (pipelineId : string) (w w' : world)
    (r : result unit) :
  is_Some (factoryVar w) →
  phase1_clear E pipelineId w = (w', r) → has_dbManager w'.
Proof.
  intros [f0 Hf0]. unfold phase1_clear.
  match goal with
  | |- context [mbind _ (updatePipelineStatus E pipelineId ?u ?m) w] =>
      destruct (updatePipelineStatus_returns E pipelineId u m w)
        as (wa & Hrun & Hf & _)
  end.
  rewrite (bind_run _ _ _ _ _ Hrun).
  destruct (on_factory (clearAllDatabases (collab E)) wa) as [wb r1] eqn:Hclear.
  assert (has_dbManager wb) as HD.
  { revert Hclear. unfold on_factory. rewrite Hf, Hf0.
    destruct (clearAllDatabases _ _) as [s' r'] eqn:Hc.
    intros [= <- _]. exists (this s'). split; [done |].
    exact (clearAllDatabases_assigns_dbManager _ _ _ Hc). }
  destruct r1 as [[] | e].
  - rewrite (bind_run _ _ _ _ _ Hclear).
    apply updatePipelineStatus_has_dbManager, HD.
  - rewrite (bind_throw _ _ _ _ _ Hclear). by intros [= <- _].
Qed.

(** When the factory module loads, the [try] block ends with [dbManager]
    assigned. *)
Lemma try_block_has_dbManager (pipelineId targetDirectory : string)
    (w w1 : world) (r : result unit) :
  require_factory E = None →
  try_block E pipelineId targetDirectory w = (w1, r) → has_dbManager w1.
Proof.
  intros Hrequire. unfold try_block.
  assert (load_factory E w
          = (World (activePipelines w) (dates w) (Some new_factory) (external w),
             Ok tt)) as Hload
    by (unfold load_factory; by rewrite Hrequire).
  rewrite (bind_run _ _ _ _ _ Hload).
  set (w0 := World (activePipelines w) (dates w) (Some new_factory) (external w)).
  assert (is_Some (factoryVar w0)) as Hw0 by (cbn; eauto).
  destruct (phase1_clear E pipelineId w0) as [w2 [[] | e]] eqn:H1.
  - rewrite (bind_run _ _ _ _ _ H1).
    pose proof (phase1_clear_has_dbManager _ _ _ _ Hw0 H1) as HD2.
    destruct (phase2_connections_throws E pipelineId w2) as (w3 & e & H3 & _).
    rewrite (bind_throw _ _ _ _ _ H3). intros [= <- _].
    exact (phase2_connections_has_dbManager pipelineId w2 w3 _ HD2 H3).
  - rewrite (bind_throw _ _ _ _ _ H1). intros [= <- _].
    exact (phase1_clear_has_dbManager _ _ _ _ Hw0 H1).
Qed.

(** With [dbManager] assigned, [cleanup] closes it, and a failing close
    is what the [finally] block throws. *)
Lemma finally_block_throws (w : world) (e : error) :
  has_dbManager w → close_fault (collab E) = Some e →
  ∃ w', finally_block E w = (w', Throw e)
        ∧ activePipelines w' = activePipelines w.
Proof.
  intros (f & Hf & Hdb) Hclose. unfold finally_block.
  unfold mbind, M_bind. cbn [get]. rewrite Hf. unfold on_factory. rewrite Hf.
  unfold cleanup, mbind, M_bind. cbn [get this]. rewrite Hdb, !orb_true_r, Hclose.
  cbn. eauto.
Qed.

End CleanupFacts.

(** C8 (the code departs from it): the failure of a phase is caught and
    recorded, [status] and [phase] become [failed] with the message of the
    error, but the error that [factory.cleanup()] throws in the [finally]
    block is not caught: when closing the connections fails, the invocation
    throws, that is, the promise rejects although the failure of the run was
    recorded. *)
Theorem cleanup_failure_rejects_the_invocation
    (E : PipelineApi.environment) (pipelineId targetDirectory : string)
    (w : PipelineApi.world) (e : error) :
  PipelineApi.require_factory E = None →
  ProductionAgentFactory.new_DatabaseManager (PipelineApi.collab E) = None →
  ProductionAgentFactory.close_fault (PipelineApi.collab E) = Some e →
  ∃ w' w1 err p,
    PipelineApi.try_block E pipelineId targetDirectory
      (PipelineApi.prelude E pipelineId targetDirectory w).1 = (w1, Throw err)
    ∧ PipelineApi.startPipelineAsync E pipelineId targetDirectory w
      = (w', Throw e)
    ∧ PipelineApi.activePipelines w' !! pipelineId = Some p
    ∧ get_prop (PipelineApi.props p) "status" = VStr "failed"
    ∧ get_prop (PipelineApi.props p) "phase" = VStr "failed"
    ∧ get_prop (PipelineApi.props p) "error" = VStr (message err).
Proof.
  intros Hrequire Hmanager Hclose.
  destruct (prelude_run E pipelineId targetDirectory w) as (w0 & Hprelude & Hw0).
  destruct (try_block_throws E pipelineId targetDirectory w0) as (w1 & err & Htry).
  pose proof (try_block_has_dbManager E Hmanager _ _ _ _ _ Hrequire Htry) as HD1.
  pose proof (try_block_preserves E _ _ _ _ _ _ Hw0 Htry) as Hw1.
  destruct (catch_block_run E pipelineId err w1 Hw1)
    as (w2 & p & Hcatch & Hp & Hstatus & Hphase & Herror & _ & _ & _ & Hf).
  assert (PipelineApi.has_dbManager w2) as HD2
    by (unfold PipelineApi.has_dbManager; by rewrite Hf).
  destruct (finally_block_throws E w2 e HD2 Hclose) as (w3 & Hfin & Hsame).
  exists w3, w1, err, p. rewrite Hprelude. cbn [fst].
  split; [exact Htry |]. split.
  { unfold PipelineApi.startPipelineAsync. rewrite (bind_run _ _ _ _ _ Hprelude).
    unfold try_finally, try_catch. rewrite Htry. cbv beta iota.
    rewrite Hcatch. cbv beta iota. by rewrite Hfin. }
  rewrite Hsame. auto.
Qed.

Lemma cleanup_failure_rejects_the_invocation_witness :
  ∃ w' p,
    PipelineApi.startPipelineAsync Samples.close_fails "run-1" "/repo"
      Samples.world0
    = (w', Throw (new_Error "close failed"))
    ∧ PipelineApi.activePipelines w' !! "run-1" = Some p
    ∧ get_prop (PipelineApi.props p) "status" = VStr "failed".
Proof.
  destruct (cleanup_failure_rejects_the_invocation Samples.close_fails
              "run-1" "/repo" Samples.world0 (new_Error "close failed")
              eq_refl eq_refl eq_refl)
    as (w' & w1 & err & p & _ & Hrun & Hp & Hstatus & _).
  exists w', p. split; [exact Hrun |]. split; [exact Hp | exact Hstatus].
Defined.

(** * Further properties *)

(** ** Oracle client: the course of a call *)

Section RetryCourse.
Import AnthropicClient.
Variables (key : value) (wires : nat → wire) (retries : nat) (delay : Z).

Lemma retry_loop_course (fuel i : nat) :
  (fuel + i = retries)%nat → fuel ≠ 0%nat →
  let run := retry_loop key wires retries delay fuel i in
  (1 ≤ attempts run)%nat
  ∧ (∀ j, (i ≤ j < i + attempts run - 1)%nat → fails_retryably key wires j)
  ∧ outcome run = _makeRequest key (wires (i + attempts run - 1))
  ∧ (∀ e, outcome run = Throw e →
          _isRetryableError e = false ∨ (i + attempts run)%nat = retries).
Proof.
  revert i. induction fuel as [| fuel IH]; intros i Hfuel Hne; [done |].
  cbn zeta. cbn [retry_loop].
  destruct (_makeRequest key (wires i)) as [response | e] eqn:Hreq.
  { cbn [attempts outcome]. replace (i + 1 - 1)%nat with i by lia.
    split; [lia |]. split; [intros j ?; lia |]. split; [by rewrite Hreq | done]. }
  destruct (_isRetryableError e) eqn:Hretry; cbn [andb].
  2:{ cbn [attempts outcome]. replace (i + 1 - 1)%nat with i by lia.
      split; [lia |]. split; [intros j ?; lia |].
      split; [by rewrite Hreq |]. intros e' [= <-]. by left. }
  destruct (Z.of_nat i <? Z.of_nat retries - 1) eqn:Hi.
  2:{ apply Z.ltb_ge in Hi. cbn [attempts outcome].
      replace (i + 1 - 1)%nat with i by lia.
      split; [lia |]. split; [intros j ?; lia |].
      split; [by rewrite Hreq |]. intros e' _. right. lia. }
  apply Z.ltb_lt in Hi.
  destruct (IH (S i)) as (H1 & Hearlier & Hlast & Hstop); [lia | lia |].
  cbn [attempts outcome].
  set (rest := retry_loop key wires retries delay fuel (S i)) in *.
  split; [lia |]. split; [| split].
  - intros j Hj. destruct (decide (j = i)) as [-> | Hji]; [by exists e |].
    apply Hearlier. lia.
  - rewrite Hlast. do 2 f_equal. lia.
  - intros e' He'. destruct (Hstop e' He') as [? | ?]; [by left | right; lia].
Qed.

(** While the attempts fail retryably and the budget lasts, the loop goes
    on. *)
Lemma retry_loop_skip (fuel i k : nat) :
  (∀ j, (i ≤ j < i + k)%nat → fails_retryably key wires j) →
  (i + k < retries)%nat →
  retry_loop key wires retries delay (k + S fuel) i
  = let rest := retry_loop key wires retries delay (S fuel) (i + k) in
    RetryRun (outcome rest) (k + attempts rest)
             (((λ j, delay * 2 ^ Z.of_nat j) <$> seq i k) ++ delays rest).
Proof.
  revert i. induction k as [| k IH]; intros i Hfail Hik.
  { cbn zeta. rewrite Nat.add_0_r. cbn [Nat.add seq fmap list_fmap app].
    by destruct (retry_loop _ _ _ _ _ _). }
  destruct (Hfail i) as (e & Hreq & Hretry); [lia |].
  cbn [Nat.add].
  rewrite (retry_loop_retry key wires retries delay (k + S fuel) i e Hreq Hretry)
    by lia.
  cbn zeta. rewrite IH; [| intros j Hj; apply Hfail; lia | lia].
  cbn zeta. replace (S i + k)%nat with (i + S k)%nat by lia.
  cbn [outcome attempts delays seq fmap list_fmap app Nat.add]. reflexivity.
Qed.

(** The sleeps of [n] retries add up to [delay * (2^n - 1)]. *)
Lemma doubling_sum (n : nat) :
  foldr Z.add 0 ((λ j, delay * 2 ^ Z.of_nat j) <$> seq 0 n)
  = delay * (2 ^ Z.of_nat n - 1).
Proof.
  induction n as [| n IH]; [cbn; lia |].
  rewrite seq_S, fmap_app, foldr_app. cbn [fmap list_fmap foldr Nat.add].
  assert (∀ (l : list Z) (a : Z), foldr Z.add a l = foldr Z.add 0 l + a) as Hshift.
  { induction l as [| x l IHl]; intros a; cbn; [lia |]. rewrite IHl. lia. }
  rewrite Hshift, IH. rewrite Nat2Z.inj_succ, Z.pow_succ_r by lia. lia.
Qed.

End RetryCourse.

(** X1: a call with a positive retry budget ends with the outcome of its
    last attempt; every attempt before it failed with a retryable error;
    and it ends in failure only on an error that is not retryable or when
    the budget is used up. *)
Theorem call_ends_with_its_last_attempt
    (key : value) (wires : nat → AnthropicClient.wire) (retries : nat) (delay : Z) :
  (0 < retries)%nat →
  let run := AnthropicClient._makeRequestWithRetry key wires retries delay in
  (1 ≤ AnthropicClient.attempts run ≤ retries)%nat
  ∧ AnthropicClient.outcome run
    = AnthropicClient._makeRequest key (wires (AnthropicClient.attempts run - 1)%nat)
  ∧ (∀ j, (j < AnthropicClient.attempts run - 1)%nat →
          AnthropicClient.fails_retryably key wires j)
  ∧ (∀ e, AnthropicClient.outcome run = Throw e →
          AnthropicClient._isRetryableError e = false
          ∨ AnthropicClient.attempts run = retries).
Proof.
  intros Hpos run. subst run. unfold AnthropicClient._makeRequestWithRetry.
  destruct (retry_loop_course key wires retries delay retries 0)
    as (H1 & Hearlier & Hlast & Hstop); [lia | lia |].
  destruct (retry_loop_attempts key wires retries delay retries 0) as [_ Hle];
    [lia |].
  split; [lia |]. split; [exact Hlast |]. split; [| exact Hstop].
  intros j Hj. apply Hearlier. lia.
Qed.

Lemma call_ends_with_its_last_attempt_witness :
  let run :=
    AnthropicClient._makeRequestWithRetry (VStr "sk-test") Samples.flaky_then_ok
      AnthropicClient.default_retries AnthropicClient.default_delay in
  AnthropicClient.attempts run = 3%nat
  ∧ AnthropicClient.outcome run
    = AnthropicClient._makeRequest (VStr "sk-test") (Samples.flaky_then_ok 2).
Proof.
  intros run. split; [vm_compute; reflexivity |].
  assert (0 < AnthropicClient.default_retries)%nat as Hpos
    by (unfold AnthropicClient.default_retries; lia).
  pose proof (call_ends_with_its_last_attempt (VStr "sk-test")
                Samples.flaky_then_ok AnthropicClient.default_retries
                AnthropicClient.default_delay Hpos) as H.
  cbv zeta in H. exact (proj1 (proj2 H)).
Defined.

(** X2: when the first [k] attempts fail with retryable errors and attempt
    [k], still within the budget, is answered with a 2xx, the call resolves
    with that answer after [k + 1] requests, having slept
    [delay], [2 delay], ..., [2^(k-1) delay]. *)
Theorem flaky_oracle_succeeds_after_retries
    (key : value) (wires : nat → AnthropicClient.wire) (retries : nat) (delay : Z)
    (k : nat) (response : value) :
  (k < retries)%nat →
  (∀ j, (j < k)%nat → AnthropicClient.fails_retryably key wires j) →
  AnthropicClient._makeRequest key (wires k) = Ok response →
  AnthropicClient._makeRequestWithRetry key wires retries delay
  = AnthropicClient.RetryRun (Ok response) (S k)
      ((λ j, delay * 2 ^ Z.of_nat j) <$> seq 0 k).
Proof.
  intros Hk Hfail Hok. unfold AnthropicClient._makeRequestWithRetry.
  replace retries with (k + S (retries - k - 1))%nat at 2 by lia.
  rewrite retry_loop_skip; [| intros j Hj; apply Hfail; lia | lia].
  cbn zeta. cbn [Nat.add AnthropicClient.retry_loop]. rewrite Hok.
  cbn [AnthropicClient.outcome AnthropicClient.attempts AnthropicClient.delays].
  rewrite app_nil_r. f_equal. lia.
Qed.

Lemma flaky_oracle_succeeds_after_retries_witness :
  AnthropicClient.attempts
    (AnthropicClient._makeRequestWithRetry (VStr "sk-test") Samples.flaky_then_ok
       AnthropicClient.default_retries AnthropicClient.default_delay) = 3%nat
  ∧ AnthropicClient.delays
      (AnthropicClient._makeRequestWithRetry (VStr "sk-test") Samples.flaky_then_ok
         AnthropicClient.default_retries AnthropicClient.default_delay)
    = [2000; 4000].
Proof.
  rewrite (flaky_oracle_succeeds_after_retries (VStr "sk-test")
             Samples.flaky_then_ok AnthropicClient.default_retries
             AnthropicClient.default_delay 2
             (VObj (<["usage" := VObj (<["output_tokens" := VNum 3]> ∅)]> (
                    <["content" :=
                        VArr [VObj (<["text" := VStr "Connection successful"]> ∅)]]>
                      ∅)))).
  - split; reflexivity.
  - unfold AnthropicClient.default_retries. lia.
  - intros j Hj. assert (j = 0 ∨ j = 1)%nat as [-> | ->] by lia;
      (eexists; split; [vm_compute; reflexivity | vm_compute; reflexivity]).
  - vm_compute. reflexivity.
Defined.

(** X3: when every attempt of the budget fails with a retryable error, the
    call makes exactly [retries] requests, sleeps [retries - 1] times, and
    throws the error of the last attempt. *)
Theorem exhausted_budget_throws_the_last_error
    (key : value) (wires : nat → AnthropicClient.wire) (retries : nat) (delay : Z) :
  (0 < retries)%nat →
  (∀ j, (j < retries)%nat → AnthropicClient.fails_retryably key wires j) →
  ∃ e,
    AnthropicClient._makeRequest key (wires (retries - 1)%nat) = Throw e
    ∧ AnthropicClient._makeRequestWithRetry key wires retries delay
      = AnthropicClient.RetryRun (Throw e) retries
          ((λ j, delay * 2 ^ Z.of_nat j) <$> seq 0 (retries - 1)).
Proof.
  intros Hpos Hfail.
  destruct (Hfail (retries - 1)%nat) as (e & Hreq & Hretry); [lia |].
  exists e. split; [done |]. unfold AnthropicClient._makeRequestWithRetry.
  replace retries with ((retries - 1) + 1)%nat at 2 by lia.
  rewrite retry_loop_skip; [| intros j Hj; apply Hfail; lia | lia].
  cbn zeta. cbn [Nat.add AnthropicClient.retry_loop]. rewrite Hreq, Hretry.
  assert ((Z.of_nat (retries - 1) <? Z.of_nat retries - 1) = false) as ->
    by (apply Z.ltb_ge; lia).
  cbn [andb AnthropicClient.outcome AnthropicClient.attempts AnthropicClient.delays].
  rewrite app_nil_r. f_equal. lia.
Qed.

Lemma always_503_fails_retryably (j : nat) :
  AnthropicClient.fails_retryably (VStr "sk-test") Samples.always_503 j.
Proof. eexists. split; vm_compute; reflexivity. Qed.

Lemma exhausted_budget_throws_the_last_error_witness :
  ∃ e,
    AnthropicClient._makeRequest (VStr "sk-test") (Samples.always_503 4) = Throw e
    ∧ AnthropicClient._makeRequestWithRetry (VStr "sk-test") Samples.always_503 5 2000
      = AnthropicClient.RetryRun (Throw e) 5
          ((λ j, 2000 * 2 ^ Z.of_nat j) <$> seq 0 4).
Proof.
  apply (exhausted_budget_throws_the_last_error (VStr "sk-test")
           Samples.always_503 5 2000); [lia |].
  intros j _. apply always_503_fails_retryably.
Defined.

(** X4: the time a call spends sleeping between attempts is
    [delay * (2^n - 1)] for its [n] sleeps; with the defaults that is at
    most 30 seconds. *)
Theorem total_backoff_time
    (key : value) (wires : nat → AnthropicClient.wire) (retries : nat) (delay : Z) :
  let run := AnthropicClient._makeRequestWithRetry key wires retries delay in
  let default_run :=
    AnthropicClient._makeRequestWithRetry key wires
      AnthropicClient.default_retries AnthropicClient.default_delay in
  foldr Z.add 0 (AnthropicClient.delays run)
  = delay * (2 ^ Z.of_nat (length (AnthropicClient.delays run)) - 1)
  ∧ foldr Z.add 0 (AnthropicClient.delays default_run) <= 30000.
Proof.
  intros run default_run.
  assert (∀ r d, foldr Z.add 0
            (AnthropicClient.delays (AnthropicClient._makeRequestWithRetry key wires r d))
          = d * (2 ^ Z.of_nat (length (AnthropicClient.delays
                    (AnthropicClient._makeRequestWithRetry key wires r d))) - 1)) as Hsum.
  { intros r d. unfold AnthropicClient._makeRequestWithRetry.
    rewrite (retry_loop_delays key wires r d r 0) at 1. apply doubling_sum. }
  split; [apply Hsum |].
  unfold default_run. rewrite Hsum.
  destruct (retry_loop_attempts key wires 5 2000 5 0 eq_refl) as [Hatt Hle].
  change (AnthropicClient.retry_loop key wires 5 2000 5 0) with default_run in Hatt, Hle.
  fold default_run.
  assert (length (AnthropicClient.delays default_run) ≤ 4)%nat as Hlen by lia.
  unfold AnthropicClient.default_delay.
  assert (2 ^ Z.of_nat (length (AnthropicClient.delays default_run)) <= 2 ^ 4)
    by (apply Z.pow_le_mono_r; lia).
  lia.
Qed.

(** X5: without an API key no request is retried: whatever the retry
    budget and whatever the server would answer, the call throws the
    missing-key error after one attempt; [call] reports it wrapped and
    [testConnection] answers [false]. *)
Theorem missing_api_key_fails_at_once
    (key : value) (wires : nat → AnthropicClient.wire) (retries : nat) (delay : Z) :
  truthy key = false →
  (0 < retries)%nat →
  AnthropicClient._makeRequestWithRetry key wires retries delay
  = AnthropicClient.RetryRun
      (Throw (new_Error "ANTHROPIC_API_KEY environment variable is required"))
      1 []
  ∧ AnthropicClient.call key wires
    = Throw (new_Error ("Anthropic API call failed: "
                        ++ "ANTHROPIC_API_KEY environment variable is required"))
  ∧ AnthropicClient.testConnection key wires = false.
Proof.
  intros Hkey Hpos.
  assert (∀ r d, (0 < r)%nat →
            AnthropicClient._makeRequestWithRetry key wires r d
            = AnthropicClient.RetryRun
                (Throw (new_Error "ANTHROPIC_API_KEY environment variable is required"))
                1 []) as Hrun.
  { intros r d Hr. unfold AnthropicClient._makeRequestWithRetry.
    destruct r as [| r]; [lia |]. cbn [AnthropicClient.retry_loop].
    unfold AnthropicClient._makeRequest, AnthropicClient.apiKey. by rewrite Hkey. }
  split; [by apply Hrun |].
  assert (AnthropicClient.call key wires
          = Throw (new_Error ("Anthropic API call failed: "
                     ++ "ANTHROPIC_API_KEY environment variable is required"))) as Hcall.
  { unfold AnthropicClient.call, AnthropicClient.scheduled.
    rewrite Hrun by (unfold AnthropicClient.default_retries; lia). reflexivity. }
  split; [done |]. unfold AnthropicClient.testConnection. by rewrite Hcall.
Qed.

Lemma missing_api_key_fails_at_once_witness :
  AnthropicClient.testConnection VUndef Samples.flaky_then_ok = false
  ∧ AnthropicClient.attempts
      (AnthropicClient._makeRequestWithRetry VUndef Samples.flaky_then_ok 5 2000)
    = 1%nat.
Proof.
  destruct (missing_api_key_fails_at_once VUndef Samples.flaky_then_ok 5 2000)
    as (Hrun & _ & Htest); [reflexivity | lia |].
  split; [exact Htest |]. rewrite Hrun. reflexivity.
Defined.

(** ** Oracle client: [createChatCompletion] *)

Section SplitMessages.
Import AnthropicClient.


End SplitMessages.


(** ** Oracle client: how the scheduler moves requests *)

(** X8: the scheduler starts no request twice and no request that was not
    scheduled, and it lets no request starve: once every started request
    has settled, the queue is empty and every scheduled request has been
    started. *)
Theorem scheduler_starts_every_request_once (c : AnthropicClient.client) :
  AnthropicClient.reachable c →
  NoDup (AnthropicClient.started c)
  ∧ AnthropicClient.started c ⊆ AnthropicClient.enqueued c
  ∧ AnthropicClient.inflight c ⊆ AnthropicClient.started c
  ∧ (AnthropicClient.inflight c = [] →
     AnthropicClient.requestQueue c = []
     ∧ AnthropicClient.started c = AnthropicClient.enqueued c).
Proof.
  intros [Hcount Hcap Horder Hfresh [Hnd Hsub] Hbusy]%reachable_inv.
  rewrite Horder in Hfresh. pose proof Hfresh as (Hs & _ & _)%NoDup_app.
  split; [done |]. split; [| split; [done |]].
  - rewrite Horder. intros x Hx. apply elem_of_app. by left.
  - intros Hidle. rewrite Hidle in Hcount. cbn in Hcount.
    assert (AnthropicClient.requestQueue c = []) as Hq.
    { destruct (AnthropicClient.requestQueue c) eqn:Hq; [done |].
      rewrite Hbusy in Hcount by done. done. }
    split; [done |]. by rewrite Horder, Hq, app_nil_r.
Qed.

Lemma scheduler_starts_every_request_once_witness :
  NoDup (AnthropicClient.started Samples.six_scheduled_one_settled)
  ∧ AnthropicClient.inflight Samples.six_scheduled_one_settled
    ⊆ AnthropicClient.started Samples.six_scheduled_one_settled.
Proof.
  destruct (scheduler_starts_every_request_once Samples.six_scheduled_one_settled
              six_scheduled_one_settled_reachable) as (Hnd & _ & Hsub & _).
  split; [exact Hnd | exact Hsub].
Defined.

(** X9: a request scheduled while fewer than four are in flight starts at
    once and the queue stays empty; a request scheduled while four are in
    flight is put at the end of the queue and nothing starts. *)
Theorem schedule_starts_or_queues (c : AnthropicClient.client) (r : nat) :
  AnthropicClient.reachable c →
  let c' := AnthropicClient._scheduleRequest r c in
  (AnthropicClient.activeRequests c < AnthropicClient.maxConcurrentRequests →
   AnthropicClient.inflight c' = AnthropicClient.inflight c ++ [r]
   ∧ AnthropicClient.requestQueue c' = []
   ∧ AnthropicClient.activeRequests c' = AnthropicClient.activeRequests c + 1)
  ∧ (AnthropicClient.activeRequests c = AnthropicClient.maxConcurrentRequests →
     AnthropicClient.inflight c' = AnthropicClient.inflight c
     ∧ AnthropicClient.requestQueue c' = AnthropicClient.requestQueue c ++ [r]
     ∧ AnthropicClient.activeRequests c' = AnthropicClient.activeRequests c).
Proof.
  intros [Hcount Hcap Horder Hfresh [Hnd Hsub] Hbusy]%reachable_inv c'.
  subst c'. unfold AnthropicClient._scheduleRequest, AnthropicClient._processQueue.
  cbn [AnthropicClient.activeRequests AnthropicClient.requestQueue
       AnthropicClient.inflight].
  split.
  - intros Hfree.
    assert (AnthropicClient.requestQueue c = []) as ->.
    { destruct (AnthropicClient.requestQueue c) eqn:Hq; [done |].
      rewrite Hbusy in Hfree by done. lia. }
    assert ((AnthropicClient.maxConcurrentRequests
             <=? AnthropicClient.activeRequests c) = false) as ->
      by (apply Z.leb_gt; lia).
    done.
  - intros Hfull.
    assert ((AnthropicClient.maxConcurrentRequests
             <=? AnthropicClient.activeRequests c) = true) as ->
      by (apply Z.leb_le; lia).
    done.
Qed.

Lemma schedule_starts_or_queues_witness :
  AnthropicClient.requestQueue
    (AnthropicClient._scheduleRequest 6 Samples.six_scheduled_one_settled)
  = AnthropicClient.requestQueue Samples.six_scheduled_one_settled ++ [6%nat].
Proof.
  pose proof (schedule_starts_or_queues Samples.six_scheduled_one_settled 6
                six_scheduled_one_settled_reachable) as H.
  cbv zeta in H. destruct H as [_ Hfull].
  destruct Hfull as (_ & Hq & _); [reflexivity | exact Hq].
Defined.

(** X10: when a started request settles while requests wait, the head of
    the queue takes the freed slot at once, so that four stay in flight;
    when none waits, one slot less is taken. *)
Theorem settling_hands_the_slot_to_the_queue_head
    (c : AnthropicClient.client) (r : nat) :
  AnthropicClient.reachable c →
  r ∈ AnthropicClient.inflight c →
  let c' := AnthropicClient.on_finally r c in
  match AnthropicClient.requestQueue c with
  | q :: rest =>
      AnthropicClient.requestQueue c' = rest
      ∧ AnthropicClient.inflight c'
        = List.remove Nat.eq_dec r (AnthropicClient.inflight c) ++ [q]
      ∧ AnthropicClient.started c' = AnthropicClient.started c ++ [q]
      ∧ AnthropicClient.activeRequests c' = AnthropicClient.maxConcurrentRequests
  | [] =>
      AnthropicClient.inflight c'
      = List.remove Nat.eq_dec r (AnthropicClient.inflight c)
      ∧ AnthropicClient.activeRequests c' = AnthropicClient.activeRequests c - 1
      ∧ r ∉ AnthropicClient.inflight c'
  end.
Proof.
  intros [Hcount Hcap Horder Hfresh [Hnd Hsub] Hbusy]%reachable_inv Hr c'.
  subst c'. unfold AnthropicClient.on_finally, AnthropicClient._processQueue.
  cbn [AnthropicClient.activeRequests AnthropicClient.requestQueue
       AnthropicClient.inflight AnthropicClient.started].
  destruct (AnthropicClient.requestQueue c) as [| q rest] eqn:Hq.
  - rewrite orb_true_r. cbn [AnthropicClient.activeRequests AnthropicClient.inflight].
    split; [done |]. split; [done |].
    intros [_ Hne]%remove_elem_of. done.
  - rewrite Hbusy by done.
    assert ((AnthropicClient.maxConcurrentRequests
             <=? AnthropicClient.maxConcurrentRequests - 1) = false) as ->
      by (apply Z.leb_gt; lia).
    cbn. repeat split; lia.
Qed.

Lemma settling_hands_the_slot_to_the_queue_head_witness :
  AnthropicClient.requestQueue
    (AnthropicClient.on_finally 1 Samples.six_scheduled_one_settled) = []
  ∧ AnthropicClient.inflight
      (AnthropicClient.on_finally 1 Samples.six_scheduled_one_settled)
    = [2; 3; 4; 5]%nat.
Proof.
  assert (1%nat ∈ AnthropicClient.inflight Samples.six_scheduled_one_settled) as Hin
    by decide_closed.
  pose proof (settling_hands_the_slot_to_the_queue_head
                Samples.six_scheduled_one_settled 1
                six_scheduled_one_settled_reachable Hin) as H.
  cbv zeta in H.
  change (AnthropicClient.requestQueue Samples.six_scheduled_one_settled)
    with [5%nat] in H at 1.
  destruct H as (Hq & Hin' & _). split; [exact Hq |]. rewrite Hin'.
  vm_compute. reflexivity.
Defined.

(** ** Configuration: what the options become *)

Section ParseFacts.
Import Config.

Lemma digit_val_pretty_N_char (d : N) :
  (d < 10)%N → digit_val (pretty_N_char d) = Some (Z.of_N d).
Proof.
  intros Hd.
  assert (d ∈ [0; 1; 2; 3; 4; 5; 6; 7; 8; 9]%N) as Hin.
  { rewrite !elem_of_cons. lia. }
  repeat (apply elem_of_cons in Hin as [-> | Hin]; [reflexivity |]).
  by apply elem_of_nil in Hin.
Qed.

(** A string that starts with a digit is read as digits from its first
    character. *)
Lemma parse_decimal_digit (c : ascii) (t : string) (d : Z) :
  digit_val c = Some d → parse_decimal (String c t) = read_digits (String c t) None.
Proof.
  destruct c as [[] [] [] [] [] [] [] []]; try discriminate; reflexivity.
Qed.

Lemma pretty_N_go_app (x : N) (s rest : string) :
  pretty_N_go x s +:+ rest = pretty_N_go x (s +:+ rest).
Proof.
  revert s. induction (N.lt_wf_0 x) as [x _ IH]; intros s.
  destruct (decide (x = 0)%N) as [-> | Hx]; [by rewrite !pretty_N_go_0 |].
  rewrite (pretty_N_go_step x s), (pretty_N_go_step x (s +:+ rest)) by lia.
  apply IH. apply N.div_lt; lia.
Qed.

Lemma N_split_10 (x : N) :
  Z.of_N x = 10 * Z.of_N (x `div` 10) + Z.of_N (x `mod` 10).
Proof.
  rewrite (N.div_mod x 10) at 1 by lia.
  by rewrite N2Z.inj_add, N2Z.inj_mul.
Qed.

Lemma pretty_N_go_digits (x : N) (s : string) (acc : option Z) :
  (0 < x)%N → default 0 acc = 0 →
  (∃ c t d, pretty_N_go x s = String c t ∧ digit_val c = Some d)
  ∧ read_digits (pretty_N_go x s) acc
    = read_digits s (Some (Z.of_N x)).
Proof.
  revert s. induction (N.lt_wf_0 x) as [x _ IH]; intros s Hx Hacc.
  rewrite pretty_N_go_step by done.
  pose proof (digit_val_pretty_N_char (x `mod` 10)) as Hd.
  destruct (decide (x `div` 10 = 0)%N) as [Hdiv | Hdiv].
  - rewrite Hdiv, pretty_N_go_0. split; [eexists _, _, _; split; [done |]; apply Hd;
      apply N.mod_lt; lia |].
    cbn [read_digits]. rewrite Hd by (apply N.mod_lt; lia). rewrite Hacc.
    do 2 f_equal. rewrite (N_split_10 x), Hdiv. lia.
  - destruct (IH (x `div` 10)%N) with (s := String (pretty_N_char (x `mod` 10)) s)
      as [Hhead Hread]; [apply N.div_lt; lia | by apply N.neq_0_lt_0 | done |].
    split; [done |]. rewrite Hread. cbn [read_digits].
    rewrite Hd by (apply N.mod_lt; lia). cbn [default].
    do 2 f_equal. by rewrite (N_split_10 x).
Qed.

Lemma read_digits_end (rest : string) (acc : option Z) :
  ends_number rest → read_digits rest acc = acc.
Proof. destruct rest as [| c t]; [done |]. cbn. by intros ->. Qed.

(** [parseInt] reads back the decimal rendering of an integer, whatever
    follows it. *)
Lemma parse_decimal_pretty (z : Z) (rest : string) :
  ends_number rest → parse_decimal (pretty z +:+ rest) = Some z.
Proof.
  intros Hrest. destruct z as [| p | p].
  - change (pretty 0 +:+ rest) with (String "0" rest).
    rewrite (parse_decimal_digit "0" rest 0) by reflexivity.
    change (read_digits (String "0" rest) None) with (read_digits rest (Some 0)).
    by rewrite read_digits_end.
  - change (pretty (Z.pos p)) with (pretty_N_go (N.pos p) "").
    rewrite pretty_N_go_app.
    change ("" +:+ rest) with rest.
    destruct (pretty_N_go_digits (N.pos p) rest None)
      as [(c & t & d & Hc & Hd) Hread]; [lia | done |].
    rewrite Hc, (parse_decimal_digit c t d Hd), <- Hc, Hread.
    by rewrite read_digits_end.
  - change (pretty (Z.neg p) +:+ rest)
      with (String "-" (pretty_N_go (N.pos p) "" +:+ rest)).
    rewrite pretty_N_go_app.
    change ("" +:+ rest) with rest.
    change (parse_decimal (String "-" (pretty_N_go (N.pos p) rest)))
      with (Z.opp <$> read_digits (pretty_N_go (N.pos p) rest) None).
    destruct (pretty_N_go_digits (N.pos p) rest None) as [_ Hread]; [lia | done |].
    rewrite Hread, read_digits_end by done. reflexivity.
Qed.

(** Within 2^53 an integer is its own Number value. *)
Lemma to_double_exact (z : Z) :
  - 2 ^ 53 <= z <= 2 ^ 53 → to_double z = VNum z.
Proof.
  intros Hz. unfold to_double.
  assert ((Z.abs z <=? 2 ^ 53) = true) as -> by (apply Z.leb_le; lia).
  reflexivity.
Qed.

End ParseFacts.

(** X11: an ingestor option set to the decimal rendering of a non-zero
    integer, followed by nothing or by text that does not start with a
    digit, takes that integer as its value: trailing text is silently
    ignored and negative numbers are accepted.  The integer is taken in the
    range where JavaScript numbers are exact. *)
Theorem ingestor_options_read_leading_integer
    (penv : gmap string string) (option : string) (z : Z) (rest : string) :
  option = "INGESTOR_BATCH_SIZE"%string ∨ option = "INGESTOR_INTERVAL_MS"%string →
  z ≠ 0 →
  - 2 ^ 53 <= z <= 2 ^ 53 →
  Config.ends_number rest →
  penv !! option = Some (pretty z +:+ rest) →
  get_prop (Config.config penv) option = VNum z.
Proof.
  intros Hoption Hz Hrange Hrest Hpenv.
  assert (or_else (Config.parseInt10 (Config.env_get penv option)) (VNum 100) = VNum z
          ∧ or_else (Config.parseInt10 (Config.env_get penv option)) (VNum 10000)
            = VNum z) as [H100 H10000].
  { unfold Config.env_get, Config.parseInt10. rewrite Hpenv.
    rewrite parse_decimal_pretty by done. rewrite to_double_exact by done.
    unfold or_else. cbn [truthy].
    destruct (Z.eqb_spec z 0); done. }
  destruct Hoption as [-> | ->].
  - by rewrite config_INGESTOR_BATCH_SIZE.
  - by rewrite config_INGESTOR_INTERVAL_MS.
Qed.

Lemma ingestor_options_read_leading_integer_witness :
  get_prop (Config.config Samples.env_with_unit_suffix) "INGESTOR_BATCH_SIZE"
  = VNum 250.
Proof.
  apply (ingestor_options_read_leading_integer Samples.env_with_unit_suffix
           "INGESTOR_BATCH_SIZE" 250 "px").
  - by left.
  - lia.
  - lia.
  - reflexivity.
  - vm_compute. reflexivity.
Defined.

(** X12: the queue-name constants are added beside the options of the
    object literal and overwrite none of them: every option keeps the value
    the literal gave it, and [config] has exactly the eleven options and
    the nine constants, twenty distinct properties. *)
Theorem queue_constants_overwrite_no_option (penv : gmap string string) :
  Forall (λ k, get_prop (Config.config penv) k
               = get_prop (Config.config_literal penv) k)
         Config.literal_keys
  ∧ dom (Config.config penv)
    = list_to_set (Config.literal_keys
                   ++ (Config.constantName <$> Config.QUEUE_NAMES))
  ∧ NoDup (Config.literal_keys ++ (Config.constantName <$> Config.QUEUE_NAMES))
  ∧ size (dom (Config.config penv)) = 20%nat.
Proof.
  assert (dom (Config.config penv)
          = list_to_set (Config.literal_keys
                         ++ (Config.constantName <$> Config.QUEUE_NAMES))) as Hdom.
  { unfold Config.config, Config.add_queue_constants, Config.config_literal.
    cbn [foldl Config.QUEUE_NAMES]. rewrite !dom_insert_L, dom_empty_L.
    apply set_eq. intros k.
    rewrite elem_of_list_to_set.
    rewrite !elem_of_union, !elem_of_singleton, elem_of_empty.
    unfold Config.literal_keys, Config.QUEUE_NAMES. cbn [fmap list_fmap app].
    rewrite !elem_of_cons, elem_of_nil. tauto. }
  assert (NoDup (Config.literal_keys ++ (Config.constantName <$> Config.QUEUE_NAMES)))
    as Hnd by decide_closed.
  split; [repeat constructor |]. split; [exact Hdom |]. split; [exact Hnd |].
  rewrite Hdom, size_list_to_set by exact Hnd. reflexivity.
Qed.

(** ** The database script and the factory, continued *)

Section SchemaFacts.
Import ProductionAgentFactory InitializeDb.

(** One [CREATE TABLE IF NOT EXISTS]: a table that exists is kept, the
    table named is there afterwards, and beside it only [sqlite_sequence]
    can appear. *)
Lemma create_table_keeps (db : gmap string (list row)) (x t : string)
    (rows : list row) :
  db !! t = Some rows → create_table db x !! t = Some rows.
Proof.
  intros Ht. unfold create_table. destruct (db !! x) eqn:Hx; [done |]. cbv zeta.
  assert (<[x := []]> db !! t = Some rows) as Ht'.
  { rewrite lookup_insert_ne; [done |]. intros ->. congruence. }
  destruct (<[x := []]> db !! "sqlite_sequence") eqn:Hseq; [done |].
  rewrite lookup_insert_ne; [done |]. intros <-. congruence.
Qed.

Lemma create_table_creates (db : gmap string (list row)) (x : string) :
  db !! x = None → create_table db x !! x = Some [].
Proof.
  intros Hx. unfold create_table. rewrite Hx. cbv zeta.
  destruct (<[x := []]> db !! "sqlite_sequence") eqn:Hseq;
    [by rewrite lookup_insert_eq |].
  destruct (decide (x = "sqlite_sequence")) as [-> | Hne];
    [by rewrite lookup_insert_eq |].
  by rewrite lookup_insert_ne, lookup_insert_eq.
Qed.

Lemma create_table_sequence (db : gmap string (list row)) (x : string) :
  db !! x = None → is_Some (create_table db x !! "sqlite_sequence").
Proof.
  intros Hx. unfold create_table. rewrite Hx. cbv zeta.
  destruct (<[x := []]> db !! "sqlite_sequence") eqn:Hseq.
  - rewrite Hseq. eauto.
  - rewrite lookup_insert_eq. eauto.
Qed.

Lemma create_table_others (db : gmap string (list row)) (x t : string) :
  t ≠ x → t ≠ "sqlite_sequence"%string → create_table db x !! t = db !! t.
Proof.
  intros Hx Hseq. unfold create_table. destruct (db !! x); [done |]. cbv zeta.
  destruct (<[x := []]> db !! "sqlite_sequence");
    by rewrite ?(lookup_insert_ne _ "sqlite_sequence"), lookup_insert_ne.
Qed.

Lemma create_table_new (db : gmap string (list row)) (x t : string) :
  db !! t = None →
  create_table db x !! t = None ∨ create_table db x !! t = Some [].
Proof.
  intros Ht. unfold create_table. destruct (db !! x); [by left |]. cbv zeta.
  destruct (<[x := []]> db !! "sqlite_sequence") eqn:Hseq.
  - destruct (decide (x = t)) as [-> | Hne];
      [right; by rewrite lookup_insert_eq | left; by rewrite lookup_insert_ne].
  - destruct (decide (t = "sqlite_sequence")) as [-> | Hne1];
      [right; by rewrite lookup_insert_eq |].
    rewrite lookup_insert_ne by done.
    destruct (decide (x = t)) as [-> | Hne];
      [right; by rewrite lookup_insert_eq | left; by rewrite lookup_insert_ne].
Qed.

Lemma create_tables_keep (l : list string) (db : gmap string (list row))
    (t : string) (rows : list row) :
  db !! t = Some rows → foldl create_table db l !! t = Some rows.
Proof.
  revert db. induction l as [| x l IH]; intros db Ht; [done |].
  cbn [foldl]. by apply IH, create_table_keeps.
Qed.

Lemma create_tables_create (l : list string) (db : gmap string (list row))
    (t : string) :
  t ∈ l → db !! t = None → foldl create_table db l !! t = Some [].
Proof.
  revert db. induction l as [| x l IH]; intros db Hin Ht;
    [by apply elem_of_nil in Hin |].
  cbn [foldl]. apply elem_of_cons in Hin as [-> | Hin].
  - by apply create_tables_keep, create_table_creates.
  - destruct (create_table_new db x t Ht) as [Hnone | Hsome].
    + by apply IH.
    + by apply create_tables_keep.
Qed.

Lemma create_tables_others (l : list string) (db : gmap string (list row))
    (t : string) :
  t ∉ l → t ≠ "sqlite_sequence"%string → foldl create_table db l !! t = db !! t.
Proof.
  revert db. induction l as [| x l IH]; intros db Hnin Hseq; [done |].
  cbn [foldl]. apply not_elem_of_cons in Hnin as [Hx Hnin].
  rewrite IH by done. by apply create_table_others.
Qed.

Lemma create_tables_sequence (l : list string) (db : gmap string (list row)) :
  (∃ t, t ∈ l ∧ db !! t = None) →
  is_Some (foldl create_table db l !! "sqlite_sequence").
Proof.
  revert db. induction l as [| x l IH]; intros db (t & Hin & Ht);
    [by apply elem_of_nil in Hin |].
  cbn [foldl]. destruct (db !! x) as [rows |] eqn:Hx.
  - apply IH. exists t. apply elem_of_cons in Hin as [-> | Hin]; [congruence |].
    split; [done |]. unfold create_table. by rewrite Hx.
  - destruct (create_table_sequence db x Hx) as [rows Hrows].
    rewrite (create_tables_keep l _ _ rows Hrows). eauto.
Qed.

Lemma create_tables_nothing (l : list string) (db : gmap string (list row)) :
  (∀ t, t ∈ l → is_Some (db !! t)) → foldl create_table db l = db.
Proof.
  induction l as [| x l IH]; intros Hall; [done |].
  cbn [foldl]. destruct (Hall x) as [rows Hx]; [apply elem_of_cons; by left |].
  unfold create_table at 2. rewrite Hx. apply IH.
  intros t Ht. apply Hall, elem_of_cons. by right.
Qed.

Lemma exec_basic_schema_idempotent (db : gmap string (list row)) :
  exec_basic_schema (exec_basic_schema db) = exec_basic_schema db.
Proof.
  unfold exec_basic_schema. apply create_tables_nothing. intros t Ht.
  destruct (db !! t) as [rows |] eqn:Hdb.
  - rewrite (create_tables_keep _ _ _ rows Hdb). eauto.
  - rewrite (create_tables_create _ _ _ Ht Hdb). eauto.
Qed.

End SchemaFacts.

(** X13: with no [schema.sql] and a working driver, the script ends
    normally with the six tables of the basic schema in place: a table that
    existed keeps its rows, a missing one is created empty, and beside the
    six only SQLite's own [sqlite_sequence] can appear, which it does
    whenever a table had to be created; when the six tables exist the
    database is left as it is, so running the script again changes
    nothing. *)
Theorem basic_schema_adds_the_missing_tables
    (Sy : InitializeDb.system)
    (db : gmap string (list ProductionAgentFactory.row)) :
  InitializeDb.open_fault Sy = None →
  InitializeDb.schema_file Sy = None →
  InitializeDb.basic_schema_fault Sy = None →
  InitializeDb.list_tables_fault Sy = None →
  InitializeDb.close_fault Sy = None →
  ∃ db',
    InitializeDb.initializeDatabase Sy db = InitializeDb.Done db'
    ∧ (∀ t rows, db !! t = Some rows → db' !! t = Some rows)
    ∧ (∀ t, t ∈ InitializeDb.basic_schema_tables → db !! t = None →
            db' !! t = Some [])
    ∧ (∀ t, t ∉ InitializeDb.basic_schema_tables → t ≠ "sqlite_sequence"%string →
            db' !! t = db !! t)
    ∧ ((∃ t, t ∈ InitializeDb.basic_schema_tables ∧ db !! t = None) →
       is_Some (db' !! "sqlite_sequence"))
    ∧ ((∀ t, t ∈ InitializeDb.basic_schema_tables → is_Some (db !! t)) →
       db' = db)
    ∧ InitializeDb.initializeDatabase Sy db' = InitializeDb.Done db'.
Proof.
  intros Hopen Hfile Hexec Htables Hclose.
  exists (InitializeDb.exec_basic_schema db).
  unfold InitializeDb.initializeDatabase.
  rewrite Hopen, Hfile, Hexec, Htables, Hclose.
  split; [done |]. unfold InitializeDb.exec_basic_schema at 1 2 3 4 5.
  split; [intros t rows; apply create_tables_keep |].
  split; [intros t; apply create_tables_create |].
  split; [intros t; apply create_tables_others |].
  split; [apply create_tables_sequence |].
  split; [apply create_tables_nothing |].
  by rewrite exec_basic_schema_idempotent.
Qed.

Lemma basic_schema_adds_the_missing_tables_witness :
  ∃ db',
    InitializeDb.initializeDatabase Samples.no_schema_file Samples.files_only
    = InitializeDb.Done db'
    ∧ db' !! "files" = Samples.files_only !! "files"
    ∧ db' !! "pois" = Some []
    ∧ is_Some (db' !! "sqlite_sequence")
    ∧ InitializeDb.initializeDatabase Samples.no_schema_file db'
      = InitializeDb.Done db'.
Proof.
  destruct (basic_schema_adds_the_missing_tables Samples.no_schema_file
              Samples.files_only)
    as (db' & Hrun & Hkeeps & Hcreates & _ & Hsequence & _ & Hagain);
    try reflexivity.
  exists db'. split; [exact Hrun |].
  split; [by apply Hkeeps |].
  split; [apply Hcreates; [decide_closed | reflexivity] |].
  split; [| exact Hagain].
  apply Hsequence. exists "pois"%string. split; [decide_closed | reflexivity].
Defined.

Section ClearFacts.
Import ProductionAgentFactory.
Variable C : collaborators.

Lemma exec_delete_from_run (table : string) (s : state) :
  exec_fault C table = None →
  is_Some (sqlite (ext s) !! table) →
  exec_delete_from C table s
  = (State (this s) (Stores (<[table := []]> (sqlite (ext s))) (redis (ext s))
                            (neo4j_nodes (ext s)) (neo4j_edges (ext s))),
     Ok tt).
Proof.
  intros Hfault [rows Hrows]. unfold exec_delete_from.
  rewrite Hfault. unfold mbind, M_bind. cbn. by rewrite Hrows.
Qed.

Lemma insert_is_Some (db : gmap string (list row)) (t t' : string)
    (rows : list row) :
  is_Some (db !! t') → is_Some (<[t := rows]> db !! t').
Proof.
  intros H. destruct (decide (t = t')) as [-> | Hne].
  - rewrite lookup_insert_eq. eauto.
  - by rewrite lookup_insert_ne.
Qed.

(** The six statements in a row, on a store that has the six tables. *)
Lemma deletes_run {A} (k : M state A) (s : state) :
  (∀ t, exec_fault C t = None) →
  (∀ t, t ∈ InitializeDb.basic_schema_tables → is_Some (sqlite (ext s) !! t)) →
  (exec_delete_from C "relationships";;
   exec_delete_from C "relationship_evidence";;
   exec_delete_from C "pois";;
   exec_delete_from C "files";;
   exec_delete_from C "directory_summaries";;
   exec_delete_from C "outbox";;
   k) s
  = k (State (this s) (Stores (deleted (sqlite (ext s))) (redis (ext s))
                              (neo4j_nodes (ext s)) (neo4j_edges (ext s)))).
Proof.
  intros Hfault Htables.
  assert (∀ t (s1 : state),
            is_Some (sqlite (ext s1) !! t) →
            ∀ {B} (k' : M state B),
              (exec_delete_from C t;; k') s1
              = k' (State (this s1)
                          (Stores (<[t := []]> (sqlite (ext s1))) (redis (ext s1))
                                  (neo4j_nodes (ext s1)) (neo4j_edges (ext s1)))))
    as Hstep.
  { intros t s1 Ht B k'.
    exact (bind_run _ _ _ _ _ (exec_delete_from_run t s1 (Hfault t) Ht)). }
  rewrite Hstep by (apply Htables; decide_closed).
  rewrite Hstep by (cbn [ext sqlite]; repeat apply insert_is_Some;
                    apply Htables; decide_closed).
  rewrite Hstep by (cbn [ext sqlite]; repeat apply insert_is_Some;
                    apply Htables; decide_closed).
  rewrite Hstep by (cbn [ext sqlite]; repeat apply insert_is_Some;
                    apply Htables; decide_closed).
  rewrite Hstep by (cbn [ext sqlite]; repeat apply insert_is_Some;
                    apply Htables; decide_closed).
  rewrite Hstep by (cbn [ext sqlite]; repeat apply insert_is_Some;
                    apply Htables; decide_closed).
  reflexivity.
Qed.

Lemma deleted_tables (db : gmap string (list row)) (t : string) :
  t ∈ InitializeDb.basic_schema_tables → deleted db !! t = Some [].
Proof.
  unfold InitializeDb.basic_schema_tables, deleted.
  rewrite !elem_of_cons, elem_of_nil.
  intros [-> | [-> | [-> | [-> | [-> | [-> | []]]]]]]; by simplify_map_eq.
Qed.

Lemma deleted_others (db : gmap string (list row)) (t : string) :
  t ∉ InitializeDb.basic_schema_tables → deleted db !! t = db !! t.
Proof.
  unfold InitializeDb.basic_schema_tables, deleted.
  rewrite !not_elem_of_cons. intros (? & ? & ? & ? & ? & ? & _).
  by rewrite !lookup_insert_ne.
Qed.

Lemma ensure_initialized_skip (s : state) :
  dbManager (this s) = true → ensure_initialized C s = (s, Ok tt).
Proof.
  intros Hdb. unfold ensure_initialized, mbind, M_bind. cbn [get]. by rewrite Hdb.
Qed.

(** [clearAllDatabases] on a factory whose [dbManager] is set. *)
Lemma clearAllDatabases_initialised (s : state) :
  dbManager (this s) = true →
  (∀ t, exec_fault C t = None) →
  (∀ t, t ∈ InitializeDb.basic_schema_tables → is_Some (sqlite (ext s) !! t)) →
  clearAllDatabases C s
  = (flushdb C;;
     s ← get;
     (if neo4jDriver (this s) then mret tt else throw (TypeError_null "session"));;
     try_finally (detach_delete_all C) (fault (session_close_fault C)))
      (State (this s) (Stores (deleted (sqlite (ext s))) (redis (ext s))
                              (neo4j_nodes (ext s)) (neo4j_edges (ext s)))).
Proof.
  intros Hdb Hfault Htables. unfold clearAllDatabases.
  rewrite (bind_run _ _ _ _ _ (ensure_initialized_skip s Hdb)).
  by apply deletes_run.
Qed.

End ClearFacts.

(** X14: the six tables of the basic schema are all that
    [clearAllDatabases] needs of the relational store: on an initialised
    factory whose store has them, and with collaborators that do not fail,
    it returns, leaving the factory as it was and every other table
    untouched. *)
Theorem clearAllDatabases_returns_on_the_basic_schema
    (C : ProductionAgentFactory.collaborators)
    (s : ProductionAgentFactory.state) :
  let sqlite_of s := ProductionAgentFactory.sqlite (ProductionAgentFactory.ext s) in
  ProductionAgentFactory.dbManager (ProductionAgentFactory.this s) = true →
  ProductionAgentFactory.cacheClient (ProductionAgentFactory.this s) = true →
  ProductionAgentFactory.neo4jDriver (ProductionAgentFactory.this s) = true →
  (∀ t, t ∈ InitializeDb.basic_schema_tables → is_Some (sqlite_of s !! t)) →
  (∀ t, ProductionAgentFactory.exec_fault C t = None) →
  ProductionAgentFactory.flushdb_fault C = None →
  ProductionAgentFactory.run_fault C = None →
  ProductionAgentFactory.session_close_fault C = None →
  ∃ s',
    ProductionAgentFactory.clearAllDatabases C s = (s', Ok tt)
    ∧ ProductionAgentFactory.this s' = ProductionAgentFactory.this s
    ∧ (∀ t, t ∉ InitializeDb.basic_schema_tables → sqlite_of s' !! t = sqlite_of s !! t).
Proof.
  intros sqlite_of Hdb Hcache Hdrv Htables Hexec Hflush Hrun Hclose.
  rewrite (clearAllDatabases_initialised C s Hdb Hexec Htables).
  unfold ProductionAgentFactory.flushdb, ProductionAgentFactory.detach_delete_all,
    try_finally, mbind, M_bind.
  cbn [get ProductionAgentFactory.this]. rewrite Hcache, Hflush, Hrun, Hclose. cbn.
  rewrite Hdrv. cbn.
  eexists. split; [reflexivity |]. split; [by destruct s as [[] ?] |].
  intros t Ht. unfold sqlite_of. cbn. by apply deleted_others.
Qed.

Lemma clearAllDatabases_returns_on_the_basic_schema_witness :
  ∃ s',
    ProductionAgentFactory.clearAllDatabases Samples.healthy_collaborators
      (ProductionAgentFactory.State
         (ProductionAgentFactory.Factory ∅ ∅ true true true true true)
         (ProductionAgentFactory.Stores
            (InitializeDb.exec_basic_schema Samples.files_only) ∅ [] []))
    = (s', Ok tt).
Proof.
  destruct (clearAllDatabases_returns_on_the_basic_schema
              Samples.healthy_collaborators
              (ProductionAgentFactory.State
                 (ProductionAgentFactory.Factory ∅ ∅ true true true true true)
                 (ProductionAgentFactory.Stores
                    (InitializeDb.exec_basic_schema Samples.files_only) ∅ [] [])))
    as (s' & Hrun & _); try reflexivity.
  - intros t Ht. cbn.
    unfold InitializeDb.basic_schema_tables in Ht.
    rewrite !elem_of_cons, elem_of_nil in Ht.
    destruct Ht as [-> | [-> | [-> | [-> | [-> | [-> | []]]]]]];
      vm_compute; eauto.
  - by exists s'.
Defined.

(** X15: [clearAllDatabases] is not atomic.  When the cache refuses
    [flushdb], the call throws that error after the six tables have been
    emptied, with the cache and the graph as they were. *)
Theorem clearAllDatabases_stops_at_a_failing_cache
    (C : ProductionAgentFactory.collaborators)
    (s : ProductionAgentFactory.state) (e : error) :
  let stores_of s := ProductionAgentFactory.ext s in
  ProductionAgentFactory.dbManager (ProductionAgentFactory.this s) = true →
  ProductionAgentFactory.cacheClient (ProductionAgentFactory.this s) = true →
  (∀ t, t ∈ InitializeDb.basic_schema_tables →
        is_Some (ProductionAgentFactory.sqlite (stores_of s) !! t)) →
  (∀ t, ProductionAgentFactory.exec_fault C t = None) →
  ProductionAgentFactory.flushdb_fault C = Some e →
  ∃ s',
    ProductionAgentFactory.clearAllDatabases C s = (s', Throw e)
    ∧ (∀ t, t ∈ InitializeDb.basic_schema_tables →
            ProductionAgentFactory.sqlite (stores_of s') !! t = Some [])
    ∧ ProductionAgentFactory.redis (stores_of s')
      = ProductionAgentFactory.redis (stores_of s)
    ∧ ProductionAgentFactory.neo4j_nodes (stores_of s')
      = ProductionAgentFactory.neo4j_nodes (stores_of s)
    ∧ ProductionAgentFactory.neo4j_edges (stores_of s')
      = ProductionAgentFactory.neo4j_edges (stores_of s).
Proof.
  intros stores_of Hdb Hcache Htables Hexec Hflush.
  rewrite (clearAllDatabases_initialised C s Hdb Hexec Htables).
  unfold ProductionAgentFactory.flushdb, mbind, M_bind.
  cbn [get ProductionAgentFactory.this]. rewrite Hcache, Hflush. cbn.
  eexists. split; [reflexivity |]. unfold stores_of. cbn.
  split; [| done]. intros t Ht. by apply deleted_tables.
Qed.

Lemma clearAllDatabases_stops_at_a_failing_cache_witness :
  ∃ s',
    ProductionAgentFactory.clearAllDatabases
      (PipelineApi.collab Samples.cache_down) Samples.initialised_factory_state
    = (s', Throw (new_Error "Connection is closed."))
    ∧ ProductionAgentFactory.sqlite (ProductionAgentFactory.ext s') !! "files"
      = Some []
    ∧ ProductionAgentFactory.neo4j_nodes (ProductionAgentFactory.ext s')
      = [1; 2]%nat.
Proof.
  destruct (clearAllDatabases_stops_at_a_failing_cache
              (PipelineApi.collab Samples.cache_down)
              Samples.initialised_factory_state
              (new_Error "Connection is closed."))
    as (s' & Hrun & Htables & _ & Hnodes & _); try reflexivity.
  - intros t Ht.
    unfold InitializeDb.basic_schema_tables in Ht.
    rewrite !elem_of_cons, elem_of_nil in Ht.
    destruct Ht as [-> | [-> | [-> | [-> | [-> | [-> | []]]]]]];
      vm_compute; eauto.
  - exists s'. split; [exact Hrun |]. split; [| exact Hnodes].
    apply Htables. decide_closed.
Defined.

(** X16: a factory whose [initialize] failed at the queue broker stays
    half initialised.  The failed call has set [dbManager] but not
    [cacheClient], so a later [clearAllDatabases] does not initialise
    again: whatever the collaborators do by then, it empties the six
    tables and throws the [TypeError] of [this.cacheClient.flushdb()],
    "Cannot read properties of null (reading 'flushdb')", leaving the
    cache and the graph as they were. *)
Theorem failed_initialize_is_not_retried
    (C C' : ProductionAgentFactory.collaborators)
    (s : ProductionAgentFactory.state) (e : error)
    (db : gmap string (list ProductionAgentFactory.row)) :
  let stores_of s := ProductionAgentFactory.ext s in
  ProductionAgentFactory.dbManager (ProductionAgentFactory.this s) = false →
  ProductionAgentFactory.cacheClient (ProductionAgentFactory.this s) = false →
  ProductionAgentFactory.new_DatabaseManager C = None →
  ProductionAgentFactory.initializeDb C (ProductionAgentFactory.sqlite (stores_of s))
  = Ok db →
  ProductionAgentFactory.queue_connect C = Some e →
  (∀ t, t ∈ InitializeDb.basic_schema_tables → is_Some (db !! t)) →
  (∀ t, ProductionAgentFactory.exec_fault C' t = None) →
  ∃ s1 s2,
    ProductionAgentFactory.clearAllDatabases C s = (s1, Throw e)
    ∧ ProductionAgentFactory.sqlite (stores_of s1) = db
    ∧ ProductionAgentFactory.clearAllDatabases C' s1
      = (s2, Throw (new_Error "Cannot read properties of null (reading 'flushdb')"))
    ∧ (∀ t, t ∈ InitializeDb.basic_schema_tables →
            ProductionAgentFactory.sqlite (stores_of s2) !! t = Some [])
    ∧ ProductionAgentFactory.redis (stores_of s2)
      = ProductionAgentFactory.redis (stores_of s)
    ∧ ProductionAgentFactory.neo4j_nodes (stores_of s2)
      = ProductionAgentFactory.neo4j_nodes (stores_of s)
    ∧ ProductionAgentFactory.neo4j_edges (stores_of s2)
      = ProductionAgentFactory.neo4j_edges (stores_of s).
Proof.
  intros stores_of Hdb Hcache Hnew Hinit Hqueue Htables Hexec.
  assert (∃ s1,
            ProductionAgentFactory.clearAllDatabases C s = (s1, Throw e)
            ∧ ProductionAgentFactory.sqlite (stores_of s1) = db
            ∧ ProductionAgentFactory.dbManager (ProductionAgentFactory.this s1) = true
            ∧ ProductionAgentFactory.cacheClient (ProductionAgentFactory.this s1) = false
            ∧ ProductionAgentFactory.redis (stores_of s1)
              = ProductionAgentFactory.redis (stores_of s)
            ∧ ProductionAgentFactory.neo4j_nodes (stores_of s1)
              = ProductionAgentFactory.neo4j_nodes (stores_of s)
            ∧ ProductionAgentFactory.neo4j_edges (stores_of s1)
              = ProductionAgentFactory.neo4j_edges (stores_of s))
    as (s1 & Hrun1 & Hsql1 & Hdb1 & Hcache1 & Hredis1 & Hnodes1 & Hedges1).
  { unfold ProductionAgentFactory.clearAllDatabases,
      ProductionAgentFactory.ensure_initialized, ProductionAgentFactory.initialize.
    unfold mbind, M_bind.
    cbn [get ProductionAgentFactory.this]. rewrite Hdb, Hnew. cbn.
    unfold stores_of in Hinit. rewrite Hinit. cbn. rewrite Hqueue. cbn.
    eexists. split; [reflexivity |]. unfold stores_of. cbn.
    repeat split; done. }
  assert (∀ t, t ∈ InitializeDb.basic_schema_tables →
               is_Some (ProductionAgentFactory.sqlite
                          (ProductionAgentFactory.ext s1) !! t)) as Htables1
    by (unfold stores_of in Hsql1; by rewrite Hsql1).
  exists s1.
  rewrite (clearAllDatabases_initialised C' s1 Hdb1 Hexec Htables1).
  unfold ProductionAgentFactory.flushdb, mbind, M_bind.
  cbn [get ProductionAgentFactory.this]. rewrite Hcache1. cbn.
  eexists. split; [exact Hrun1 |]. split; [exact Hsql1 |].
  split; [reflexivity |]. unfold stores_of in *. cbn.
  split; [| done]. intros t Ht. by apply deleted_tables.
Qed.

Lemma failed_initialize_is_not_retried_witness :
  ∃ s1 s2,
    ProductionAgentFactory.clearAllDatabases Samples.queue_down
      Samples.fresh_factory_state
    = (s1, Throw (new_Error "connect ECONNREFUSED 127.0.0.1:6379"))
    ∧ ProductionAgentFactory.clearAllDatabases Samples.healthy_collaborators s1
      = (s2, Throw (new_Error "Cannot read properties of null (reading 'flushdb')"))
    ∧ ProductionAgentFactory.sqlite (ProductionAgentFactory.ext s2) !! "files"
      = Some [].
Proof.
  destruct (failed_initialize_is_not_retried
              Samples.queue_down Samples.healthy_collaborators
              Samples.fresh_factory_state
              (new_Error "connect ECONNREFUSED 127.0.0.1:6379")
              (ProductionAgentFactory.sqlite Samples.populated_stores))
    as (s1 & s2 & Hrun1 & _ & Hrun2 & Htables & _); try reflexivity.
  - intros t Ht.
    unfold InitializeDb.basic_schema_tables in Ht.
    rewrite !elem_of_cons, elem_of_nil in Ht.
    destruct Ht as [-> | [-> | [-> | [-> | [-> | [-> | []]]]]]];
      vm_compute; eauto.
  - exists s1, s2. split; [exact Hrun1 |]. split; [exact Hrun2 |].
    apply Htables. decide_closed.
Defined.

Section AgentFacts.
Import ProductionAgentFactory.
Variables (C : collaborators) (Mo : modules).

Lemma createAgents_run (s : state) :
  dbManager (this s) = true →
  agent_fault Mo "entityScout" = None →
  agent_fault Mo "relationshipResolver" = None →
  agent_fault Mo "graphBuilder" = None →
  createAgents C Mo s
  = (State (with_agents Mo (this s)) (ext s),
     Ok (agents (with_agents Mo (this s)))).
Proof.
  intros Hdb H1 H2 H3. unfold createAgents.
  rewrite (bind_run _ _ _ _ _ (ensure_initialized_skip C s Hdb)).
  rewrite H1, H2, H3. unfold with_agents, try_catch, mbind, M_bind. cbn.
  by destruct (agent_fault Mo "selfCleaningAgent").
Qed.

Lemma createAgents_throws (s s' : state) (e : error) :
  dbManager (this s) = true →
  createAgents C Mo s = (s', Throw e) →
  agent_fault Mo "entityScout" = Some e
  ∨ agent_fault Mo "relationshipResolver" = Some e
  ∨ agent_fault Mo "graphBuilder" = Some e.
Proof.
  intros Hdb. unfold createAgents.
  rewrite (bind_run _ _ _ _ _ (ensure_initialized_skip C s Hdb)).
  unfold try_catch, mbind, M_bind.
  destruct (agent_fault Mo "entityScout"); cbn; [intros [= _ ->]; auto |].
  destruct (agent_fault Mo "relationshipResolver"); cbn; [intros [= _ ->]; auto |].
  destruct (agent_fault Mo "graphBuilder"); cbn; [intros [= _ ->]; auto |].
  by destruct (agent_fault Mo "selfCleaningAgent").
Qed.

Lemma createAgents_returns (s s' : state) (keys : gset string) :
  dbManager (this s) = true →
  createAgents C Mo s = (s', Ok keys) →
  agent_fault Mo "entityScout" = None
  ∧ agent_fault Mo "relationshipResolver" = None
  ∧ agent_fault Mo "graphBuilder" = None.
Proof.
  intros Hdb. unfold createAgents.
  rewrite (bind_run _ _ _ _ _ (ensure_initialized_skip C s Hdb)).
  unfold try_catch, mbind, M_bind.
  destruct (agent_fault Mo "entityScout"); cbn; [done |].
  destruct (agent_fault Mo "relationshipResolver"); cbn; [done |].
  by destruct (agent_fault Mo "graphBuilder").
Qed.

Lemma with_agents_fields (f : factory) :
  dbManager (with_agents Mo f) = dbManager f
  ∧ workers (with_agents Mo f) = workers f
  ∧ "entityScout" ∈ agents (with_agents Mo f)
  ∧ "relationshipResolver" ∈ agents (with_agents Mo f)
  ∧ "graphBuilder" ∈ agents (with_agents Mo f)
  ∧ ("selfCleaningAgent" ∈ agents (with_agents Mo f)
     ↔ "selfCleaningAgent" ∈ agents f ∨ agent_fault Mo "selfCleaningAgent" = None).
Proof.
  unfold with_agents. cbn.
  destruct (agent_fault Mo "selfCleaningAgent"); cbn;
    rewrite ?elem_of_union, ?elem_of_singleton;
    repeat split; auto; try tauto.
  - intros [? | [? | [? | ?]]]; try done. by left.
  - intros [? | ?]; [auto | done].
Qed.

(** One turn of the loop over the worker classes. *)
Lemma create_worker_run (name : string) (s : state) :
  create_worker Mo name s
  = (match worker_fault Mo name with
     | None => State (Factory (agents (this s))
                              ({[toLowerCase name]} ∪ workers (this s))
                              (dbManager (this s)) (queueManager (this s))
                              (cacheClient (this s)) (llmClient (this s))
                              (neo4jDriver (this s)))
                     (ext s)
     | Some _ => s
     end, Ok tt).
Proof.
  unfold create_worker, try_catch, mbind, M_bind.
  by destruct (worker_fault Mo name).
Qed.

Lemma for_each_create_worker (l : list string) (s : state) :
  ∃ s',
    for_each (create_worker Mo) l s = (s', Ok tt)
    ∧ agents (this s') = agents (this s)
    ∧ dbManager (this s') = dbManager (this s)
    ∧ ext s' = ext s
    ∧ ∀ k, k ∈ workers (this s')
           ↔ k ∈ workers (this s)
             ∨ ∃ name, name ∈ l ∧ worker_fault Mo name = None
                       ∧ k = toLowerCase name.
Proof.
  revert s. induction l as [| x l IH]; intros s; cbn [for_each].
  - exists s. repeat split; [tauto |].
    intros [? | (name & []%elem_of_nil & _)]. done.
  - rewrite (bind_run _ _ _ _ _ (create_worker_run x s)).
    destruct (IH (match worker_fault Mo x with
                  | None => State (Factory (agents (this s))
                                           ({[toLowerCase x]} ∪ workers (this s))
                                           (dbManager (this s)) (queueManager (this s))
                                           (cacheClient (this s)) (llmClient (this s))
                                           (neo4jDriver (this s)))
                                  (ext s)
                  | Some _ => s
                  end))
      as (s' & Hrun & Hagents & Hdb & Hext & Hworkers).
    exists s'. split; [exact Hrun |].
    destruct (worker_fault Mo x) as [e |] eqn:Hx; cbn in *.
    + repeat split; try done.
      * intros [Hk | (name & Hname & Hfault & ->)]%Hworkers; [by left |].
        right. exists name. rewrite elem_of_cons. auto.
      * intros [Hk | (name & [-> | Hname]%elem_of_cons & Hfault & ->)];
          apply Hworkers; [by left | congruence | right; eauto].
    + repeat split; try done.
      * intros [[->%elem_of_singleton | Hk]%elem_of_union
               | (name & Hname & Hfault & ->)]%Hworkers.
        -- right. exists x. rewrite elem_of_cons. auto.
        -- by left.
        -- right. exists name. rewrite elem_of_cons. auto.
      * intros [Hk | (name & [-> | Hname]%elem_of_cons & Hfault & ->)];
          apply Hworkers.
        -- left. apply elem_of_union. by right.
        -- left. apply elem_of_union. left. by apply elem_of_singleton.
        -- right. eauto.
Qed.

Lemma createWorkers_run (s : state) :
  dbManager (this s) = true →
  ∃ s',
    createWorkers C Mo s = (s', Ok (workers (this s')))
    ∧ agents (this s') = agents (this s)
    ∧ dbManager (this s') = true
    ∧ ext s' = ext s
    ∧ ∀ k, k ∈ workers (this s')
           ↔ k ∈ workers (this s)
             ∨ ∃ name, name ∈ worker_classes ∧ worker_fault Mo name = None
                       ∧ k = toLowerCase name.
Proof.
  intros Hdb. unfold createWorkers.
  rewrite (bind_run _ _ _ _ _ (ensure_initialized_skip C s Hdb)).
  destruct (for_each_create_worker worker_classes s)
    as (s' & Hrun & Hagents & Hdb' & Hext & Hworkers).
  rewrite (bind_run _ _ _ _ _ Hrun). exists s'.
  split; [reflexivity |]. rewrite Hdb' in *. auto.
Qed.

End AgentFacts.

(** X17: on an initialised factory, when the constructors of the three
    pipeline agents do not throw, [createAgents] returns the registered
    keys, the three agents are among them whether or not the optional
    SelfCleaningAgent loads, and the three accessors then return. *)
Theorem createAgents_makes_the_accessors_work
    (C : ProductionAgentFactory.collaborators)
    (Mo : ProductionAgentFactory.modules)
    (s : ProductionAgentFactory.state) :
  ProductionAgentFactory.dbManager (ProductionAgentFactory.this s) = true →
  ProductionAgentFactory.agent_fault Mo "entityScout" = None →
  ProductionAgentFactory.agent_fault Mo "relationshipResolver" = None →
  ProductionAgentFactory.agent_fault Mo "graphBuilder" = None →
  ∃ s' keys,
    ProductionAgentFactory.createAgents C Mo s = (s', Ok keys)
    ∧ keys = ProductionAgentFactory.agents (ProductionAgentFactory.this s')
    ∧ {["entityScout"; "relationshipResolver"; "graphBuilder"]} ⊆ keys
    ∧ ("selfCleaningAgent" ∈ keys
       ↔ "selfCleaningAgent"
           ∈ ProductionAgentFactory.agents (ProductionAgentFactory.this s)
         ∨ ProductionAgentFactory.agent_fault Mo "selfCleaningAgent" = None)
    ∧ ProductionAgentFactory.createEntityScout s' = (s', Ok tt)
    ∧ ProductionAgentFactory.createGraphBuilder s' = (s', Ok tt)
    ∧ ProductionAgentFactory.createRelationshipResolver s' = (s', Ok tt)
    ∧ ProductionAgentFactory.ext s' = ProductionAgentFactory.ext s.
Proof.
  intros Hdb H1 H2 H3. eexists _, _.
  split; [exact (createAgents_run C Mo s Hdb H1 H2 H3) |].
  cbn [ProductionAgentFactory.this ProductionAgentFactory.ext].
  destruct (with_agents_fields Mo (ProductionAgentFactory.this s))
    as (_ & _ & Hes & Hrr & Hgb & Hsc).
  split; [done |]. split.
  { intros k. rewrite !elem_of_union, !elem_of_singleton.
    intros [[-> | ->] | ->]; done. }
  split; [exact Hsc |].
  unfold ProductionAgentFactory.createEntityScout,
    ProductionAgentFactory.createGraphBuilder,
    ProductionAgentFactory.createRelationshipResolver,
    ProductionAgentFactory.get_agent, mbind, M_bind.
  cbn [get ProductionAgentFactory.this].
  rewrite !bool_decide_eq_true_2 by done. done.
Qed.

Lemma createAgents_makes_the_accessors_work_witness :
  ∃ s' keys,
    ProductionAgentFactory.createAgents Samples.healthy_collaborators
      Samples.optional_modules_missing Samples.initialised_factory_state
    = (s', Ok keys)
    ∧ {["entityScout"; "relationshipResolver"; "graphBuilder"]} ⊆ keys
    ∧ ProductionAgentFactory.createEntityScout s' = (s', Ok tt).
Proof.
  destruct (createAgents_makes_the_accessors_work
              Samples.healthy_collaborators Samples.optional_modules_missing
              Samples.initialised_factory_state)
    as (s' & keys & Hrun & _ & Hkeys & _ & Hes & _); try reflexivity.
  by exists s', keys.
Defined.

(** X18: on an initialised factory [createWorkers] never throws.  A worker
    whose module or constructor throws is skipped; the workers registered
    afterwards are those that were registered before and, under its
    lower-cased class name, every worker class that could be built. *)
Theorem createWorkers_skips_unavailable_workers
    (C : ProductionAgentFactory.collaborators)
    (Mo : ProductionAgentFactory.modules)
    (s : ProductionAgentFactory.state) :
  ProductionAgentFactory.dbManager (ProductionAgentFactory.this s) = true →
  ∃ s' keys,
    ProductionAgentFactory.createWorkers C Mo s = (s', Ok keys)
    ∧ keys = ProductionAgentFactory.workers (ProductionAgentFactory.this s')
    ∧ ProductionAgentFactory.ext s' = ProductionAgentFactory.ext s
    ∧ ∀ k, k ∈ keys
           ↔ k ∈ ProductionAgentFactory.workers (ProductionAgentFactory.this s)
             ∨ ∃ name, name ∈ ProductionAgentFactory.worker_classes
                       ∧ ProductionAgentFactory.worker_fault Mo name = None
                       ∧ k = ProductionAgentFactory.toLowerCase name.
Proof.
  intros Hdb.
  destruct (createWorkers_run C Mo s Hdb) as (s' & Hrun & _ & _ & Hext & Hworkers).
  by exists s', (ProductionAgentFactory.workers (ProductionAgentFactory.this s')).
Qed.

Lemma createWorkers_skips_unavailable_workers_witness :
  ∃ s' keys,
    ProductionAgentFactory.createWorkers Samples.healthy_collaborators
      Samples.optional_modules_missing Samples.initialised_factory_state
    = (s', Ok keys)
    ∧ "fileanalysisworker" ∈ keys ∧ "validationworker" ∉ keys.
Proof.
  destruct (createWorkers_skips_unavailable_workers
              Samples.healthy_collaborators Samples.optional_modules_missing
              Samples.initialised_factory_state)
    as (s' & keys & Hrun & _ & _ & Hkeys); [reflexivity |].
  exists s', keys. split; [exact Hrun |]. split.
  - apply Hkeys. right. exists "FileAnalysisWorker"%string.
    split; [decide_closed |]. split; reflexivity.
  - intros [Hk | (name & Hname & Hfault & Hk)]%Hkeys.
    + by apply elem_of_empty in Hk.
    + unfold ProductionAgentFactory.worker_classes in Hname.
      rewrite !elem_of_cons, elem_of_nil in Hname.
      destruct Hname as [-> | [-> | [-> | [-> | [-> | [-> | []]]]]]];
        vm_compute in Hfault, Hk; discriminate.
Defined.

(** X19: on an initialised factory [startPipeline] returns exactly when
    the three agent constructors and [entityScout.run()] do not throw, and
    then reports [started] with the identifiers it was given and the three
    agents; when it throws, the error is one of those four.  Failures of
    the workers, of SelfCleaningAgent and of the outbox publisher never
    surface, and the check [if (!entityScout)] never fires. *)
Theorem startPipeline_fails_only_with_its_agents
    (C : ProductionAgentFactory.collaborators)
    (Mo : ProductionAgentFactory.modules)
    (targetDirectory pipelineId : string)
    (s : ProductionAgentFactory.state) :
  ProductionAgentFactory.dbManager (ProductionAgentFactory.this s) = true →
  (ProductionAgentFactory.agent_fault Mo "entityScout" = None →
   ProductionAgentFactory.agent_fault Mo "relationshipResolver" = None →
   ProductionAgentFactory.agent_fault Mo "graphBuilder" = None →
   ProductionAgentFactory.run_entityScout Mo = None →
   ∃ s' r,
     ProductionAgentFactory.startPipeline C Mo targetDirectory pipelineId s
     = (s', Ok r)
     ∧ ProductionAgentFactory.sp_status r = "started"%string
     ∧ ProductionAgentFactory.sp_pipelineId r = pipelineId
     ∧ ProductionAgentFactory.sp_targetDirectory r = targetDirectory
     ∧ {["entityScout"; "relationshipResolver"; "graphBuilder"]}
       ⊆ ProductionAgentFactory.sp_agents r)
  ∧ (∀ s' e,
       ProductionAgentFactory.startPipeline C Mo targetDirectory pipelineId s
       = (s', Throw e) →
       ProductionAgentFactory.agent_fault Mo "entityScout" = Some e
       ∨ ProductionAgentFactory.agent_fault Mo "relationshipResolver" = Some e
       ∨ ProductionAgentFactory.agent_fault Mo "graphBuilder" = Some e
       ∨ ProductionAgentFactory.run_entityScout Mo = Some e).
Proof.
  intros Hdb.
  assert (∀ s1,
            ProductionAgentFactory.dbManager (ProductionAgentFactory.this s1) = true →
            "entityScout"
              ∈ ProductionAgentFactory.agents (ProductionAgentFactory.this s1) →
            ∃ s2,
              ProductionAgentFactory.ext s2 = ProductionAgentFactory.ext s1
              ∧ ProductionAgentFactory.agents (ProductionAgentFactory.this s2)
                = ProductionAgentFactory.agents (ProductionAgentFactory.this s1)
              ∧ (ProductionAgentFactory.createWorkers C Mo;;
                 try_catch (fault (ProductionAgentFactory.outbox_fault Mo))
                           (λ _, mret tt);;
                 s ← get;
                 (if bool_decide
                       ("entityScout"
                          ∈ ProductionAgentFactory.agents
                              (ProductionAgentFactory.this s))
                  then mret tt
                  else throw (new_Error "EntityScout agent not available"));;
                 fault (ProductionAgentFactory.run_entityScout Mo);;
                 s ← get;
                 mret (ProductionAgentFactory.StartedPipeline
                         "started" pipelineId targetDirectory
                         (ProductionAgentFactory.agents
                            (ProductionAgentFactory.this s))
                         (ProductionAgentFactory.workers
                            (ProductionAgentFactory.this s)))) s1
                = match ProductionAgentFactory.run_entityScout Mo with
                  | Some e => (s2, Throw e)
                  | None =>
                      (s2, Ok (ProductionAgentFactory.StartedPipeline
                                 "started" pipelineId targetDirectory
                                 (ProductionAgentFactory.agents
                                    (ProductionAgentFactory.this s2))
                                 (ProductionAgentFactory.workers
                                    (ProductionAgentFactory.this s2))))
                  end) as Hrest.
  { intros s1 Hdb1 Hes.
    destruct (createWorkers_run C Mo s1 Hdb1)
      as (s2 & Hrun & Hagents & _ & Hext & _).
    exists s2. split; [exact Hext |]. split; [exact Hagents |].
    rewrite (bind_run _ _ _ _ _ Hrun).
    unfold try_catch, mbind, M_bind.
    destruct (ProductionAgentFactory.outbox_fault Mo); cbn;
      rewrite bool_decide_eq_true_2 by (by rewrite Hagents);
      by destruct (ProductionAgentFactory.run_entityScout Mo). }
  unfold ProductionAgentFactory.startPipeline.
  rewrite (bind_run _ _ _ _ _ (ensure_initialized_skip C s Hdb)).
  split.
  - intros H1 H2 H3 Hrun.
    rewrite (bind_run _ _ _ _ _ (createAgents_run C Mo s Hdb H1 H2 H3)).
    destruct (with_agents_fields Mo (ProductionAgentFactory.this s))
      as (Hdb' & _ & Hes & Hrr & Hgb & _).
    match goal with
    | |- context [mbind _ _ ?s1] =>
        destruct (Hrest s1) as (s2 & _ & Hagents & ->);
          [cbn [ProductionAgentFactory.this]; by rewrite Hdb' | exact Hes |]
    end.
    rewrite Hrun. eexists _, _. split; [reflexivity |]. cbn.
    repeat split. rewrite Hagents. cbn.
    intros k. rewrite !elem_of_union, !elem_of_singleton.
    intros [[-> | ->] | ->]; done.
  - intros s' e.
    destruct (ProductionAgentFactory.createAgents C Mo s)
      as [s1 [keys | e1]] eqn:Hagents.
    + rewrite (bind_run _ _ _ _ _ Hagents).
      destruct (createAgents_returns C Mo s s1 keys Hdb Hagents) as (H1 & H2 & H3).
      rewrite (createAgents_run C Mo s Hdb H1 H2 H3) in Hagents.
      injection Hagents as <- _.
      destruct (with_agents_fields Mo (ProductionAgentFactory.this s))
        as (Hdb' & _ & Hes & _).
      match goal with
      | |- context [mbind _ _ ?s1] =>
          destruct (Hrest s1) as (s2 & _ & _ & ->);
            [cbn [ProductionAgentFactory.this]; by rewrite Hdb' | exact Hes |]
      end.
      destruct (ProductionAgentFactory.run_entityScout Mo); [| done].
      intros [= _ ->]. auto.
    + rewrite (bind_throw _ _ _ _ _ Hagents). intros [= _ <-].
      apply (createAgents_throws C Mo s s1 e1 Hdb) in Hagents. tauto.
Qed.

Lemma startPipeline_fails_only_with_its_agents_witness :
  ∃ s' r,
    ProductionAgentFactory.startPipeline Samples.healthy_collaborators
      Samples.optional_modules_missing "/repo" "pipeline-1"
      Samples.initialised_factory_state
    = (s', Ok r)
    ∧ ProductionAgentFactory.sp_status r = "started"%string.
Proof.
  destruct (startPipeline_fails_only_with_its_agents
              Samples.healthy_collaborators Samples.optional_modules_missing
              "/repo" "pipeline-1" Samples.initialised_factory_state)
    as [Hok _]; [reflexivity |].
  destruct Hok as (s' & r & Hrun & Hstatus & _); try reflexivity.
  by exists s', r.
Defined.

(** ** The pipeline API, continued *)

Section KeyFacts.
Import PipelineApi.

Lemma before_dot_app (a b : string) :
  includes_dot a = false → before_dot (a ++ String "." b) = a.
Proof.
  induction a as [| c a IH]; [done |].
  change (String c a ++ String "." b)%string with (String c (a ++ String "." b)).
  cbn [before_dot includes_dot].
  destruct (Ascii.eqb c "."); [done |]. intros Ha. f_equal. by apply IH.
Qed.

Lemma after_dot_app (a b : string) :
  includes_dot a = false → after_dot (a ++ String "." b) = b.
Proof.
  induction a as [| c a IH]; [done |].
  change (String c a ++ String "." b)%string with (String c (a ++ String "." b)).
  cbn [after_dot includes_dot].
  destruct (Ascii.eqb c "."); [done |]. intros Ha. by apply IH.
Qed.

Lemma includes_dot_app (a b : string) :
  includes_dot (a ++ String "." b) = true.
Proof.
  induction a as [| c a IH]; [done |].
  change (String c a ++ String "." b)%string with (String c (a ++ String "." b)).
  cbn [includes_dot]. apply orb_true_iff. right. exact IH.
Qed.

(** Updates whose keys have no dot leave [progress] alone. *)
Lemma plain_updates_progress (p : pipeline) (updates : list (string * value)) :
  Forall (λ kv, includes_dot kv.1 = false) updates →
  progress (foldl apply_update p updates) = progress p.
Proof.
  intros H. revert p. induction H as [| [key v] updates Hkey _ IH]; intros p;
    cbn [foldl]; [done |].
  rewrite IH. unfold apply_update. cbn [fst] in Hkey. by rewrite Hkey.
Qed.

(** The registry after the prelude: the record of the invocation is the
    only change, and its progress is the initial one. *)
Lemma prelude_registry (E : environment) (pipelineId targetDirectory : string)
    (w : world) :
  ∃ p, activePipelines (prelude E pipelineId targetDirectory w).1
       = <[pipelineId := p]> (activePipelines w)
       ∧ progress p = initial_progress.
Proof.
  unfold prelude, register, declare_factory, set_pipeline, toISOString, modify,
    mbind, M_bind.
  cbn [fst activePipelines]. eexists (Pipeline _ _ _). split; reflexivity.
Qed.

End KeyFacts.

Section RegistryFrame.
Import ProductionAgentFactory PipelineApi.
Variables (E : environment) (pipelineId : string).

(** A property of the registry that does not look at anything but the
    [progress] of the record of [pipelineId]. *)
Variable Q : gmap string pipeline → Prop.
Hypothesis Q_insert :
  ∀ m p p', Q m → m !! pipelineId = Some p → progress p' = progress p →
            Q (<[pipelineId := p']> m).

Local Abbreviation P := (λ w : world, Q (activePipelines w)).

Lemma plain_update_frame (updates : list (string * value)) (logMessage : string) :
  Forall (λ kv, includes_dot kv.1 = false) updates →
  preserves P (updatePipelineStatus E pipelineId updates logMessage).
Proof.
  intros Hplain w w' r HP Hrun.
  destruct (activePipelines w !! pipelineId) as [p |] eqn:Hp.
  - destruct (updatePipelineStatus_run E pipelineId updates logMessage w p Hp)
      as (w2 & p' & Hrun2 & Hreg & _ & Hprogress & _).
    rewrite Hrun in Hrun2. injection Hrun2 as <- _.
    cbv beta in *. rewrite Hreg. apply (Q_insert _ p); [done .. |].
    by rewrite Hprogress, plain_updates_progress.
  - revert Hrun. unfold updatePipelineStatus.
    unfold mbind at 1, M_bind at 1. cbn [get]. rewrite Hp. by intros [= <- _].
Qed.

Lemma registry_frame {A} (m : M world A) :
  (∀ w w' r, m w = (w', r) → activePipelines w' = activePipelines w) →
  preserves P m.
Proof. intros Hm w w' r HP Hrun. cbv beta in *. by rewrite (Hm w w' r Hrun). Qed.

Lemma on_factory_frame {A} (m : M state A) : preserves P (on_factory m).
Proof. apply registry_frame. intros w w' r. apply on_factory_registry. Qed.

Lemma toISOString_frame : preserves P (toISOString E).
Proof. apply registry_frame. by intros w w' r [= <- _]. Qed.

Lemma load_factory_frame : preserves P (load_factory E).
Proof.
  apply registry_frame. intros w w' r. unfold load_factory, mbind, M_bind.
  destruct (require_factory E); by intros [= <- _].
Qed.

Lemma phase1_clear_frame : preserves P (phase1_clear E pipelineId).
Proof.
  unfold phase1_clear.
  apply preserves_bind; [apply plain_update_frame; by repeat constructor |].
  intros _. apply preserves_bind; [apply on_factory_frame |].
  intros _. apply plain_update_frame. constructor.
Qed.

Lemma phase2_connections_frame : preserves P (phase2_connections E pipelineId).
Proof.
  unfold phase2_connections.
  apply preserves_bind; [apply plain_update_frame; by repeat constructor |].
  intros _. apply preserves_bind; [apply on_factory_frame |].
  intros connections. apply preserves_bind.
  - destruct (connections_failed connections);
      [apply preserves_throw | apply preserves_ret].
  - intros _. apply plain_update_frame. constructor.
Qed.

(** The [try] block ends in phase 2 at the latest. *)
Lemma try_block_frame (targetDirectory : string) :
  preserves P (try_block E pipelineId targetDirectory).
Proof.
  intros w w' r HP. unfold try_block.
  destruct (load_factory E w) as [w1 [[] | e]] eqn:H1;
    [rewrite (bind_run _ _ _ _ _ H1)
    | rewrite (bind_throw _ _ _ _ _ H1); intros [= <- _];
      exact (load_factory_frame _ _ _ HP H1)].
  pose proof (load_factory_frame _ _ _ HP H1) as HP1.
  destruct (phase1_clear E pipelineId w1) as [w2 [[] | e]] eqn:H2;
    [rewrite (bind_run _ _ _ _ _ H2)
    | rewrite (bind_throw _ _ _ _ _ H2); intros [= <- _];
      exact (phase1_clear_frame _ _ _ HP1 H2)].
  pose proof (phase1_clear_frame _ _ _ HP1 H2) as HP2.
  destruct (phase2_connections_throws E pipelineId w2) as (w3 & e & H3 & _).
  rewrite (bind_throw _ _ _ _ _ H3). intros [= <- _].
  exact (phase2_connections_frame _ _ _ HP2 H3).
Qed.

Lemma catch_block_frame (err : error) : preserves P (catch_block E pipelineId err).
Proof.
  unfold catch_block. apply preserves_bind; [apply toISOString_frame |].
  intros endTime. apply plain_update_frame. by repeat constructor.
Qed.

Lemma finally_block_frame : preserves P (finally_block E).
Proof.
  apply registry_frame. intros w w' r Hrun.
  destruct (finally_block_run E w) as (w2 & r2 & Hrun2 & Hreg & _).
  rewrite Hrun in Hrun2. by injection Hrun2 as <- _.
Qed.

(** What holds of the registry once the record is registered holds when
    the invocation ends. *)
Lemma startPipelineAsync_frame (targetDirectory : string) (w : world) :
  Q (activePipelines (prelude E pipelineId targetDirectory w).1) →
  Q (activePipelines (startPipelineAsync E pipelineId targetDirectory w).1).
Proof.
  intros HP.
  destruct (prelude_run E pipelineId targetDirectory w) as (w0 & Hprelude & _).
  rewrite Hprelude in HP. cbn [fst] in HP.
  unfold startPipelineAsync. rewrite (bind_run _ _ _ _ _ Hprelude).
  match goal with
  | |- Q (activePipelines (?m w0).1) =>
      assert (preserves P m) as Hm;
        [| destruct (m w0) as [w' r] eqn:Hrun; exact (Hm _ _ _ HP Hrun)]
  end.
  apply preserves_try_finally; [| apply finally_block_frame].
  apply preserves_try_catch; [apply try_block_frame |].
  intros err. apply catch_block_frame.
Qed.

End RegistryFrame.

(** X20: a key of the form [progress.<section>.<field>], as every caller
    of [updatePipelineStatus] in the file writes it, is split on its first
    two segments only.  The value lands in [progress.progress.<section>]
    and the section the caller meant keeps the values it had. *)
Theorem progress_keys_miss_their_section
    (E : PipelineApi.environment) (pipelineId section field logMessage : string)
    (v : value) (w : PipelineApi.world) (p : PipelineApi.pipeline) :
  PipelineApi.activePipelines w !! pipelineId = Some p →
  PipelineApi.includes_dot section = false →
  section ≠ "progress"%string →
  ∃ w' p',
    PipelineApi.updatePipelineStatus E pipelineId
      [("progress." ++ section ++ "." ++ field, v)%string] logMessage w
    = (w', Ok tt)
    ∧ PipelineApi.activePipelines w' !! pipelineId = Some p'
    ∧ PipelineApi.progress p' !! section = PipelineApi.progress p !! section
    ∧ PipelineApi.progress p' !! "progress"
      = Some (<[section := v]>
                (default ∅ (PipelineApi.progress p !! "progress"))).
Proof.
  intros Hp Hsection Hne.
  destruct (updatePipelineStatus_run E pipelineId
              [("progress." ++ section ++ "." ++ field, v)%string] logMessage w p Hp)
    as (w' & p' & Hrun & Hreg & _ & Hprogress & _).
  exists w', p'. split; [exact Hrun |].
  split; [by rewrite Hreg, lookup_insert_eq |].
  rewrite Hprogress. cbn [foldl]. unfold PipelineApi.apply_update.
  change ("progress." ++ section ++ "." ++ field)%string
    with ("progress" ++ String "." (section ++ String "." field))%string.
  rewrite includes_dot_app. unfold PipelineApi.split_key.
  rewrite before_dot_app, after_dot_app, before_dot_app by done.
  cbn [PipelineApi.progress].
  split; [by rewrite lookup_insert_ne | by rewrite lookup_insert_eq].
Qed.

Lemma progress_keys_miss_their_section_witness :
  ∃ w' p',
    PipelineApi.updatePipelineStatus Samples.healthy "pipeline-1"
      [("progress.entityScout.status", VStr "running")]
      "Phase 3" Samples.world_with_a_pipeline
    = (w', Ok tt)
    ∧ PipelineApi.activePipelines w' !! "pipeline-1" = Some p'
    ∧ PipelineApi.progress p' !! "entityScout"
      = PipelineApi.initial_progress !! "entityScout"
    ∧ PipelineApi.progress p' !! "progress"
      = Some {["entityScout" := VStr "running"]}.
Proof.
  destruct (progress_keys_miss_their_section Samples.healthy
              "pipeline-1" "entityScout" "status" "Phase 3" (VStr "running")
              Samples.world_with_a_pipeline
              (default (PipelineApi.Pipeline ∅ ∅ [])
                 (PipelineApi.activePipelines Samples.world_with_a_pipeline
                    !! "pipeline-1")))
    as (w' & p' & Hrun & Hp' & Hsection & Hprogress).
  - vm_compute. reflexivity.
  - reflexivity.
  - discriminate.
  - exists w', p'. split; [exact Hrun |]. split; [exact Hp' |].
    split; [exact Hsection | exact Hprogress].
Defined.

(** X21: no invocation of [startPipelineAsync] updates the progress of
    its pipeline: when it ends, the three sections are as the invocation
    registered them, [pending] with counters at zero. *)
Theorem progress_is_never_updated
    (E : PipelineApi.environment) (pipelineId targetDirectory : string)
    (w : PipelineApi.world) :
  ∃ p,
    PipelineApi.activePipelines
      (PipelineApi.startPipelineAsync E pipelineId targetDirectory w).1
      !! pipelineId = Some p
    ∧ PipelineApi.progress p = PipelineApi.initial_progress.
Proof.
  apply (startPipelineAsync_frame E pipelineId
           (λ m, ∃ p, m !! pipelineId = Some p
                      ∧ PipelineApi.progress p = PipelineApi.initial_progress)).
  - intros m p p' (p0 & Hp0 & Hprogress) Hp Hp'. exists p'.
    rewrite lookup_insert_eq. split; [done |]. congruence.
  - destruct (prelude_registry E pipelineId targetDirectory w) as (p & -> & Hp).
    exists p. by rewrite lookup_insert_eq.
Qed.

(** X22: an invocation of [startPipelineAsync] touches no record of the
    registry but its own. *)
Theorem other_pipelines_are_left_alone
    (E : PipelineApi.environment) (pipelineId targetDirectory other : string)
    (w : PipelineApi.world) :
  other ≠ pipelineId →
  PipelineApi.activePipelines
    (PipelineApi.startPipelineAsync E pipelineId targetDirectory w).1 !! other
  = PipelineApi.activePipelines w !! other.
Proof.
  intros Hother.
  apply (startPipelineAsync_frame E pipelineId
           (λ m, m !! other = PipelineApi.activePipelines w !! other)).
  - intros m p p' Hm _ _. by rewrite lookup_insert_ne.
  - destruct (prelude_registry E pipelineId targetDirectory w) as (p & -> & _).
    by rewrite lookup_insert_ne.
Qed.

Lemma other_pipelines_are_left_alone_witness :
  PipelineApi.activePipelines
    (PipelineApi.startPipelineAsync Samples.healthy "pipeline-2" "/repo"
       Samples.world_with_a_pipeline).1 !! "pipeline-1"
  = PipelineApi.activePipelines Samples.world_with_a_pipeline !! "pipeline-1".
Proof.
  apply (other_pipelines_are_left_alone Samples.healthy "pipeline-2" "/repo"
           "pipeline-1" Samples.world_with_a_pipeline).
  discriminate.
Defined.

(** X23: [testConnection] answers [true] only when the oracle answered:
    one of the five attempts of the call was answered with a 2xx, every
    attempt before it failed with a retryable error, and the text of the
    answer contains "Connection successful".  Every failure on the way is
    turned into [false]. *)
Theorem testConnection_true_needs_an_answer
    (key : value) (wires : nat → AnthropicClient.wire) :
  AnthropicClient.testConnection key wires = true →
  ∃ k response body,
    (k < AnthropicClient.default_retries)%nat
    ∧ (∀ j, (j < k)%nat → AnthropicClient.fails_retryably key wires j)
    ∧ AnthropicClient._makeRequest key (wires k) = Ok response
    ∧ (AnthropicClient.call_result response
         ≫= λ r, AnthropicClient.read_prop r "body") = Ok body
    ∧ AnthropicClient.includes body "Connection successful" = Ok true.
Proof.
  unfold AnthropicClient.testConnection, AnthropicClient.call.
  destruct (AnthropicClient.scheduled key wires) as [response | e] eqn:Hs;
    cbn [mbind AnthropicClient.result_bind]; [| done].
  destruct (AnthropicClient.call_result response) as [r | e] eqn:Hr;
    cbn [mbind AnthropicClient.result_bind]; [| done].
  destruct (AnthropicClient.read_prop r "body") as [body | e] eqn:Hbody;
    cbn [mbind AnthropicClient.result_bind]; [| done].
  destruct (AnthropicClient.includes body "Connection successful")
    as [b | e] eqn:Hinc; [| done].
  intros ->.
  unfold AnthropicClient.scheduled, AnthropicClient._makeRequestWithRetry in Hs.
  destruct (retry_loop_course key wires AnthropicClient.default_retries
              AnthropicClient.default_delay AnthropicClient.default_retries 0)
    as (H1 & Hearlier & Hlast & _); [done | done |].
  destruct (retry_loop_attempts key wires AnthropicClient.default_retries
              AnthropicClient.default_delay AnthropicClient.default_retries 0)
    as [_ Hle]; [done |].
  cbn zeta in H1, Hearlier, Hlast.
  set (run := AnthropicClient.retry_loop key wires AnthropicClient.default_retries
                AnthropicClient.default_delay AnthropicClient.default_retries 0) in *.
  exists (AnthropicClient.attempts run - 1)%nat, response, body.
  split; [lia |]. split; [intros j Hj; apply Hearlier; lia |].
  split; [by rewrite <- Hs, Hlast |].
  split; [| done]. rewrite Hr. exact Hbody.
Qed.

Lemma testConnection_true_needs_an_answer_witness :
  ∃ k response body,
    (k < AnthropicClient.default_retries)%nat
    ∧ (∀ j, (j < k)%nat →
            AnthropicClient.fails_retryably (VStr "sk-test") Samples.flaky_then_ok j)
    ∧ AnthropicClient._makeRequest (VStr "sk-test") (Samples.flaky_then_ok k)
      = Ok response
    ∧ (AnthropicClient.call_result response
         ≫= λ r, AnthropicClient.read_prop r "body") = Ok body
    ∧ AnthropicClient.includes body "Connection successful" = Ok true.
Proof.
  apply (testConnection_true_needs_an_answer (VStr "sk-test") Samples.flaky_then_ok).
  vm_compute. reflexivity.
Defined.
